(** * PrintLe server: page ranges, manual duplex splitting and IPP attributes

    A shallow embedding of [printle-server/server.js]: the page range
    resolver [getPageIndices] and the [/api/print] request handler, with
    the properties of its specification checked against it.

    JavaScript numbers are IEEE 754 binary64 values.  They are modelled
    with the reference implementation of the Standard Library
    ([SpecFloat], 53 bits of precision, infinities at exponent 1024), so
    that [Number(...)], [i++], [i - 1], [<=] and [a - b] are the
    operations of the source and not an idealisation of them. *)

From Stdlib Require Import ZArith Lia Bool List Ascii String.
From Stdlib Require Import Sorted Permutation.
From Stdlib Require Import Floats.SpecFloat.
From stdpp Require Import base option list gmap strings.

Import ListNotations.
Local Open Scope Z_scope.

(** ** JavaScript numbers *)

Module JsNumber.

Definition prec : Z := 53.
Definition emax : Z := 1024.

Definition number : Type := spec_float.

Definition NaN : number := S754_nan.
Definition Infinity : number := S754_infinity false.

(** The number that an integer literal or an integer-valued expression
    denotes: the nearest binary64 value (exact up to [2^53]). *)
Definition ofZ (z : Z) : number := binary_normalize prec emax z 0 false.

Definition add (x y : number) : number := SFadd prec emax x y.
Definition sub (x y : number) : number := SFsub prec emax x y.
Definition div (x y : number) : number := SFdiv prec emax x y.

(** [x < y], [x <= y], [x > y] of the language: false as soon as an operand
    is [NaN]. *)
Definition lt (x y : number) : bool := SFltb x y.
Definition le (x y : number) : bool := SFleb x y.
Definition gt (x y : number) : bool := SFltb y x.

(** The comparison used by [Set]: like [===] but with [NaN] equal to
    itself (and [+0] equal to [-0]). *)
Definition SameValueZero (x y : number) : bool :=
  match x, y with
  | S754_nan, S754_nan => true
  | _, _ => SFeqb x y
  end.

(** [2^53 - 1], the largest integer below which every integer and its
    successor are represented exactly. *)
Definition MAX_SAFE_INTEGER : Z := 9007199254740991.

End JsNumber.

Import JsNumber.

(** ** JavaScript strings

    A string is the list of its characters.  The characters of the type
    [ascii] are the code units below 256; that covers every character with
    a meaning for the resolver (digits, signs, separators, white space). *)

Module JsString.

Definition chars : Type := list ascii.

Definition is_ws (c : ascii) : bool :=
  let n := N_of_ascii c in
  ((9 <=? n) && (n <=? 13) || (n =? 32) || (n =? 160))%N.

Fixpoint trimStart (s : chars) : chars :=
  match s with
  | c :: r => if is_ws c then trimStart r else s
  | [] => []
  end.

Definition trimEnd (s : chars) : chars := rev (trimStart (rev s)).

(** [s.trim()] *)
Definition trim (s : chars) : chars := trimEnd (trimStart s).

(** [s.includes(c)] for a one-character [c] *)
Definition includes (c : ascii) (s : chars) : bool :=
  existsb (Ascii.eqb c) s.

(** [s.split(c)] for a one-character separator: the pieces between the
    occurrences of [c]; a string without [c] (the empty one too) gives one
    piece. *)
Fixpoint split (c : ascii) (s : chars) : list chars :=
  match s with
  | [] => [[]]
  | x :: r =>
      if Ascii.eqb x c then [] :: split c r
      else match split c r with
           | p :: ps => (x :: p) :: ps
           | [] => [[x]]
           end
  end.

End JsString.

Import JsString.

(** ** [Number(string)]

    The string-to-number conversion of the language: white space is
    stripped on both sides, the empty string is [+0], a decimal literal
    (optional sign, digits with an optional fraction, optional exponent, or
    [Infinity]) or an unsigned binary, octal or hexadecimal integer literal
    is its value rounded to the nearest number, and anything else is
    [NaN].  The rounding is the exact one (to nearest, ties to even) on all
    the digits, as Node does it; the language also allows an engine to look
    at the first twenty significant digits only. *)

Module StringToNumber.

Definition digit_of (base : Z) (c : ascii) : option Z :=
  let n := Z.of_N (N_of_ascii c) in
  let v :=
    if (48 <=? n) && (n <=? 57) then n - 48
    else if (97 <=? n) && (n <=? 102) then n - 87
    else if (65 <=? n) && (n <=? 70) then n - 55
    else 99 in
  if v <? base then Some v else None.

Definition is_digit (c : ascii) : bool :=
  match digit_of 10 c with Some _ => true | None => false end.

(** The longest prefix of decimal digits, and what follows it. *)
Fixpoint span_digits (s : chars) : chars * chars :=
  match s with
  | c :: r =>
      if is_digit c then let '(d, t) := span_digits r in (c :: d, t)
      else ([], s)
  | [] => ([], [])
  end.

(** The value of a sequence of digits in a base, most significant first;
    [None] when a character is not a digit of that base. *)
Fixpoint digits_value (base : Z) (acc : Z) (s : chars) : option Z :=
  match s with
  | [] => Some acc
  | c :: r =>
      match digit_of base c with
      | Some v => digits_value base (base * acc + v) r
      | None => None
      end
  end.

Definition decimal_value (s : chars) : Z :=
  match digits_value 10 0 s with Some v => v | None => 0 end.

(** The optional exponent part: [e] or [E], an optional sign, at least one
    digit, and nothing after it. *)
Definition parse_exponent (s : chars) : option Z :=
  match s with
  | [] => Some 0
  | c :: r =>
      if Ascii.eqb c "e" || Ascii.eqb c "E" then
        let '(neg, r') :=
          match r with
          | "+"%char :: t => (false, t)
          | "-"%char :: t => (true, t)
          | _ => (false, r)
          end in
        match span_digits r' with
        | ([], _) => None
        | (d, []) => Some (if neg then - decimal_value d else decimal_value d)
        | (_, _ :: _) => None
        end
      else None
  end.

(** An unsigned decimal literal other than [Infinity]: its digits as an
    integer and the power of ten that scales them. *)
Definition parse_unsigned_decimal (s : chars) : option (Z * Z) :=
  let '(ip, r1) := span_digits s in
  let '(fp, r2) :=
    match r1 with
    | "."%char :: r => span_digits r
    | _ => ([], r1)
    end in
  match ip ++ fp with
  | [] => None
  | ds =>
      match parse_exponent r2 with
      | Some e => Some (decimal_value ds, e - Z.of_nat (length fp))
      | None => None
      end
  end.

(** The number nearest to [m * 10^e] (ties to even), with the given sign. *)
Definition round_decimal (neg : bool) (m e : Z) : number :=
  match m with
  | Zpos p =>
      if 0 <=? e then
        binary_normalize prec emax ((if neg then Zneg p else Zpos p) * 10 ^ e) 0 false
      else
        div (S754_finite neg p 0) (S754_finite false (Z.to_pos (10 ^ (- e))) 0)
  | _ => S754_zero neg
  end.

Definition parse_decimal (neg : bool) (s : chars) : number :=
  if String.eqb (string_of_list_ascii s) "Infinity" then S754_infinity neg
  else match parse_unsigned_decimal s with
       | Some (m, e) => round_decimal neg m e
       | None => NaN
       end.

(** [0b...], [0o...], [0x...] (either case of the letter), at least one
    digit. *)
Definition parse_non_decimal (s : chars) : option Z :=
  match s with
  | "0"%char :: c :: ds =>
      match ds with
      | [] => None
      | _ :: _ =>
          if Ascii.eqb c "x" || Ascii.eqb c "X" then digits_value 16 0 ds
          else if Ascii.eqb c "o" || Ascii.eqb c "O" then digits_value 8 0 ds
          else if Ascii.eqb c "b" || Ascii.eqb c "B" then digits_value 2 0 ds
          else None
      end
  | _ => None
  end.

Definition Number (s : chars) : number :=
  match trim s with
  | [] => S754_zero false
  | t =>
      match parse_non_decimal t with
      | Some z => ofZ z
      | None =>
          match t with
          | "+"%char :: r => parse_decimal false r
          | "-"%char :: r => parse_decimal true r
          | _ => parse_decimal false t
          end
      end
  end.

End StringToNumber.

Import StringToNumber.

(** ** Computations

    A run of the server code returns a value, throws (the handler catches
    every exception in one place), or does not finish: the [for] loop of the
    resolver has no bound of its own, so it is run with fuel. *)

Inductive comp (A : Type) : Type :=
  | Done (a : A)
  | Thrown
  | OutOfFuel.
Arguments Done {A} a.
Arguments Thrown {A}.
Arguments OutOfFuel {A}.

#[global] Instance comp_ret : MRet comp := @Done.
#[global] Instance comp_bind : MBind comp := fun A B f m =>
  match m with
  | Done a => f a
  | Thrown => Thrown
  | OutOfFuel => OutOfFuel
  end.

(** ** The page range resolver ([getPageIndices], server.js 23-40) *)

(** The value returned: [null], or an array of numbers. *)
Inductive indices_value : Type :=
  | null
  | Array (elems : list number).

(** [indices.add(x)] on a [Set], kept as the list of its elements in
    insertion order ([-0] is stored as [+0]). *)
Definition Set_add (x : number) (indices : list number) : list number :=
  let x := match x with S754_zero _ => S754_zero false | _ => x end in
  if existsb (SameValueZero x) indices then indices else indices ++ [x].

(** [for (let i = start; i <= end; i++) if (i > 0 && i <= totalPages) indices.add(i - 1)] *)
Fixpoint range_loop (fuel : nat) (i end_ totalPages : number)
    (indices : list number) : comp (list number) :=
  match fuel with
  | O => OutOfFuel
  | S fuel' =>
      if le i end_ then
        let indices' :=
          if gt i (ofZ 0) && le i totalPages
          then Set_add (sub i (ofZ 1)) indices
          else indices in
        range_loop fuel' (add i (ofZ 1)) end_ totalPages indices'
      else Done indices
  end.

(** The body of [parts.forEach]: one comma-separated part.  The elements
    that [[start, end]] does not find in the array are [undefined], which
    is [NaN] wherever the loop uses them. *)
Definition add_part (fuel : nat) (totalPages : number)
    (indices : list number) (part : chars) : comp (list number) :=
  let part := trim part in
  if includes "-" part then
    let nums := map Number (split "-" part) in
    let start := nth 0 nums NaN in
    let end_ := nth 1 nums NaN in
    range_loop fuel start end_ totalPages indices
  else
    let page := Number part in
    Done (if gt page (ofZ 0) && le page totalPages
          then Set_add (sub page (ofZ 1)) indices
          else indices).

(** [(a, b) => a - b] *)
Definition compareFn (a b : number) : number := sub a b.

(** [array.sort(compareFn)].  For a comparison function that is consistent
    on the elements the language fixes the result: the stable ordering, which
    insertion from left to right computes. *)
Fixpoint sort_insert (x : number) (sorted : list number) : list number :=
  match sorted with
  | [] => [x]
  | y :: r =>
      if gt (compareFn y x) (ofZ 0) then x :: y :: r
      else y :: sort_insert x r
  end.

Definition Array_sort (l : list number) : list number :=
  fold_left (fun acc x => sort_insert x acc) l [].

Definition getPageIndices (fuel : nat) (rangeStr : string)
    (totalPages : number) : comp indices_value :=
  if String.eqb rangeStr "" then Done null
  else
    let parts := split "," (list_ascii_of_string rangeStr) in
    indices ← foldl (fun acc part =>
                       indices ← acc; add_part fuel totalPages indices part)
                    (Done []) parts;
    Done (Array (Array_sort indices)).

(** ** The request handler ([app.post('/api/print')], server.js 42-143) *)

(** The uploaded file as [multer] hands it over; [content] is what
    [fs.readFileSync(file.path)] reads. *)
Record upload : Type := {
  originalname : string;
  mimetype : string;
  content : list Byte.byte
}.

(** The fields of [req.file] and [req.body]; a field that was not sent is
    [undefined] ([None]). *)
Record request : Type := {
  file : option upload;
  printerUrl : option string;
  duplex : option string;
  pages : option string;
  grayscale : option string
}.

(** Truthiness of a value that is a string or [undefined]. *)
Definition truthy (v : option string) : bool :=
  match v with
  | Some s => negb (String.eqb s "")
  | None => false
  end.

(** [v === s] *)
Definition is_string (v : option string) (s : string) : bool :=
  match v with
  | Some s' => String.eqb s' s
  | None => false
  end.

(** The argument of [printer.execute("Print-Job", ...)]. *)
Record print_job : Type := {
  requesting_user_name : string;
  job_name : string;
  document_format : string;
  job_attributes : gmap string string;
  data : list Byte.byte
}.

(** What the callback of [printer.execute] receives: an error, or a
    response with its status code.  The response has a group
    [job-attributes-tag], in which [job-id] may be missing, or it has no
    such group. *)
Inductive ipp_result : Type :=
  | ipp_err (details : string)
  | ipp_response (statusCode : string) (job_id : option Z)
  | ipp_response_without_job_attributes (statusCode : string).

(** The response sent back, one constructor for each [res.json] call.
    [NoResponse]: the callback throws before any of them (server.js 132),
    outside the [try], and nothing is sent. *)
Inductive response : Type :=
  | MissingFileOrPrinterUrl                    (* 400 *)
  | PrinterConnectionFailed (details : string) (* 500 *)
  | PrintSuccess (jobId : option Z)            (* 200, success: true *)
  | PrinterReportedError (ippStatus : string)  (* 500 *)
  | InternalServerError                        (* 500 *)
  | NoResponse.

(** The job attributes: an empty object, to which the handler adds
    [print-color-mode] under [grayscale] and [sides] under [duplexType ===
    'auto'] (server.js 109-124). *)
Definition jobAttributes (grayscale : bool) (duplexType : option string)
    : gmap string string :=
  let attrs : gmap string string := ∅ in
  let attrs :=
    if grayscale then <["print-color-mode" := "monochrome"]> attrs else attrs in
  let attrs :=
    if is_string duplexType "auto"
    then <["sides" := "two-sided-long-edge"]> attrs else attrs in
  attrs.

(** The index that [srcPages[x]] reads for a number [x]: [x] itself when
    it is a non-negative integer. *)
Definition array_index (x : number) : option nat :=
  match x with
  | S754_zero _ => Some 0%nat
  | S754_finite false m e =>
      match e with
      | Zneg k =>
          if (Zpos m mod 2 ^ Zpos k =? 0)
          then Some (Z.to_nat (Zpos m / 2 ^ Zpos k)) else None
      | _ => Some (Z.to_nat (Zpos m * 2 ^ e))
      end
  | _ => None
  end.

Section Handler.

(** The PDF library and the printer are outside the server.  A loaded
    document is the list of its pages; loading fails on what is not a PDF;
    [execute] is the answer of the printer to a job. *)
Variable Page : Type.
Variable PDFDocument_load : list Byte.byte -> option (list Page).
Variable PDFDocument_save : list Page -> list Byte.byte.
Variable execute : string -> print_job -> ipp_result.

(** [newPdf.copyPages(pdfDoc, indices)]: the pages of [pdfDoc] at the
    indices, in the order of the indices; an index that is not one of
    [pdfDoc] throws. *)
Fixpoint copyPages (pdfDoc : list Page) (indices : list number)
    : comp (list Page) :=
  match indices with
  | [] => Done []
  | x :: rest =>
      match array_index x ≫= (fun i => pdfDoc !! i) with
      | Some page => copied ← copyPages pdfDoc rest; Done (page :: copied)
      | None => Thrown
      end
  end.

(** [if (pageRange) {...}] (server.js 67-76): the document and the flag
    [modified] after it. *)
Definition selectPages (fuel : nat) (pageRange : option string)
    (pdfDoc : list Page) : comp (list Page * bool) :=
  if truthy pageRange then
    indices ← getPageIndices fuel (default "" pageRange)
                (ofZ (Z.of_nat (length pdfDoc)));
    match indices with
    | Array (x :: l) =>
        copiedPages ← copyPages pdfDoc (x :: l);
        let newPdf := foldl (fun newPdf page => newPdf ++ [page]) [] copiedPages in
        Done (newPdf, true)
    | _ => Done (pdfDoc, false)
    end
  else Done (pdfDoc, false).

(** The test of the duplex loop on the index [i] (server.js 82-83). *)
Definition keepsPage (duplexType : option string) (i : nat) : bool :=
  let isOddIndex := (i mod 2 =? 0)%nat in
  is_string duplexType "odd" && isOddIndex
  || is_string duplexType "even" && negb isOddIndex.

(** [for (let i = 0; i < pageCount; i++) ...] (server.js 79-88): the
    counter stays below the page count, so it is a natural number here. *)
Definition splitLoop (duplexType : option string) (pdfDoc : list Page)
    : comp (list Page) :=
  foldl (fun acc i =>
           newPdf ← acc;
           if keepsPage duplexType i then
             match pdfDoc !! i with
             | Some page => Done (newPdf ++ [page])
             | None => Thrown
             end
           else Done newPdf)
        (Done []) (seq 0 (length pdfDoc)).

(** [if (duplexType === 'odd' || duplexType === 'even') {...}]
    (server.js 78-90). *)
Definition splitDuplex (duplexType : option string)
    (doc : list Page * bool) : comp (list Page * bool) :=
  if is_string duplexType "odd" || is_string duplexType "even" then
    newPdf ← splitLoop duplexType (fst doc);
    Done (newPdf, true)
  else Done doc.

(** The bytes that are sent (server.js 60-99). *)
Definition prepare (fuel : nat) (f : upload) (duplexType pageRange : option string)
    : comp (list Byte.byte) :=
  let fileBuffer := content f in
  if String.eqb (mimetype f) "application/pdf" then
    match PDFDocument_load fileBuffer with
    | None => Thrown
    | Some pdfDoc =>
        doc ← selectPages fuel pageRange pdfDoc;
        doc ← splitDuplex duplexType doc;
        let '(pdfDoc, modified) := doc in
        Done (if modified : bool then PDFDocument_save pdfDoc else fileBuffer)
    end
  else Done fileBuffer.

(** The outcome of a request: the job handed to the printer, if any, and
    the response. *)
Record outcome : Type := {
  submitted : option print_job;
  reply : response
}.

Definition successful (statusCode : string) : bool :=
  String.eqb statusCode "successful-ok"
  || String.eqb statusCode "successful-ok-ignored-or-substituted-attributes".

(** The callback of [printer.execute] (server.js 127-136).  On a
    successful status it reads [response['job-attributes-tag']['job-id']],
    which throws when the response has no such group. *)
Definition respond (result : ipp_result) : response :=
  match result with
  | ipp_err details => PrinterConnectionFailed details
  | ipp_response statusCode job_id =>
      if successful statusCode then PrintSuccess job_id
      else PrinterReportedError statusCode
  | ipp_response_without_job_attributes statusCode =>
      if successful statusCode then NoResponse
      else PrinterReportedError statusCode
  end.

(** The handler; [None] when the resolver does not finish within the
    fuel.  The calls that the model takes as not throwing are reading the
    uploaded file, saving the document and calling the printer. *)
Definition handle (fuel : nat) (req : request) : option outcome :=
  let duplexType := duplex req in
  let pageRange := pages req in
  let grayscale := is_string (grayscale req) "true" in
  match file req with
  | Some f =>
      if truthy (printerUrl req) then
        match prepare fuel f duplexType pageRange with
        | Done fileBuffer =>
            let docFormat :=
              if String.eqb (mimetype f) "application/pdf"
              then "application/pdf" else "application/octet-stream" in
            let job := {|
              requesting_user_name := "PrintLe-User";
              job_name := originalname f;
              document_format := docFormat;
              job_attributes := jobAttributes grayscale duplexType;
              data := fileBuffer |} in
            Some {| submitted := Some job;
                    reply := respond (execute (default "" (printerUrl req)) job) |}
        | Thrown => Some {| submitted := None; reply := InternalServerError |}
        | OutOfFuel => None
        end
      else Some {| submitted := None; reply := MissingFileOrPrinterUrl |}
  | None => Some {| submitted := None; reply := MissingFileOrPrinterUrl |}
  end.

End Handler.

Arguments copyPages {Page} pdfDoc indices.
Arguments selectPages {Page} fuel pageRange pdfDoc.
Arguments splitLoop {Page} duplexType pdfDoc.
Arguments splitDuplex {Page} duplexType doc.
Arguments prepare {Page} PDFDocument_load PDFDocument_save fuel f duplexType pageRange.
Arguments handle {Page} PDFDocument_load PDFDocument_save execute fuel req.

(** ** Reference definitions used by the statements *)

(** The pages of a list whose position, counted from [i], passes a test. *)
Fixpoint pick {A : Type} (keep : nat -> bool) (i : nat) (l : list A) : list A :=
  match l with
  | [] => []
  | x :: r => if keep i then x :: pick keep (S i) r else pick keep (S i) r
  end.

(** *** Well-formed range expressions

    A numeral is a run of decimal digits with white space around it.  A
    token is a page number, a range [start-end], or text in which
    [Number] finds no number.  An expression is its tokens separated by
    commas. *)

Record numeral : Type := {
  lead : chars;
  digits : chars;
  trail : chars
}.

Definition numeral_text (x : numeral) : chars :=
  lead x ++ digits x ++ trail x.

Definition numeral_value (x : numeral) : Z := decimal_value (digits x).

Definition numeral_ok (x : numeral) : bool :=
  forallb is_ws (lead x) && forallb is_digit (digits x)
  && forallb is_ws (trail x) && (numeral_value x <=? MAX_SAFE_INTEGER).

Inductive token : Type :=
  | Single (p : numeral)
  | Range (a b : numeral)
  | Junk (s : chars).

Definition is_nan (x : number) : bool :=
  match x with S754_nan => true | _ => false end.

Definition token_text (t : token) : chars :=
  match t with
  | Single p => numeral_text p
  | Range a b => numeral_text a ++ "-"%char :: numeral_text b
  | Junk s => s
  end.

Definition token_ok (t : token) : bool :=
  match t with
  | Single p => numeral_ok p
  | Range a b => numeral_ok a && numeral_ok b
  | Junk s =>
      negb (includes "," s) && negb (includes "-" s) && is_nan (Number s)
  end.

(** The page numbers a token denotes. *)
Definition denotes (t : token) (p : Z) : Prop :=
  match t with
  | Single x => p = numeral_value x
  | Range a b => numeral_value a <= p <= numeral_value b
  | Junk _ => False
  end.

Fixpoint expr_text (ts : list token) : chars :=
  match ts with
  | [] => []
  | [t] => token_text t
  | t :: r => token_text t ++ ","%char :: expr_text r
  end.

Definition expr_string (ts : list token) : string :=
  string_of_list_ascii (expr_text ts).

(** A request in which only the page range and the duplex directive are
    replaced. *)
Definition with_directives (req : request) (pageRange duplexType : option string)
    : request :=
  {| file := file req; printerUrl := printerUrl req;
     duplex := duplexType; pages := pageRange; grayscale := grayscale req |}.

(** *** A concrete setting

    A library whose pages are numbers: a file of [k] bytes loads as the
    pages [1..k], and a document is saved as one byte for each page; a
    printer that accepts every job. *)

Module Demo.

Definition load (bytes : list Byte.byte) : option (list nat) :=
  Some (seq 1 (length bytes)).

Definition save (doc : list nat) : list Byte.byte :=
  map (fun page => default Byte.x00 (Byte.of_nat page)) doc.

Definition execute (url : string) (job : print_job) : ipp_result :=
  ipp_response "successful-ok" (Some 7).

Definition pdf (pageCount : nat) : upload :=
  {| originalname := "doc.pdf"; mimetype := "application/pdf";
     content := repeat Byte.xff pageCount |}.

Definition text : upload :=
  {| originalname := "notes.txt"; mimetype := "text/plain";
     content := [Byte.x68; Byte.x69] |}.

Definition print (f : upload) (pageRange duplexType : option string) : request :=
  {| file := Some f; printerUrl := Some "ipp://printer:631/ipp/print";
     duplex := duplexType; pages := pageRange; grayscale := Some "true" |}.

Definition page (digits : string) : token :=
  Single {| lead := []; digits := list_ascii_of_string digits; trail := [] |}.

(** The expression [1-3, 5] and the expression [1-3,x, 5]. *)
Definition expr : list token :=
  [ Range {| lead := []; digits := ["1"%char]; trail := [] |}
          {| lead := []; digits := ["3"%char]; trail := [] |};
    Single {| lead := [" "%char]; digits := ["5"%char]; trail := [] |} ].

Definition expr_with_junk : list token :=
  [ Range {| lead := []; digits := ["1"%char]; trail := [] |}
          {| lead := []; digits := ["3"%char]; trail := [] |};
    Junk ["x"%char];
    Single {| lead := [" "%char]; digits := ["5"%char]; trail := [] |} ].

End Demo.

(** *** The resolver on integers

    What the resolver computes on a well-formed expression, written on
    [Z]: the set as a list without repetition, the loop with its number of
    rounds, the sort by insertion. *)

Definition two53 : Z := 9007199254740992.

Definition small (L : list Z) : Prop := Forall (fun z => 0 <= z < two53) L.

Definition Zset_add (x : Z) (L : list Z) : list Z :=
  if existsb (Z.eqb x) L then L else L ++ [x].

Fixpoint Zrange_add (count : nat) (i n : Z) (L : list Z) : list Z :=
  match count with
  | O => L
  | S c =>
      Zrange_add c (i + 1) n
        (if (0 <? i) && (i <=? n) then Zset_add (i - 1) L else L)
  end.

Definition Zadd_token (n : Z) (L : list Z) (t : token) : list Z :=
  match t with
  | Single p =>
      let v := numeral_value p in
      if (0 <? v) && (v <=? n) then Zset_add (v - 1) L else L
  | Range a b =>
      Zrange_add (Z.to_nat (numeral_value b + 1 - numeral_value a))
        (numeral_value a) n L
  | Junk _ => L
  end.

Fixpoint Zinsert (x : Z) (sorted : list Z) : list Z :=
  match sorted with
  | [] => [x]
  | y :: r => if x <? y then x :: y :: r else y :: Zinsert x r
  end.

Definition Zsort (l : list Z) : list Z :=
  fold_left (fun acc x => Zinsert x acc) l [].

Definition Zresolve (n : Z) (ts : list token) : list Z :=
  Zsort (fold_left (Zadd_token n) ts []).

(** The rounds of the loop that a token asks for, and the fuel that is
    enough for an expression. *)
Definition token_steps (t : token) : nat :=
  match t with
  | Range a b => S (Z.to_nat (numeral_value b + 1 - numeral_value a))
  | _ => O
  end.

Definition expr_steps (ts : list token) : nat :=
  fold_right (fun t m => Nat.max (token_steps t) m) O ts.

(** A text that does not start with white space. *)
Definition starts_ok (s : chars) : Prop :=
  match s with
  | [] => True
  | c :: _ => is_ws c = false
  end.

(** ** Reference definitions for the further properties *)

(** The integers from [lo] up to, not including, [hi]. *)
Definition Zinterval (lo hi : Z) : list Z :=
  map (fun k => lo + Z.of_nat k) (seq 0 (Z.to_nat (hi - lo))).

(** The pages of a document at integer indices. *)
Definition pagesAt {Page : Type} (doc : list Page) (l : list Z) : list Page :=
  omap (fun z => doc !! Z.to_nat z) l.

(** Whether a number read as an index finds a page. *)
Definition finds_page {Page : Type} (doc : list Page) (x : number) : bool :=
  match array_index x ≫= (fun i => doc !! i) with
  | Some _ => true
  | None => false
  end.

(** Two lists taken in turn, the first one first. *)
Fixpoint alternate {A : Type} (l1 l2 : list A) : list A :=
  match l1, l2 with
  | x :: r1, y :: r2 => x :: y :: alternate r1 r2
  | _, [] => l1
  | [], _ => l2
  end.

(** The bytes of the job handed to the printer, if there is one. *)
Definition payload {Page : Type} load save execute (fuel : nat) (req : request)
    : option (option (list Byte.byte)) :=
  (fun o => data <$> submitted o) <$> @handle Page load save execute fuel req.

(** ** The client ([App.tsx])

    The state of the component and the functions that choose a file and
    start a print: [handleChange], [resetPrintOptions], [cycleDuplexMode],
    [handlePrint] and [startPrintProcess] (App.tsx 122-255).  The state
    variables that only drive the display ([activeTab], [dragActive]) are
    left out.  [handlePrint] is taken up to its return: the two timers it
    starts after a success (the history entry turning to [completed], the
    form being cleared) run later and are not part of it. *)

Module Client.

Inductive DuplexMode : Type := mode_none | mode_manual | mode_auto.
Inductive Stage : Type := stage_odd | stage_even | stage_single.
Inductive JobStatus : Type :=
  status_queued | status_processing | status_completed | status_failed.

Record PrintJob : Type := {
  id : string;
  fileName : string;
  fileSize : string;
  date : string;
  status : JobStatus;
  printer : string
}.

(** The settings that the print functions read. *)
Record AppSettings : Type := {
  printerName : string;
  printerAddress : string;
  serverUrl : string
}.

(** The state variables of the component.  The selected file is kept as
    the server will receive it (name, type, bytes); [file_] and
    [grayscale_] are the variables [file] and [grayscale]. *)
Record State : Type := {
  file_ : option upload;
  pageRange : string;
  grayscale_ : bool;
  duplexMode : DuplexMode;
  settings : AppSettings;
  isUploading : bool;
  uploadSuccess : bool;
  uploadStage : option Stage;
  showFlipPrompt : bool;
  errorMessage : option string;
  history : list PrintJob
}.

Definition setDuplexMode (v : DuplexMode) (s : State) : State :=
  {| file_ := file_ s; pageRange := pageRange s; grayscale_ := grayscale_ s;
     duplexMode := v; settings := settings s; isUploading := isUploading s;
     uploadSuccess := uploadSuccess s; uploadStage := uploadStage s;
     showFlipPrompt := showFlipPrompt s; errorMessage := errorMessage s;
     history := history s |}.

Definition setIsUploading (v : bool) (s : State) : State :=
  {| file_ := file_ s; pageRange := pageRange s; grayscale_ := grayscale_ s;
     duplexMode := duplexMode s; settings := settings s; isUploading := v;
     uploadSuccess := uploadSuccess s; uploadStage := uploadStage s;
     showFlipPrompt := showFlipPrompt s; errorMessage := errorMessage s;
     history := history s |}.

Definition setUploadSuccess (v : bool) (s : State) : State :=
  {| file_ := file_ s; pageRange := pageRange s; grayscale_ := grayscale_ s;
     duplexMode := duplexMode s; settings := settings s; isUploading := isUploading s;
     uploadSuccess := v; uploadStage := uploadStage s;
     showFlipPrompt := showFlipPrompt s; errorMessage := errorMessage s;
     history := history s |}.

Definition setUploadStage (v : option Stage) (s : State) : State :=
  {| file_ := file_ s; pageRange := pageRange s; grayscale_ := grayscale_ s;
     duplexMode := duplexMode s; settings := settings s; isUploading := isUploading s;
     uploadSuccess := uploadSuccess s; uploadStage := v;
     showFlipPrompt := showFlipPrompt s; errorMessage := errorMessage s;
     history := history s |}.

Definition setShowFlipPrompt (v : bool) (s : State) : State :=
  {| file_ := file_ s; pageRange := pageRange s; grayscale_ := grayscale_ s;
     duplexMode := duplexMode s; settings := settings s; isUploading := isUploading s;
     uploadSuccess := uploadSuccess s; uploadStage := uploadStage s;
     showFlipPrompt := v; errorMessage := errorMessage s;
     history := history s |}.

Definition setErrorMessage (v : option string) (s : State) : State :=
  {| file_ := file_ s; pageRange := pageRange s; grayscale_ := grayscale_ s;
     duplexMode := duplexMode s; settings := settings s; isUploading := isUploading s;
     uploadSuccess := uploadSuccess s; uploadStage := uploadStage s;
     showFlipPrompt := showFlipPrompt s; errorMessage := v;
     history := history s |}.

Definition setHistory (v : list PrintJob) (s : State) : State :=
  {| file_ := file_ s; pageRange := pageRange s; grayscale_ := grayscale_ s;
     duplexMode := duplexMode s; settings := settings s; isUploading := isUploading s;
     uploadSuccess := uploadSuccess s; uploadStage := uploadStage s;
     showFlipPrompt := showFlipPrompt s; errorMessage := errorMessage s;
     history := v |}.

Definition setFile (v : option upload) (s : State) : State :=
  {| file_ := v; pageRange := pageRange s; grayscale_ := grayscale_ s;
     duplexMode := duplexMode s; settings := settings s; isUploading := isUploading s;
     uploadSuccess := uploadSuccess s; uploadStage := uploadStage s;
     showFlipPrompt := showFlipPrompt s; errorMessage := errorMessage s;
     history := history s |}.

Definition setGrayscale (v : bool) (s : State) : State :=
  {| file_ := file_ s; pageRange := pageRange s; grayscale_ := v;
     duplexMode := duplexMode s; settings := settings s; isUploading := isUploading s;
     uploadSuccess := uploadSuccess s; uploadStage := uploadStage s;
     showFlipPrompt := showFlipPrompt s; errorMessage := errorMessage s;
     history := history s |}.

Definition setPageRange (v : string) (s : State) : State :=
  {| file_ := file_ s; pageRange := v; grayscale_ := grayscale_ s;
     duplexMode := duplexMode s; settings := settings s; isUploading := isUploading s;
     uploadSuccess := uploadSuccess s; uploadStage := uploadStage s;
     showFlipPrompt := showFlipPrompt s; errorMessage := errorMessage s;
     history := history s |}.

(** [resetPrintOptions] (App.tsx 130-136) *)
Definition resetPrintOptions (s : State) : State :=
  let s := setUploadSuccess false s in
  let s := setErrorMessage None s in
  let s := setDuplexMode mode_none s in
  let s := setGrayscale false s in
  setPageRange "" s.

(** [handleChange] (App.tsx 122-128), on the files of the input. *)
Definition handleChange (files : list upload) (s : State) : State :=
  match files with
  | f :: _ => resetPrintOptions (setFile (Some f) s)
  | [] => s
  end.

(** [cycleDuplexMode] (App.tsx 138-143) *)
Definition cycleDuplexMode (s : State) : State :=
  match duplexMode s with
  | mode_none => setDuplexMode mode_manual s
  | mode_manual => setDuplexMode mode_auto s
  | mode_auto => setDuplexMode mode_none s
  end.

(** The test on the server URL (App.tsx 151): empty, blank, or without a
    colon. *)
Definition bad_server_url (url : string) : bool :=
  String.eqb url ""
  || match trim (list_ascii_of_string url) with [] => true | _ => false end
  || negb (includes ":" (list_ascii_of_string url)).

(** The form that is posted (App.tsx 161-184), as the server reads it. *)
Definition formData (s : State) (f : upload) (stage : Stage) : request :=
  {| file := Some f;
     printerUrl := Some (printerAddress (settings s));
     duplex :=
       match duplexMode s with
       | mode_auto => Some "auto"
       | mode_manual =>
           match stage with
           | stage_odd => Some "odd"
           | stage_even => Some "even"
           | stage_single => Some "odd"
           end
       | mode_none => None
       end;
     pages :=
       match trim (list_ascii_of_string (pageRange s)) with
       | [] => None
       | _ => Some (pageRange s)
       end;
     grayscale := if grayscale_ s then Some "true" else None |}.

(** What [fetch] gives: a network failure with its message, or the
    response of the server.  [NoResponse] is not a response, and no
    [fetch] gives [http NoResponse]. *)
Inductive fetch_result : Type :=
  | network_error (message : string)
  | http (r : response).

(** [response.ok]: the status is 200 only for a success. *)
Definition response_ok (r : response) : bool :=
  match r with PrintSuccess _ => true | _ => false end.

(** The field [error] of the body of an error response. *)
Definition error_field (r : response) : string :=
  match r with
  | MissingFileOrPrinterUrl => "Missing file or printerUrl"
  | PrinterConnectionFailed _ => "Printer Connection Failed"
  | PrinterReportedError _ => "Printer reported error"
  | InternalServerError => "Internal Server Error"
  | PrintSuccess _ | NoResponse => ""
  end.

Section Print.

(** The outside of the component: [fetch] ([None] when it does not settle
    with a response or a failure that the model knows),
    and what [generateId], [formatBytes] and [new Date()] give for the new
    history entry. *)
Variable fetch : string -> request -> option fetch_result.
Variable generateId : string.
Variable formatBytes : nat -> string.
Variable now : string.

(** The [catch] block of [handlePrint] (App.tsx 239-246). *)
Definition printFailed (detail : string) (s : State) : State :=
  let s := setIsUploading false s in
  let s := setUploadStage None s in
  let url := if String.eqb (serverUrl (settings s)) "" then "N/A"
             else serverUrl (settings s) in
  setErrorMessage
    (Some ("Print Failed. Details: " ++ detail ++ ". Check Server URL: " ++ url))%string s.

(** [handlePrint] (App.tsx 145-247) *)
Definition handlePrint (s0 : State) (stage : Stage) : option State :=
  match file_ s0 with
  | None => Some (setErrorMessage (Some "Please select a file to print.") s0)
  | Some f =>
      if bad_server_url (serverUrl (settings s0)) then
        Some (setErrorMessage
                (Some "Print Failed. Please go to Settings and enter the PrintLe Server URL including the port (e.g., http://192.168.1.X:3001).")
                s0)
      else
        let s := setErrorMessage None s0 in
        let s := setIsUploading true s in
        let s := match stage with
                 | stage_odd => setUploadStage (Some stage_odd) s
                 | stage_even => setUploadStage (Some stage_even) s
                 | stage_single => s
                 end in
        let s := match duplexMode s0, stage with
                 | mode_manual, stage_single => setUploadStage (Some stage_odd) s
                 | _, _ => s
                 end in
        match fetch (serverUrl (settings s0) ++ "/api/print")%string
                (formData s0 f stage) with
        | None => None
        | Some (network_error message) =>
            Some (printFailed
                    (if String.eqb message "" then "Unknown network error."
                     else message) s)
        | Some (http r) =>
            if response_ok r then
              let s := setIsUploading false s in
              let s := setUploadStage None s in
              match duplexMode s0, stage with
              | mode_manual, (stage_single | stage_odd) =>
                  Some (setShowFlipPrompt true s)
              | mode, _ =>
                  let s := match mode with
                           | mode_manual => setShowFlipPrompt false s
                           | _ => s
                           end in
                  let s := setUploadSuccess true s in
                  let newJob := {|
                    id := generateId;
                    fileName := originalname f;
                    fileSize := formatBytes (length (content f));
                    date := now;
                    status := status_queued;
                    printer := printerName (settings s0) |} in
                  Some (setHistory (newJob :: history s) s)
              end
            else
              Some (printFailed
                      ("Server Response Error: " ++ error_field r)%string s)
        end
  end.

(** [startPrintProcess] (App.tsx 249-255) *)
Definition startPrintProcess (s : State) : option State :=
  match duplexMode s with
  | mode_manual => handlePrint s stage_odd
  | _ => handlePrint s stage_single
  end.

End Print.

(** [fetch] when the request reaches this server; [None] when the server
    sends no response. *)
Definition server_fetch {Page : Type} load save execute (fuel : nat)
    (url : string) (req : request) : option fetch_result :=
  match @handle Page load save execute fuel req with
  | Some o =>
      match reply o with
      | NoResponse => None
      | r => Some (http r)
      end
  | None => None
  end.

(** A state of the component before a print, for the examples. *)
Definition demo (f : option upload) (range : string) (gray : bool)
    (mode : DuplexMode) : State :=
  {| file_ := f; pageRange := range; grayscale_ := gray; duplexMode := mode;
     settings := {| printerName := "Office Jet Pro";
                    printerAddress := "ipp://192.168.1.50:631/printers/main";
                    serverUrl := "http://localhost:3001" |};
     isUploading := false; uploadSuccess := false; uploadStage := None;
     showFlipPrompt := false; errorMessage := None; history := [] |}.

End Client.

Ltac ascii_cases c := destruct c as [[] [] [] [] [] [] [] []].

(** * Properties *)

(** ** Integers as numbers

    Up to [2^53] the integers are numbers, and on them the arithmetic and
    the comparisons of the language are those of [Z]. *)

Section NumberFacts.


Lemma iter_pos_nat {A} (f : A -> A) p x :
  SpecFloat.iter_pos f p x = Nat.iter (Pos.to_nat p) f x.
Proof.
  revert x. induction p as [p IH | p IH |]; intro x; cbn [SpecFloat.iter_pos].
  - rewrite !IH, Pos2Nat.inj_xI, <- Nat.iter_add, <- Nat.iter_succ_r.
    f_equal. lia.
  - rewrite !IH, Pos2Nat.inj_xO, <- Nat.iter_add. f_equal. lia.
  - reflexivity.
Qed.

Lemma digits2_bounds p :
  2 ^ (Zpos (digits2_pos p) - 1) <= Zpos p < 2 ^ Zpos (digits2_pos p).
Proof.
  induction p as [p IH | p IH |]; simpl digits2_pos.
  - rewrite Pos2Z.inj_succ. replace (Z.succ (Zpos (digits2_pos p)) - 1) with (Z.succ (Zpos (digits2_pos p) - 1)) by lia.
    rewrite !Z.pow_succ_r by lia. lia.
  - rewrite Pos2Z.inj_succ. replace (Z.succ (Zpos (digits2_pos p)) - 1) with (Z.succ (Zpos (digits2_pos p) - 1)) by lia.
    rewrite !Z.pow_succ_r by lia. lia.
  - simpl. lia.
Qed.

Lemma digits2_unique p d :
  2 ^ (d - 1) <= Zpos p < 2 ^ d -> Zpos (digits2_pos p) = d.
Proof.
  intros [Hl Hu]. pose proof (digits2_bounds p) as [Hl' Hu'].
  assert (Hd : 0 < d).
  { destruct (Z_lt_le_dec 0 d) as [|Hd]; [assumption|].
    destruct (Z.eq_dec d 0) as [->|]; [simpl in Hu; lia|].
    rewrite Z.pow_neg_r in Hu by lia. lia. }
  destruct (Z.lt_trichotomy (Zpos (digits2_pos p)) d) as [H | [H | H]]; [|assumption|].
  - assert (2 ^ Zpos (digits2_pos p) <= 2 ^ (d - 1)) by (apply Z.pow_le_mono_r; lia). lia.
  - assert (2 ^ d <= 2 ^ (Zpos (digits2_pos p) - 1)) by (apply Z.pow_le_mono_r; lia). lia.
Qed.

Lemma digits2_shift p c k :
  0 <= k -> Zpos p = Zpos c * 2 ^ k ->
  Zpos (digits2_pos p) = Zpos (digits2_pos c) + k.
Proof.
  intros Hk Hp. apply digits2_unique. rewrite Hp.
  pose proof (digits2_bounds c) as [Hl Hu].
  replace (Zpos (digits2_pos c) + k - 1) with ((Zpos (digits2_pos c) - 1) + k) by lia.
  rewrite !Z.pow_add_r by lia.
  assert (0 < 2 ^ k) by (apply Z.pow_pos_nonneg; lia).
  split; [apply Z.mul_le_mono_nonneg_r; lia | apply Z.mul_lt_mono_pos_r; lia].
Qed.

Lemma iter_xO_pow m d : Zpos (Pos.iter xO m d) = Zpos m * 2 ^ Zpos d.
Proof.
  induction d as [|d IH] using Pos.peano_ind.
  - simpl. lia.
  - rewrite Pos.iter_succ, Pos2Z.inj_succ, Z.pow_succ_r by lia.
    rewrite Pos2Z.inj_xO, IH. lia.
Qed.

Lemma shr_1_even m :
  0 <= m ->
  shr_1 {| shr_m := 2 * m; shr_r := false; shr_s := false |}
  = {| shr_m := m; shr_r := false; shr_s := false |}.
Proof. intros Hm. destruct m as [|q|q]; [reflexivity | reflexivity | lia]. Qed.

Lemma iter_shr_1_exact (n : nat) m :
  0 <= m ->
  Nat.iter n shr_1 {| shr_m := m * 2 ^ Z.of_nat n; shr_r := false; shr_s := false |}
  = {| shr_m := m; shr_r := false; shr_s := false |}.
Proof.
  intros Hm. induction n as [|n IH].
  - simpl. f_equal. lia.
  - rewrite Nat.iter_succ_r.
    rewrite Nat2Z.inj_succ, Z.pow_succ_r by lia.
    replace (m * (2 * 2 ^ Z.of_nat n)) with (2 * (m * 2 ^ Z.of_nat n)) by lia.
    rewrite shr_1_even; [exact IH|].
    apply Z.mul_nonneg_nonneg; [lia | apply Z.pow_nonneg; lia].
Qed.


Lemma fexp_small d : 1 <= d -> fexp prec emax d = d - 53.
Proof. intros Hd. unfold fexp, emin, prec, emax. lia. Qed.

(** A mantissa of exactly 53 bits is left as it is. *)
Lemma binary_round_aux_53 sx m e :
  Zpos (digits2_pos m) = 53 -> -1074 <= e <= 971 ->
  binary_round_aux prec emax sx (Zpos m) e loc_Exact = S754_finite sx m e.
Proof.
  intros Hd He. unfold binary_round_aux, shr_fexp. cbn [Zdigits2 shr_record_of_loc].
  rewrite Hd. 
  replace (fexp prec emax (53 + e) - e) with 0 by (unfold fexp, emin, prec, emax; lia).
  cbn [shr shr_m loc_of_shr_record round_nearest_even Zdigits2].
  rewrite Hd.
  replace (fexp prec emax (53 + e) - e) with 0 by (unfold fexp, emin, prec, emax; lia).
  cbn [shr shr_m].
  replace (e <=? emax - prec) with true; [reflexivity|].
  symmetry. apply Z.leb_le. unfold emax, prec. lia.
Qed.

Lemma binary_round_exact sx p c k :
  0 <= k -> Zpos p = Zpos c * 2 ^ k -> Zpos (digits2_pos c) <= 53 ->
  binary_round prec emax sx p (- k)
  = S754_finite sx (Z.to_pos (Zpos c * 2 ^ (53 - Zpos (digits2_pos c))))
      (Zpos (digits2_pos c) - 53).
Proof.
  intros Hk Hp Hd.
  pose proof (digits2_shift p c k Hk Hp) as Hdp.
  set (d := Zpos (digits2_pos c)) in *.
  assert (Hd1 : 1 <= d) by (unfold d; lia).
  assert (Hpow : 0 < 2 ^ (53 - d)) by (apply Z.pow_pos_nonneg; lia).
  assert (Hm : Zpos (Z.to_pos (Zpos c * 2 ^ (53 - d))) = Zpos c * 2 ^ (53 - d)).
  { apply Z2Pos.id. lia. }
  assert (Hdm : Zpos (digits2_pos (Z.to_pos (Zpos c * 2 ^ (53 - d)))) = 53).
  { rewrite (digits2_shift _ c (53 - d)); [fold d; lia | lia | exact Hm]. }
  unfold binary_round.
  rewrite Hdp. replace (d + k + - k) with d by lia. rewrite fexp_small by lia.
  unfold shl_align.
  destruct (d - 53 - - k) as [|q|q] eqn:Hs.
  - (* already 53 bits *)
    assert (Z.to_pos (Zpos c * 2 ^ (53 - d)) = p) as ->.
    { apply Pos2Z.inj. rewrite Hm, Hp. f_equal. f_equal. lia. }
    replace (- k) with (d - 53) by lia.
    apply binary_round_aux_53; [|lia].
    rewrite Hdp. lia.
  - (* more than 53 bits: the low bits are zero *)
    unfold binary_round_aux, shr_fexp. cbn [Zdigits2 shr_record_of_loc].
    rewrite Hdp. replace (d + k + - k) with d by lia. rewrite fexp_small by lia.
    rewrite Hs. cbn [shr]. rewrite iter_pos_nat.
    assert (Hpq : Zpos p = (Zpos c * 2 ^ (53 - d)) * 2 ^ Z.of_nat (Pos.to_nat q)).
    { rewrite positive_nat_Z, Hp, <- Z.mul_assoc, <- Z.pow_add_r by lia.
      f_equal. f_equal. lia. }
    rewrite Hpq, iter_shr_1_exact by lia.
    cbn [shr_m loc_of_shr_record round_nearest_even].
    rewrite <- Hm. cbn [Zdigits2]. rewrite Hdm.
    replace (fexp prec emax (53 + (- k + Zpos q)) - (- k + Zpos q)) with 0
      by (unfold fexp, emin, prec, emax; lia).
    cbn [shr shr_m].
    replace (- k + Zpos q <=? emax - prec) with true
      by (symmetry; apply Z.leb_le; unfold emax, prec; lia).
    f_equal. lia.
  - (* fewer than 53 bits: shift left *)
    cbn [fst snd].
    assert (Pos.iter xO p q = Z.to_pos (Zpos c * 2 ^ (53 - d))) as ->.
    { apply Pos2Z.inj. rewrite Hm, iter_xO_pow, Hp, <- Z.mul_assoc, <- Z.pow_add_r by lia.
      f_equal. f_equal. lia. }
    apply binary_round_aux_53; [exact Hdm | lia].
Qed.

Lemma two53_pow : two53 = 2 ^ 53.
Proof. reflexivity. Qed.

Lemma Zdigits2_le_53 c : Zpos c < two53 -> Zpos (digits2_pos c) <= 53.
Proof.
  intros Hc. pose proof (digits2_bounds c) as [Hl _].
  destruct (Z_le_gt_dec (Zpos (digits2_pos c)) 53) as [|Hgt]; [assumption|].
  assert (2 ^ 53 <= 2 ^ (Zpos (digits2_pos c) - 1)) by (apply Z.pow_le_mono_r; lia).
  rewrite two53_pow in Hc. lia.
Qed.

(** The canonical mantissa and exponent of a non-zero integer below [2^53]. *)
Lemma ofZ_pos c :
  Zpos c < two53 ->
  ofZ (Zpos c)
  = S754_finite false (Z.to_pos (Zpos c * 2 ^ (53 - Zpos (digits2_pos c))))
      (Zpos (digits2_pos c) - 53).
Proof.
  intros Hc. unfold ofZ, binary_normalize.
  apply (binary_round_exact false c c 0); [lia | lia | apply Zdigits2_le_53, Hc].
Qed.

Lemma ofZ_neg c :
  Zpos c < two53 ->
  ofZ (Zneg c)
  = S754_finite true (Z.to_pos (Zpos c * 2 ^ (53 - Zpos (digits2_pos c))))
      (Zpos (digits2_pos c) - 53).
Proof.
  intros Hc. unfold ofZ, binary_normalize.
  apply (binary_round_exact true c c 0); [lia | lia | apply Zdigits2_le_53, Hc].
Qed.

(** An integer below [2^53] scaled by a power of two normalises to the
    integer. *)
Lemma normalize_scaled v k :
  0 <= k -> - two53 < v < two53 ->
  binary_normalize prec emax (v * 2 ^ k) (- k) false = ofZ v.
Proof.
  intros Hk Hv.
  assert (Hpow : 0 < 2 ^ k) by (apply Z.pow_pos_nonneg; lia).
  destruct v as [|c|c].
  - reflexivity.
  - rewrite ofZ_pos by lia.
    destruct (Zpos c * 2 ^ k) as [|p|p] eqn:Hp; [lia | | lia].
    unfold binary_normalize.
    apply binary_round_exact; [lia | lia | apply Zdigits2_le_53; lia].
  - rewrite ofZ_neg by lia.
    destruct (Zneg c * 2 ^ k) as [|p|p] eqn:Hp; [lia | lia |].
    unfold binary_normalize.
    apply binary_round_exact; [lia | lia | apply Zdigits2_le_53; lia].
Qed.

Lemma shl_align_scaled m e e' a :
  e' <= e -> e <= 0 -> Zpos m = a * 2 ^ (- e) ->
  Zpos (fst (shl_align m e e')) = a * 2 ^ (- e').
Proof.
  intros He' He Hm. unfold shl_align.
  destruct (e' - e) as [|q|q] eqn:Hq; cbn [fst].
  - rewrite Hm. f_equal. f_equal. lia.
  - lia.
  - rewrite iter_xO_pow, Hm, <- Z.mul_assoc, <- Z.pow_add_r by lia.
    f_equal. f_equal. lia.
Qed.

(** The canonical form as a scaled integer. *)
Lemma canonical_scaled c :
  Zpos c < two53 ->
  let e := Zpos (digits2_pos c) - 53 in
  e <= 0 /\ -52 <= e /\
  Zpos (Z.to_pos (Zpos c * 2 ^ (53 - Zpos (digits2_pos c)))) = Zpos c * 2 ^ (- e).
Proof.
  intros Hc e. pose proof (Zdigits2_le_53 c Hc).
  assert (0 < 2 ^ (53 - Zpos (digits2_pos c))) by (apply Z.pow_pos_nonneg; lia).
  unfold e. repeat split; try lia.
  rewrite Z2Pos.id by lia. f_equal. f_equal. lia.
Qed.

Lemma add_ofZ_pos a b :
  0 < a -> 0 < b -> a + b < two53 -> add (ofZ a) (ofZ b) = ofZ (a + b).
Proof.
  intros Ha Hb Hab.
  destruct a as [|ca|ca]; [lia| |lia]. destruct b as [|cb|cb]; [lia| |lia].
  rewrite (ofZ_pos ca), (ofZ_pos cb) by lia.
  destruct (canonical_scaled ca) as (Ha1 & Ha2 & Ha3); [lia|].
  destruct (canonical_scaled cb) as (Hb1 & Hb2 & Hb3); [lia|].
  unfold add, SFadd. cbn [cond_Zopp].
  set (ea := Zpos (digits2_pos ca) - 53) in *.
  set (eb := Zpos (digits2_pos cb) - 53) in *.
  rewrite (shl_align_scaled _ ea (Z.min ea eb) (Zpos ca)) by (lia || exact Ha3).
  rewrite (shl_align_scaled _ eb (Z.min ea eb) (Zpos cb)) by (lia || exact Hb3).
  rewrite <- Z.mul_add_distr_r.
  rewrite <- (normalize_scaled (Zpos ca + Zpos cb) (- Z.min ea eb)) by lia.
  f_equal. lia.
Qed.

Lemma sub_ofZ_pos a b :
  0 < a < two53 -> 0 < b < two53 -> sub (ofZ a) (ofZ b) = ofZ (a - b).
Proof.
  intros Ha Hb.
  destruct a as [|ca|ca]; [lia| |lia]. destruct b as [|cb|cb]; [lia| |lia].
  rewrite (ofZ_pos ca), (ofZ_pos cb) by lia.
  destruct (canonical_scaled ca) as (Ha1 & Ha2 & Ha3); [lia|].
  destruct (canonical_scaled cb) as (Hb1 & Hb2 & Hb3); [lia|].
  unfold sub, SFsub. cbn [cond_Zopp].
  set (ea := Zpos (digits2_pos ca) - 53) in *.
  set (eb := Zpos (digits2_pos cb) - 53) in *.
  rewrite (shl_align_scaled _ ea (Z.min ea eb) (Zpos ca)) by (lia || exact Ha3).
  rewrite (shl_align_scaled _ eb (Z.min ea eb) (Zpos cb)) by (lia || exact Hb3).
  rewrite <- Z.mul_sub_distr_r.
  rewrite <- (normalize_scaled (Zpos ca - Zpos cb) (- Z.min ea eb)) by lia.
  f_equal. lia.
Qed.

Lemma sub_ofZ a b :
  0 <= a < two53 -> 0 <= b < two53 -> sub (ofZ a) (ofZ b) = ofZ (a - b).
Proof.
  intros Ha Hb.
  destruct (Z.eq_dec a 0) as [-> | Ha0]; [| destruct (Z.eq_dec b 0) as [-> | Hb0]].
  - destruct b as [|cb|cb]; [reflexivity | | lia].
    change (0 - Zpos cb) with (Zneg cb).
    rewrite ofZ_pos, ofZ_neg by lia. reflexivity.
  - rewrite Z.sub_0_r. destruct a as [|ca|ca]; [lia | | lia].
    rewrite ofZ_pos by lia. reflexivity.
  - apply sub_ofZ_pos; lia.
Qed.

Lemma add_ofZ_1 a : 0 <= a < two53 -> add (ofZ a) (ofZ 1) = ofZ (a + 1).
Proof.
  intros Ha.
  destruct (Z.eq_dec a 0) as [-> | Ha0]; [reflexivity|].
  destruct (Z.eq_dec (a + 1) two53) as [He | Hne].
  - assert (a = two53 - 1) as -> by lia. vm_compute. reflexivity.
  - apply add_ofZ_pos; lia.
Qed.

Lemma digits2_lt_lt ca cb :
  Zpos (digits2_pos ca) < Zpos (digits2_pos cb) -> Zpos ca < Zpos cb.
Proof.
  intros H. pose proof (digits2_bounds ca) as [_ Hu]. pose proof (digits2_bounds cb) as [Hl _].
  assert (2 ^ Zpos (digits2_pos ca) <= 2 ^ (Zpos (digits2_pos cb) - 1))
    by (apply Z.pow_le_mono_r; lia).
  lia.
Qed.

Lemma compare_ofZ_pos ca cb :
  Zpos ca < two53 -> Zpos cb < two53 ->
  SFcompare (ofZ (Zpos ca)) (ofZ (Zpos cb)) = Some (Zpos ca ?= Zpos cb).
Proof.
  intros Ha Hb. rewrite !ofZ_pos by assumption.
  pose proof (Zdigits2_le_53 ca Ha) as Hda. pose proof (Zdigits2_le_53 cb Hb) as Hdb.
  cbn [SFcompare]. f_equal.
  destruct (Z.compare_spec (Zpos (digits2_pos ca) - 53) (Zpos (digits2_pos cb) - 53)) as [He | He | He].
  - assert (Hd : Zpos (digits2_pos ca) = Zpos (digits2_pos cb)) by lia.
    rewrite Hd.
    assert (Hpow : 0 < 2 ^ (53 - Zpos (digits2_pos cb))) by (apply Z.pow_pos_nonneg; lia).
    change (Pos.compare_cont Eq ?x ?y) with (Zpos x ?= Zpos y).
    rewrite !Z2Pos.id by lia.
    destruct (Z.compare_spec (Zpos ca) (Zpos cb)) as [E | E | E].
    + rewrite E. apply Z.compare_refl.
    + apply Z.compare_lt_iff. apply Z.mul_lt_mono_pos_r; assumption.
    + apply Z.compare_gt_iff. apply Z.mul_lt_mono_pos_r; assumption.
  - symmetry. apply Z.compare_lt_iff. apply digits2_lt_lt. lia.
  - symmetry. apply Z.compare_gt_iff. apply digits2_lt_lt. lia.
Qed.

Lemma compare_ofZ a b :
  0 <= a <= two53 -> 0 <= b <= two53 ->
  SFcompare (ofZ a) (ofZ b) = Some (a ?= b).
Proof.
  intros Ha Hb.
  destruct (Z.eq_dec a two53) as [-> | Ha'].
  - destruct (Z.eq_dec b two53) as [-> | Hb']; [reflexivity|].
    destruct b as [|cb|cb]; [reflexivity | | lia].
    rewrite ofZ_pos by lia. pose proof (Zdigits2_le_53 cb ltac:(lia)).
    change (ofZ two53) with (S754_finite false 4503599627370496 1).
    cbn [SFcompare]. f_equal.
    replace (1 ?= Zpos (digits2_pos cb) - 53) with Gt by (symmetry; apply Z.compare_gt_iff; lia).
    symmetry. apply Z.compare_gt_iff. lia.
  - destruct (Z.eq_dec b two53) as [-> | Hb'].
    + destruct a as [|ca|ca]; [reflexivity | | lia].
      rewrite ofZ_pos by lia. pose proof (Zdigits2_le_53 ca ltac:(lia)).
      change (ofZ two53) with (S754_finite false 4503599627370496 1).
      cbn [SFcompare]. f_equal.
      replace (Zpos (digits2_pos ca) - 53 ?= 1) with Lt by (symmetry; apply Z.compare_lt_iff; lia).
      symmetry. apply Z.compare_lt_iff. lia.
    + destruct a as [|ca|ca]; [| | lia]; (destruct b as [|cb|cb]; [| | lia]).
      * reflexivity.
      * rewrite ofZ_pos by lia. reflexivity.
      * rewrite ofZ_pos by lia. reflexivity.
      * apply compare_ofZ_pos; lia.
Qed.

Lemma le_ofZ a b :
  0 <= a <= two53 -> 0 <= b <= two53 -> le (ofZ a) (ofZ b) = (a <=? b).
Proof.
  intros Ha Hb. unfold le, SFleb. rewrite compare_ofZ by assumption.
  unfold Z.leb. destruct (a ?= b); reflexivity.
Qed.

Lemma gt_ofZ a b :
  0 <= a <= two53 -> 0 <= b <= two53 -> gt (ofZ a) (ofZ b) = (b <? a).
Proof.
  intros Ha Hb. unfold gt, SFltb. rewrite compare_ofZ by assumption.
  unfold Z.ltb. destruct (b ?= a); reflexivity.
Qed.

Lemma SameValueZero_ofZ a b :
  0 <= a <= two53 -> 0 <= b <= two53 -> SameValueZero (ofZ a) (ofZ b) = (a =? b).
Proof.
  intros Ha Hb.
  assert (Heq : SFeqb (ofZ a) (ofZ b) = (a =? b)).
  { unfold SFeqb. rewrite compare_ofZ by assumption.
    destruct (Z.eqb_spec a b) as [-> | Hne].
    - rewrite Z.compare_refl. reflexivity.
    - destruct (a ?= b) eqn:E; try reflexivity.
      apply Z.compare_eq in E. contradiction. }
  unfold SameValueZero. rewrite Heq.
  destruct (ofZ a) eqn:Ea; try reflexivity.
  destruct (ofZ b) eqn:Eb; try reflexivity.
  (* neither is NaN *)
  exfalso. destruct a as [|ca|ca]; [discriminate | | lia].
  destruct (Z.eq_dec (Zpos ca) two53) as [E | E].
  - rewrite E in Ea. discriminate.
  - rewrite ofZ_pos in Ea by lia. discriminate.
Qed.

(** The sign of an integer-valued difference, as [compareFn] reads it. *)
Lemma gt_ofZ_0 z : - two53 < z < two53 -> gt (ofZ z) (ofZ 0) = (0 <? z).
Proof.
  intros Hz. destruct z as [|c|c].
  - reflexivity.
  - rewrite ofZ_pos by lia. reflexivity.
  - rewrite ofZ_neg by lia. reflexivity.
Qed.

Lemma ofZ_not_zero_neg a : 0 <= a <= two53 ->
  match ofZ a with S754_zero _ => S754_zero false | _ => ofZ a end = ofZ a.
Proof.
  intros Ha. destruct a as [|c|c]; [reflexivity | | lia].
  destruct (Z.eq_dec (Zpos c) two53) as [E | E].
  - rewrite E. reflexivity.
  - rewrite ofZ_pos by lia. reflexivity.
Qed.

Lemma ofZ_inj a b : 0 <= a <= two53 -> 0 <= b <= two53 -> ofZ a = ofZ b -> a = b.
Proof.
  intros Ha Hb E. pose proof (SameValueZero_ofZ a a Ha Ha) as H1.
  rewrite E in H1 at 2. rewrite SameValueZero_ofZ in H1 by assumption.
  rewrite Z.eqb_refl in H1. apply Z.eqb_eq. exact H1.
Qed.

End NumberFacts.

(** ** White space, [trim], [includes] and [split] *)

Section StringFacts.

Lemma trimStart_ws w s : forallb is_ws w = true -> trimStart (w ++ s) = trimStart s.
Proof.
  induction w as [|c w IH]; intros Hw; [reflexivity|].
  cbn in Hw. apply andb_true_iff in Hw as [Hc Hw].
  cbn. rewrite Hc. apply IH, Hw.
Qed.

Lemma trimStart_all_ws w : forallb is_ws w = true -> trimStart w = [].
Proof.
  intros Hw. rewrite <- (app_nil_r w), trimStart_ws by assumption. reflexivity.
Qed.

Lemma trimStart_starts_ok s : starts_ok s -> trimStart s = s.
Proof. destruct s as [|c s]; [reflexivity|]. cbn. intros ->. reflexivity. Qed.

Lemma starts_ok_trimStart s : starts_ok (trimStart s).
Proof.
  induction s as [|c s IH]; [exact I|].
  cbn. destruct (is_ws c) eqn:Hc; [exact IH | exact Hc].
Qed.

Lemma trimStart_idem s : trimStart (trimStart s) = trimStart s.
Proof. apply trimStart_starts_ok, starts_ok_trimStart. Qed.

Lemma trimStart_nonws a c b :
  is_ws c = false -> trimStart (a ++ c :: b) = trimStart a ++ c :: b.
Proof.
  intros Hc. induction a as [|x a IH].
  - cbn. rewrite Hc. reflexivity.
  - cbn. destruct (is_ws x); [exact IH | reflexivity].
Qed.

Lemma trimEnd_nonws a c b :
  is_ws c = false -> trimEnd (a ++ c :: b) = a ++ c :: trimEnd b.
Proof.
  intros Hc. unfold trimEnd.
  rewrite rev_app_distr. cbn [rev]. rewrite <- app_assoc. cbn [app].
  rewrite trimStart_nonws by assumption.
  rewrite rev_app_distr. cbn [rev]. rewrite rev_involutive, <- app_assoc.
  reflexivity.
Qed.

Lemma trimEnd_ws s w : forallb is_ws w = true -> trimEnd (s ++ w) = trimEnd s.
Proof.
  intros Hw. unfold trimEnd. rewrite rev_app_distr, trimStart_ws; [reflexivity|].
  rewrite forallb_forall in *. intros x Hx. apply Hw. apply in_rev. exact Hx.
Qed.

Lemma trimEnd_all_ws w : forallb is_ws w = true -> trimEnd w = [].
Proof. intros Hw. rewrite <- (app_nil_l w), trimEnd_ws by assumption. reflexivity. Qed.

Lemma trimEnd_ends_ok s : starts_ok (rev s) -> trimEnd s = s.
Proof. intros H. unfold trimEnd. rewrite trimStart_starts_ok by assumption. apply rev_involutive. Qed.

(** What [trim] leaves of a string with white space around a text that
    neither starts nor ends with white space. *)
Lemma trim_unique w1 t w2 :
  forallb is_ws w1 = true -> forallb is_ws w2 = true ->
  starts_ok t -> starts_ok (rev t) ->
  trim (w1 ++ t ++ w2) = t.
Proof.
  intros H1 H2 Hs He. unfold trim. rewrite trimStart_ws by assumption.
  destruct t as [|c t].
  - cbn [app]. rewrite trimStart_all_ws by assumption. reflexivity.
  - cbn in Hs. cbn [app]. cbn [trimStart]. rewrite Hs.
    change (c :: t ++ w2) with ((c :: t) ++ w2).
    rewrite trimEnd_ws by assumption. apply trimEnd_ends_ok, He.
Qed.

Lemma trimStart_decompose s :
  exists w, forallb is_ws w = true /\ s = w ++ trimStart s.
Proof.
  induction s as [|c s (w & Hw & E)].
  - exists []. split; reflexivity.
  - cbn. destruct (is_ws c) eqn:Hc.
    + exists (c :: w). cbn. rewrite Hc, Hw. split; [reflexivity | congruence].
    + exists []. split; reflexivity.
Qed.

Lemma trim_comm s : trimStart (trimEnd s) = trimEnd (trimStart s).
Proof.
  destruct (trimStart_decompose s) as (w & Hw & E).
  destruct (trimStart s) as [|c r] eqn:Hu.
  - rewrite app_nil_r in E. subst w.
    rewrite trimEnd_all_ws by assumption. reflexivity.
  - pose proof (starts_ok_trimStart s) as Hc. rewrite Hu in Hc. cbn in Hc.
    rewrite E at 1. rewrite trimEnd_nonws by assumption.
    rewrite trimStart_ws by assumption. cbn [trimStart]. rewrite Hc.
    symmetry. apply (trimEnd_nonws [] c r Hc).
Qed.

Lemma trimEnd_idem s : trimEnd (trimEnd s) = trimEnd s.
Proof. unfold trimEnd. rewrite rev_involutive, trimStart_idem. reflexivity. Qed.

Lemma trim_trimStart s : trim (trimStart s) = trim s.
Proof. unfold trim. rewrite trimStart_idem. reflexivity. Qed.

Lemma trim_trimEnd s : trim (trimEnd s) = trim s.
Proof. unfold trim. rewrite trim_comm, trimEnd_idem. reflexivity. Qed.

Lemma trim_idem s : trim (trim s) = trim s.
Proof. unfold trim at 2. rewrite trim_trimEnd, trim_trimStart. reflexivity. Qed.

Lemma Number_trim s : Number (trim s) = Number s.
Proof. unfold Number. rewrite trim_idem. reflexivity. Qed.

Lemma Number_trimStart s : Number (trimStart s) = Number s.
Proof. unfold Number. rewrite trim_trimStart. reflexivity. Qed.

Lemma Number_trimEnd s : Number (trimEnd s) = Number s.
Proof. unfold Number. rewrite trim_trimEnd. reflexivity. Qed.

(** [includes] and [split] *)

Lemma includes_app c a b : includes c (a ++ b) = includes c a || includes c b.
Proof. apply existsb_app. Qed.

Lemma includes_trimStart c s : includes c s = false -> includes c (trimStart s) = false.
Proof.
  intros H. destruct (trimStart_decompose s) as (w & _ & E).
  rewrite E, includes_app in H. apply orb_false_iff in H as [_ H]. exact H.
Qed.

Lemma includes_rev c s : includes c (rev s) = includes c s.
Proof.
  unfold includes. induction s as [|x s IH]; [reflexivity|].
  cbn [rev]. rewrite existsb_app, IH. cbn. rewrite orb_false_r. apply orb_comm.
Qed.

Lemma includes_trimEnd c s : includes c s = false -> includes c (trimEnd s) = false.
Proof.
  intros H. unfold trimEnd. rewrite includes_rev.
  apply includes_trimStart. rewrite includes_rev. exact H.
Qed.

Lemma includes_trim c s : includes c s = false -> includes c (trim s) = false.
Proof. intros H. apply includes_trimEnd, includes_trimStart, H. Qed.

Lemma split_none c s : includes c s = false -> split c s = [s].
Proof.
  induction s as [|x s IH]; intros H; [reflexivity|].
  cbn in H. apply orb_false_iff in H as [Hx Hs].
  cbn. rewrite Ascii.eqb_sym, Hx, (IH Hs). reflexivity.
Qed.

Lemma split_app c a b :
  includes c a = false -> split c (a ++ c :: b) = a :: split c b.
Proof.
  induction a as [|x a IH]; intros H.
  - cbn. rewrite Ascii.eqb_refl. reflexivity.
  - cbn in H. apply orb_false_iff in H as [Hx Ha].
    cbn. rewrite Ascii.eqb_sym, Hx, (IH Ha). reflexivity.
Qed.

End StringFacts.

(** ** [Number] on decimal digits *)

Section DigitFacts.

Lemma is_digit_cases c :
  is_digit c = true ->
  In c ["0"; "1"; "2"; "3"; "4"; "5"; "6"; "7"; "8"; "9"]%char.
Proof. ascii_cases c; intros H; try discriminate H; cbn; tauto. Qed.

Lemma is_digit_not_ws c : is_digit c = true -> is_ws c = false.
Proof.
  intros H. apply is_digit_cases in H. cbn in H.
  repeat (destruct H as [<- | H]; [reflexivity|]). contradiction.
Qed.

Lemma digits_not_sep sep d :
  is_digit sep = false -> forallb is_digit d = true -> includes sep d = false.
Proof.
  intros Hsep. induction d as [|c d IH]; [reflexivity|].
  intros H. cbn in H. apply andb_true_iff in H as [Hc Hd].
  change (includes sep (c :: d)) with (Ascii.eqb sep c || includes sep d).
  rewrite (IH Hd), orb_false_r. apply Ascii.eqb_neq. intros ->. congruence.
Qed.

Lemma ws_not_sep sep w :
  is_ws sep = false -> forallb is_ws w = true -> includes sep w = false.
Proof.
  intros Hsep. induction w as [|c w IH]; [reflexivity|].
  intros H. cbn in H. apply andb_true_iff in H as [Hc Hw].
  change (includes sep (c :: w)) with (Ascii.eqb sep c || includes sep w).
  rewrite (IH Hw), orb_false_r. apply Ascii.eqb_neq. intros ->. congruence.
Qed.

Lemma digits_starts_ok d : forallb is_digit d = true -> starts_ok d.
Proof.
  destruct d as [|c d]; [exact (fun _ => I)|]. cbn. intros H.
  apply andb_true_iff in H as [Hc _]. apply is_digit_not_ws, Hc.
Qed.

Lemma forallb_rev {A} (f : A -> bool) l : forallb f (rev l) = forallb f l.
Proof.
  induction l as [|x l IH]; [reflexivity|].
  cbn [rev]. rewrite forallb_app, IH. cbn. rewrite andb_true_r. apply andb_comm.
Qed.

Lemma span_digits_all d : forallb is_digit d = true -> span_digits d = (d, []).
Proof.
  induction d as [|c d IH]; [reflexivity|].
  cbn. intros H. apply andb_true_iff in H as [Hc Hd].
  rewrite Hc, (IH Hd). reflexivity.
Qed.

Lemma digits_value_nonneg d : forall acc,
  0 <= acc -> forallb is_digit d = true ->
  exists v, digits_value 10 acc d = Some v /\ 0 <= v.
Proof.
  induction d as [|c d IH]; intros acc Hacc H.
  - exists acc. split; [reflexivity | assumption].
  - cbn in H. apply andb_true_iff in H as [Hc Hd].
    cbn [digits_value]. unfold is_digit in Hc.
    destruct (digit_of 10 c) as [v|] eqn:Hv; [|discriminate].
    apply IH; [|assumption].
    assert (0 <= v).
    { unfold digit_of in Hv.
      destruct (_ && _) eqn:E1 in Hv.
      - apply andb_true_iff in E1 as [E1 _]. apply Z.leb_le in E1.
        destruct (_ <? _) in Hv; inversion Hv. lia.
      - destruct (_ && _) eqn:E2 in Hv.
        + apply andb_true_iff in E2 as [E2 _]. apply Z.leb_le in E2.
          destruct (_ <? _) in Hv; inversion Hv. lia.
        + destruct (_ && _) eqn:E3 in Hv.
          * apply andb_true_iff in E3 as [E3 _]. apply Z.leb_le in E3.
            destruct (_ <? _) in Hv; inversion Hv. lia.
          * destruct (_ <? _) in Hv; inversion Hv. lia. }
    lia.
Qed.

Lemma decimal_value_nonneg d : forallb is_digit d = true -> 0 <= decimal_value d.
Proof.
  intros H. unfold decimal_value.
  destruct (digits_value_nonneg d 0 ltac:(lia) H) as (v & -> & Hv). exact Hv.
Qed.

Lemma parse_non_decimal_digits d :
  forallb is_digit d = true -> parse_non_decimal d = None.
Proof.
  destruct d as [|c [|c2 [|c3 d]]]; intros H.
  - reflexivity.
  - ascii_cases c; reflexivity.
  - ascii_cases c; reflexivity.
  - cbn in H. apply andb_true_iff in H as [_ H]. apply andb_true_iff in H as [H2 _].
    ascii_cases c; try reflexivity.
    apply is_digit_cases in H2. cbn in H2.
    repeat (destruct H2 as [<- | H2]; [reflexivity|]). contradiction.
Qed.

Lemma round_decimal_integer m : 0 <= m -> round_decimal false m 0 = ofZ m.
Proof.
  intros Hm. destruct m as [|p|p]; [reflexivity | | lia].
  unfold round_decimal. cbn [Z.leb Z.compare]. unfold ofZ. f_equal. lia.
Qed.

Lemma Number_digits w1 d w2 :
  forallb is_ws w1 = true -> forallb is_digit d = true -> forallb is_ws w2 = true ->
  Number (w1 ++ d ++ w2) = ofZ (decimal_value d).
Proof.
  intros H1 Hd H2. unfold Number.
  rewrite trim_unique; try assumption;
    [| apply digits_starts_ok, Hd | apply digits_starts_ok; rewrite forallb_rev; exact Hd].
  destruct d as [|c d]; [reflexivity|].
  rewrite parse_non_decimal_digits by assumption.
  assert (Hdec : parse_decimal false (c :: d) = ofZ (decimal_value (c :: d))).
  { unfold parse_decimal.
    assert (String.eqb (string_of_list_ascii (c :: d)) "Infinity" = false) as ->.
    { cbn in Hd. apply andb_true_iff in Hd as [Hc _].
      apply is_digit_cases in Hc. cbn in Hc.
      repeat (destruct Hc as [<- | Hc]; [reflexivity|]). contradiction. }
    unfold parse_unsigned_decimal. rewrite span_digits_all by assumption.
    rewrite app_nil_r. cbn [parse_exponent length Z.of_nat].
    rewrite Z.sub_0_r. apply round_decimal_integer, decimal_value_nonneg, Hd. }
  cbn in Hd. apply andb_true_iff in Hd as [Hc _].
  apply is_digit_cases in Hc. cbn in Hc.
  repeat (destruct Hc as [<- | Hc]; [exact Hdec|]). contradiction.
Qed.

End DigitFacts.

(** ** The loop, the set and the sort on integers *)

Section LoopFacts.


Lemma Set_add_ofZ x L :
  0 <= x < two53 -> small L ->
  Set_add (ofZ x) (map ofZ L) = map ofZ (Zset_add x L).
Proof.
  intros Hx HL. unfold Set_add, Zset_add. cbv zeta.
  rewrite ofZ_not_zero_neg by lia.
  assert (E : existsb (SameValueZero (ofZ x)) (map ofZ L) = existsb (Z.eqb x) L).
  { induction HL as [|y L Hy HL IH]; [reflexivity|].
    cbn [map existsb]. rewrite IH, SameValueZero_ofZ by lia. reflexivity. }
  rewrite E. destruct (existsb (Z.eqb x) L); [reflexivity|].
  rewrite map_app. reflexivity.
Qed.

Lemma small_Zset_add x L : 0 <= x < two53 -> small L -> small (Zset_add x L).
Proof.
  intros Hx HL. unfold Zset_add. destruct (existsb _ L); [assumption|].
  apply Forall_app. split; [assumption|]. constructor; [assumption | constructor].
Qed.

Lemma small_Zrange_add c : forall i n L,
  0 <= n < two53 -> small L -> small (Zrange_add c i n L).
Proof.
  induction c as [|c IH]; intros i n L Hn HL; [assumption|].
  cbn [Zrange_add]. apply IH; [assumption|].
  destruct ((0 <? i) && (i <=? n)) eqn:E; [|assumption].
  apply andb_true_iff in E as [E1 E2]. apply Z.ltb_lt in E1. apply Z.leb_le in E2.
  apply small_Zset_add; [lia | assumption].
Qed.

(** The loop on integers: it stops after [end - start + 1] rounds (none
    when [start > end]) and adds the pages in bounds. *)
Lemma range_loop_ofZ c : forall fuel a b n L,
  0 <= a <= two53 -> 0 <= b < two53 -> 0 <= n < two53 -> small L ->
  c = Z.to_nat (b + 1 - a) -> (c < fuel)%nat ->
  range_loop fuel (ofZ a) (ofZ b) (ofZ n) (map ofZ L)
  = Done (map ofZ (Zrange_add c a n L)).
Proof.
  induction c as [|c IH]; intros fuel a b n L Ha Hb Hn HL Hc Hf;
    (destruct fuel as [|fuel]; [lia|]); cbn [range_loop].
  - rewrite le_ofZ by lia.
    assert ((a <=? b) = false) as -> by (apply Z.leb_gt; lia). reflexivity.
  - rewrite le_ofZ by lia.
    assert ((a <=? b) = true) as -> by (apply Z.leb_le; lia).
    rewrite gt_ofZ, le_ofZ by lia.
    rewrite add_ofZ_1 by lia.
    cbn [Zrange_add].
    destruct ((0 <? a) && (a <=? n)) eqn:E.
    + apply andb_true_iff in E as [E1 E2]. apply Z.ltb_lt in E1. apply Z.leb_le in E2.
      rewrite sub_ofZ by lia.
      rewrite Set_add_ofZ by first [lia | assumption].
      apply IH; try lia; try assumption. apply small_Zset_add; [lia | assumption].
    + apply IH; try lia; assumption.
Qed.

(** Sorting *)

Lemma sort_insert_ofZ x S :
  0 <= x < two53 -> small S ->
  sort_insert (ofZ x) (map ofZ S) = map ofZ (Zinsert x S).
Proof.
  intros Hx HS. induction HS as [|y S Hy HS IH]; [reflexivity|].
  cbn [map sort_insert Zinsert]. unfold compareFn.
  rewrite sub_ofZ, gt_ofZ_0 by lia.
  replace (0 <? y - x) with (x <? y) by (destruct (Z.ltb_spec x y), (Z.ltb_spec 0 (y - x)); lia).
  destruct (x <? y); [reflexivity|]. cbn [map]. rewrite IH. reflexivity.
Qed.

Lemma small_Zinsert x S : 0 <= x < two53 -> small S -> small (Zinsert x S).
Proof.
  intros Hx HS. induction HS as [|y S Hy HS IH]; cbn [Zinsert].
  - constructor; [assumption | constructor].
  - destruct (x <? y).
    + constructor; [assumption|]. constructor; assumption.
    + constructor; assumption.
Qed.

Lemma sort_ofZ L : small L -> Array_sort (map ofZ L) = map ofZ (Zsort L).
Proof.
  intros HL. unfold Array_sort, Zsort.
  change (@nil number) with (map ofZ []).
  assert (Hacc : small []) by constructor.
  revert Hacc. generalize (@nil Z) as acc.
  induction HL as [|x L Hx HL IH]; intros acc Hacc; [reflexivity|].
  cbn [map fold_left]. rewrite sort_insert_ofZ by assumption.
  apply IH, small_Zinsert; assumption.
Qed.

Lemma Zinsert_in x S z : In z (Zinsert x S) <-> z = x \/ In z S.
Proof.
  induction S as [|y S IH]; cbn [Zinsert].
  - cbn. intuition.
  - destruct (x <? y); cbn [In]; [intuition | rewrite IH; intuition].
Qed.

Lemma Zinsert_sorted x S :
  StronglySorted Z.lt S -> ~ In x S -> StronglySorted Z.lt (Zinsert x S).
Proof.
  induction 1 as [|y S HS IH Hy]; intros Hx; cbn [Zinsert].
  - repeat constructor.
  - destruct (Z.ltb_spec x y) as [Hlt | Hge].
    + constructor; [constructor; assumption|].
      constructor; [assumption|].
      rewrite List.Forall_forall in *. intros z Hz. specialize (Hy z Hz). lia.
    + constructor.
      * apply IH. intros Hin. apply Hx. right. exact Hin.
      * rewrite List.Forall_forall in *. intros z Hz.
        apply Zinsert_in in Hz as [-> | Hz]; [|apply Hy, Hz].
        assert (x <> y) by (intros ->; apply Hx; left; reflexivity). lia.
Qed.

Lemma Zsort_spec L :
  List.NoDup L ->
  StronglySorted Z.lt (Zsort L) /\ forall z, In z (Zsort L) <-> In z L.
Proof.
  intros HL. unfold Zsort.
  assert (G : forall acc,
             StronglySorted Z.lt acc -> (forall z, In z L -> ~ In z acc) ->
             StronglySorted Z.lt (fold_left (fun acc x => Zinsert x acc) L acc)
             /\ forall z, In z (fold_left (fun acc x => Zinsert x acc) L acc)
                          <-> In z acc \/ In z L).
  { induction HL as [|x L Hx HL IH]; intros acc Hs Hd.
    - cbn. split; [assumption | intuition].
    - cbn [fold_left]. destruct (IH (Zinsert x acc)) as [H1 H2].
      + apply Zinsert_sorted; [assumption | apply Hd; left; reflexivity].
      + intros z Hz Hin. apply Zinsert_in in Hin as [-> | Hin]; [contradiction|].
        apply (Hd z); [right; assumption | assumption].
      + split; [assumption|]. intros z. rewrite H2, Zinsert_in. cbn [In]. intuition. }
  destruct (G []) as [H1 H2]; [constructor | intros z _ [] |].
  split; [assumption|]. intros z. rewrite H2. cbn [In]. intuition.
Qed.

(** The set on integers *)

Lemma existsb_Zeqb x L : existsb (Z.eqb x) L = true <-> In x L.
Proof.
  rewrite existsb_exists. split.
  - intros (y & Hy & E). apply Z.eqb_eq in E. subst y. exact Hy.
  - intros H. exists x. split; [assumption | apply Z.eqb_refl].
Qed.

Lemma Zset_add_in x L z : In z (Zset_add x L) <-> z = x \/ In z L.
Proof.
  unfold Zset_add. destruct (existsb (Z.eqb x) L) eqn:E.
  - apply existsb_Zeqb in E. split; [auto | intros [-> | H]; assumption].
  - rewrite in_app_iff. cbn [In]. intuition.
Qed.

Lemma Zset_add_NoDup x L : List.NoDup L -> List.NoDup (Zset_add x L).
Proof.
  intros HL. unfold Zset_add. destruct (existsb (Z.eqb x) L) eqn:E; [assumption|].
  apply List.NoDup_app; [assumption | repeat constructor; intros [] |].
  intros y Hy [E' | []]. subst y.
  assert (existsb (Z.eqb x) L = true) by (apply existsb_Zeqb, Hy). congruence.
Qed.

Lemma Zrange_add_NoDup c : forall i n L, List.NoDup L -> List.NoDup (Zrange_add c i n L).
Proof.
  induction c as [|c IH]; intros i n L HL; [assumption|].
  cbn [Zrange_add]. apply IH. destruct (_ && _); [apply Zset_add_NoDup|]; assumption.
Qed.

Lemma Zrange_add_in c : forall i n L z,
  In z (Zrange_add c i n L)
  <-> In z L \/ (i <= z + 1 < i + Z.of_nat c /\ 0 < z + 1 <= n).
Proof.
  induction c as [|c IH]; intros i n L z.
  - cbn. split; [auto | intros [H | H]; [assumption | lia]].
  - cbn [Zrange_add]. rewrite IH.
    destruct ((0 <? i) && (i <=? n)) eqn:E.
    + apply andb_true_iff in E as [E1 E2]. apply Z.ltb_lt in E1. apply Z.leb_le in E2.
      rewrite Zset_add_in. split.
      * intros [[-> | H] | H]; [right; lia | left; assumption | right; lia].
      * intros [H | H]; [left; right; assumption|].
        destruct (Z.eq_dec (z + 1) i) as [Hz | Hz]; [left; left; lia | right; lia].
    + apply andb_false_iff in E. split.
      * intros [H | H]; [left; assumption | right; lia].
      * intros [H | H]; [left; assumption|].
        destruct (Z.eq_dec (z + 1) i) as [Hz | Hz]; [|right; lia].
        exfalso. destruct E as [E | E]; [apply Z.ltb_ge in E | apply Z.leb_gt in E]; lia.
Qed.

End LoopFacts.

(** ** The resolver on well-formed expressions *)

Section ResolverFacts.

(** Numerals *)

Lemma numeral_ok_inv x :
  numeral_ok x = true ->
  forallb is_ws (lead x) = true /\ forallb is_digit (digits x) = true
  /\ forallb is_ws (trail x) = true /\ 0 <= numeral_value x < two53.
Proof.
  unfold numeral_ok. intros H.
  apply andb_true_iff in H as [H H4]. apply andb_true_iff in H as [H H3].
  apply andb_true_iff in H as [H1 H2]. apply Z.leb_le in H4.
  repeat split; try assumption.
  - apply decimal_value_nonneg, H2.
  - unfold MAX_SAFE_INTEGER in H4. unfold two53. lia.
Qed.

Lemma Number_numeral x :
  numeral_ok x = true -> Number (numeral_text x) = ofZ (numeral_value x).
Proof.
  intros H. apply numeral_ok_inv in H as (H1 & H2 & H3 & _).
  apply Number_digits; assumption.
Qed.

Lemma numeral_no_sep sep x :
  is_ws sep = false -> is_digit sep = false ->
  numeral_ok x = true -> includes sep (numeral_text x) = false.
Proof.
  intros Hw Hd H. apply numeral_ok_inv in H as (H1 & H2 & H3 & _).
  unfold numeral_text. rewrite !includes_app.
  rewrite (ws_not_sep sep (lead x)), (digits_not_sep sep (digits x)),
    (ws_not_sep sep (trail x)) by assumption.
  reflexivity.
Qed.

Lemma token_no_comma t : token_ok t = true -> includes "," (token_text t) = false.
Proof.
  destruct t as [p | a b | s]; cbn [token_ok token_text]; intros H.
  - apply numeral_no_sep; [reflexivity | reflexivity | assumption].
  - apply andb_true_iff in H as [Ha Hb].
    rewrite includes_app.
    change (includes "," ("-"%char :: numeral_text b)) with (includes "," (numeral_text b)).
    rewrite !numeral_no_sep by (reflexivity || assumption). reflexivity.
  - apply andb_true_iff in H as [H _]. apply andb_true_iff in H as [H _].
    apply negb_true_iff, H.
Qed.

(** One part *)

Lemma small_Zadd_token n L t :
  token_ok t = true -> 0 <= n < two53 -> small L -> small (Zadd_token n L t).
Proof.
  intros Ht Hn HL. destruct t as [p | a b | s]; cbn [Zadd_token]; [| |assumption].
  - destruct ((0 <? _) && (_ <=? n)) eqn:E; [|assumption].
    apply andb_true_iff in E as [E1 E2]. apply Z.ltb_lt in E1. apply Z.leb_le in E2.
    apply small_Zset_add; [lia | assumption].
  - apply small_Zrange_add; assumption.
Qed.

Lemma add_part_token fuel n L t :
  token_ok t = true -> 0 <= n < two53 -> small L ->
  (token_steps t <= fuel)%nat ->
  add_part fuel (ofZ n) (map ofZ L) (token_text t)
  = Done (map ofZ (Zadd_token n L t)).
Proof.
  intros Ht Hn HL Hf. destruct t as [p | a b | s]; cbn [token_ok token_text] in *.
  - (* a page number *)
    pose proof (numeral_ok_inv p Ht) as (_ & _ & _ & Hv).
    unfold add_part.
    rewrite includes_trim by (apply numeral_no_sep; [reflexivity | reflexivity | assumption]).
    rewrite Number_trim, Number_numeral by assumption.
    rewrite gt_ofZ, le_ofZ by lia. cbn [Zadd_token].
    destruct ((0 <? numeral_value p) && (numeral_value p <=? n)) eqn:E; [|reflexivity].
    apply andb_true_iff in E as [E1 E2]. apply Z.ltb_lt in E1.
    rewrite sub_ofZ by (unfold two53 in *; lia).
    rewrite Set_add_ofZ by first [lia | assumption]. reflexivity.
  - (* a range *)
    apply andb_true_iff in Ht as [Ha Hb].
    pose proof (numeral_ok_inv a Ha) as (_ & _ & _ & Hva).
    pose proof (numeral_ok_inv b Hb) as (_ & _ & _ & Hvb).
    assert (Hna : includes "-" (numeral_text a) = false)
      by (apply numeral_no_sep; [reflexivity | reflexivity | assumption]).
    assert (Hnb : includes "-" (numeral_text b) = false)
      by (apply numeral_no_sep; [reflexivity | reflexivity | assumption]).
    unfold add_part.
    assert (Htrim : trim (numeral_text a ++ "-"%char :: numeral_text b)
                    = trimStart (numeral_text a) ++ "-"%char :: trimEnd (numeral_text b)).
    { unfold trim. rewrite trimStart_nonws by reflexivity.
      apply trimEnd_nonws. reflexivity. }
    rewrite Htrim.
    assert (includes "-" (trimStart (numeral_text a) ++ "-"%char :: trimEnd (numeral_text b)) = true) as ->.
    { rewrite includes_app. cbn. apply orb_true_r. }
    rewrite split_app by (apply includes_trimStart, Hna).
    rewrite split_none by (apply includes_trimEnd, Hnb).
    cbn [map nth]. rewrite Number_trimStart, Number_trimEnd, !Number_numeral by assumption.
    cbn [Zadd_token]. cbn [token_steps] in Hf.
    apply range_loop_ofZ; try assumption; try lia.
  - (* no number *)
    apply andb_true_iff in Ht as [Ht Hnan]. apply andb_true_iff in Ht as [_ Hm].
    apply negb_true_iff in Hm.
    unfold add_part. rewrite includes_trim by assumption.
    rewrite Number_trim. destruct (Number s); try discriminate Hnan. reflexivity.
Qed.

(** All the parts *)

Lemma split_expr_text ts :
  ts <> [] -> forallb token_ok ts = true ->
  split "," (expr_text ts) = map token_text ts.
Proof.
  induction ts as [|t ts IH]; [congruence|]. intros _ H.
  cbn in H. apply andb_true_iff in H as [Ht Hts].
  destruct ts as [|t' ts].
  - cbn. apply split_none, token_no_comma, Ht.
  - change (expr_text (t :: t' :: ts)) with (token_text t ++ ","%char :: expr_text (t' :: ts)).
    rewrite split_app by (apply token_no_comma, Ht).
    cbn [map]. f_equal. apply IH; [discriminate | assumption].
Qed.

Lemma expr_steps_cons t ts :
  expr_steps (t :: ts) = Nat.max (token_steps t) (expr_steps ts).
Proof. reflexivity. Qed.

Lemma foldl_add_part fuel n ts : forall L,
  forallb token_ok ts = true -> 0 <= n < two53 -> small L ->
  (expr_steps ts <= fuel)%nat ->
  foldl (fun acc part => indices ← acc; add_part fuel (ofZ n) indices part)
        (Done (map ofZ L)) (map token_text ts)
  = Done (map ofZ (fold_left (Zadd_token n) ts L)).
Proof.
  induction ts as [|t ts IH]; intros L H Hn HL Hf; [reflexivity|].
  cbn in H. apply andb_true_iff in H as [Ht Hts].
  rewrite expr_steps_cons in Hf.
  cbn [map foldl fold_left].
  change (Done (map ofZ L) ≫= _) with (add_part fuel (ofZ n) (map ofZ L) (token_text t)).
  rewrite add_part_token by first [assumption | lia].
  apply IH; try assumption; [apply small_Zadd_token; assumption | lia].
Qed.

Lemma small_fold_Zadd_token n ts : forall L,
  forallb token_ok ts = true -> 0 <= n < two53 -> small L ->
  small (fold_left (Zadd_token n) ts L).
Proof.
  induction ts as [|t ts IH]; intros L H Hn HL; [assumption|].
  cbn in H. apply andb_true_iff in H as [Ht Hts].
  cbn [fold_left]. apply IH; try assumption. apply small_Zadd_token; assumption.
Qed.

(** The resolver on a well-formed expression computes [Zresolve]. *)
Lemma getPageIndices_Zresolve fuel n ts :
  forallb token_ok ts = true -> expr_text ts <> [] -> 0 <= n < two53 ->
  (expr_steps ts <= fuel)%nat ->
  getPageIndices fuel (expr_string ts) (ofZ n)
  = Done (Array (map ofZ (Zresolve n ts))).
Proof.
  intros Hts Hne Hn Hf. unfold getPageIndices, expr_string.
  assert (String.eqb (string_of_list_ascii (expr_text ts)) "" = false) as ->.
  { destruct (expr_text ts); [congruence | reflexivity]. }
  rewrite list_ascii_of_string_of_list_ascii.
  rewrite split_expr_text; [| intros ->; apply Hne; reflexivity | assumption].
  change (Done (@nil number)) with (Done (map ofZ [])).
  rewrite foldl_add_part; try assumption; [|constructor].
  cbn [mbind comp_bind]. unfold Zresolve.
  rewrite sort_ofZ; [reflexivity|].
  apply small_fold_Zadd_token; try assumption. constructor.
Qed.

(** What [Zresolve] contains *)

Lemma Zadd_token_NoDup n L t : List.NoDup L -> List.NoDup (Zadd_token n L t).
Proof.
  intros HL. destruct t; cbn [Zadd_token]; [| |assumption].
  - destruct (_ && _); [apply Zset_add_NoDup|]; assumption.
  - apply Zrange_add_NoDup, HL.
Qed.

Lemma Zadd_token_in n L t z :
  In z (Zadd_token n L t) <-> In z L \/ (0 <= z < n /\ denotes t (z + 1)).
Proof.
  destruct t as [p | a b | s]; cbn [Zadd_token denotes].
  - destruct ((0 <? numeral_value p) && (numeral_value p <=? n)) eqn:E.
    + apply andb_true_iff in E as [E1 E2]. apply Z.ltb_lt in E1. apply Z.leb_le in E2.
      rewrite Zset_add_in. split; [intros [-> | H] | intros [H | H]]; auto; try lia.
    + apply andb_false_iff in E. split; [auto|]. intros [H | H]; [assumption|].
      exfalso. destruct E as [E | E]; [apply Z.ltb_ge in E | apply Z.leb_gt in E]; lia.
  - rewrite Zrange_add_in. split; (intros [H | H]; [left; assumption | right; lia]).
  - tauto.
Qed.

Lemma fold_Zadd_token_spec n ts : forall L,
  List.NoDup L ->
  List.NoDup (fold_left (Zadd_token n) ts L)
  /\ forall z, In z (fold_left (Zadd_token n) ts L)
               <-> In z L \/ (0 <= z < n /\ Exists (fun t => denotes t (z + 1)) ts).
Proof.
  induction ts as [|t ts IH]; intros L HL.
  - cbn. split; [assumption|]. intros z. split; [auto|].
    intros [H | [_ H]]; [assumption | inversion H].
  - cbn [fold_left].
    destruct (IH (Zadd_token n L t) (Zadd_token_NoDup n L t HL)) as [H1 H2].
    split; [assumption|]. intros z. rewrite H2, Zadd_token_in, Exists_cons. tauto.
Qed.

Lemma Zresolve_spec n ts :
  StronglySorted Z.lt (Zresolve n ts)
  /\ forall z, In z (Zresolve n ts)
               <-> 0 <= z < n /\ Exists (fun t => denotes t (z + 1)) ts.
Proof.
  destruct (fold_Zadd_token_spec n ts [] (List.NoDup_nil _)) as [H1 H2].
  destruct (Zsort_spec _ H1) as [H3 H4].
  split; [exact H3|]. intros z. unfold Zresolve. rewrite H4, H2. cbn [In]. tauto.
Qed.

End ResolverFacts.

(** ** More on integers, blank ranges and the loop *)

Section ResolverCases.

Lemma lt_ofZ a b :
  0 <= a <= two53 -> 0 <= b <= two53 -> lt (ofZ a) (ofZ b) = (a <? b).
Proof. intros Ha Hb. apply (gt_ofZ b a Hb Ha). Qed.

Lemma StronglySorted_lt_NoDup l : StronglySorted Z.lt l -> List.NoDup l.
Proof.
  induction 1 as [|x l Hl IH Hx]; constructor; [|assumption].
  intros Hin. rewrite List.Forall_forall in Hx. specialize (Hx x Hin). lia.
Qed.

Lemma StronglySorted_ofZ l :
  small l -> StronglySorted Z.lt l ->
  StronglySorted (fun x y => lt x y = true) (map ofZ l).
Proof.
  intros Hs Hl. induction Hl as [|x l Hl IH Hx]; [constructor|].
  inversion Hs as [|? ? Hx0 Hs']; subst. cbn [map]. constructor; [apply IH, Hs'|].
  rewrite List.Forall_forall in *. intros y Hy.
  apply in_map_iff in Hy as (z & <- & Hz).
  rewrite lt_ofZ by (specialize (Hs' z Hz); cbv beta in Hs'; lia).
  apply Z.ltb_lt, Hx, Hz.
Qed.


Lemma getPageIndices_blank fuel n w :
  w <> [] -> forallb is_ws w = true ->
  getPageIndices fuel (string_of_list_ascii w) n = Done (Array []).
Proof.
  intros Hne Hw. unfold getPageIndices.
  assert (String.eqb (string_of_list_ascii w) "" = false) as ->
    by (destruct w; [congruence | reflexivity]).
  rewrite list_ascii_of_string_of_list_ascii.
  rewrite split_none by (apply ws_not_sep; [reflexivity | assumption]).
  cbn [foldl mbind comp_bind]. unfold add_part, trim.
  rewrite trimStart_all_ws by assumption. reflexivity.
Qed.

Lemma getPageIndices_999 fuel n :
  0 <= n < 999 -> getPageIndices fuel "999" (ofZ n) = Done (Array []).
Proof.
  intros Hn.
  change "999"%string with (expr_string [Demo.page "999"]).
  rewrite getPageIndices_Zresolve;
    [| reflexivity | discriminate | unfold two53; lia | cbn; lia].
  unfold Zresolve. cbn [fold_left Zadd_token Demo.page]. cbv zeta.
  change (numeral_value _) with 999.
  assert ((999 <=? n) = false) as -> by (apply Z.leb_gt; lia).
  reflexivity.
Qed.


(** Above [2^53] the loop does not advance: [i++] gives [i] again. *)
Lemma range_loop_stuck fuel i end_ totalPages indices :
  add i (ofZ 1) = i -> le i end_ = true ->
  gt i (ofZ 0) && le i totalPages = false ->
  range_loop fuel i end_ totalPages indices = OutOfFuel.
Proof.
  intros Hadd Hle Hout. induction fuel as [|fuel IH]; [reflexivity|].
  cbn [range_loop]. rewrite Hle, Hout, Hadd. exact IH.
Qed.

Lemma resolver_does_not_finish :
  forall fuel : nat,
    getPageIndices fuel "9007199254740992-9007199254740994" (ofZ 3) = OutOfFuel.
Proof.
  intros fuel. unfold getPageIndices.
  cbn [String.eqb list_ascii_of_string].
  set (part := list_ascii_of_string "9007199254740992-9007199254740994").
  assert (Hsplit : split "," part = [part]) by (vm_compute; reflexivity).
  cbn [list_ascii_of_string] in *. fold part. rewrite Hsplit.
  cbn [foldl mbind comp_bind]. unfold add_part.
  assert (Htrim : trim part = part) by (vm_compute; reflexivity).
  rewrite Htrim.
  assert (Hinc : includes "-" part = true) by (vm_compute; reflexivity).
  rewrite Hinc.
  assert (Hnums : map Number (split "-" part)
                  = [ofZ 9007199254740992; ofZ 9007199254740994])
    by (vm_compute; reflexivity).
  rewrite Hnums. cbn [nth].
  rewrite range_loop_stuck; [reflexivity | | | ]; vm_compute; reflexivity.
Qed.

End ResolverCases.

(** ** The duplex loop *)

Section SplitFacts.

Context {Page : Type}.
Implicit Types (doc pdfDoc pre rest : list Page).

Lemma splitLoop_from duplexType rest : forall pre (pages : list Page),
  foldl (fun acc i =>
           newPdf ← acc;
           if keepsPage duplexType i then
             match (pre ++ rest) !! i with
             | Some page => Done (newPdf ++ [page])
             | None => Thrown
             end
           else Done newPdf)
        (Done pages) (seq (length pre) (length rest))
  = Done (pages ++ pick (keepsPage duplexType) (length pre) rest).
Proof.
  induction rest as [|x rest IH]; intros pre pages.
  - cbn. rewrite app_nil_r. reflexivity.
  - cbn [length seq foldl pick mbind comp_bind].
    rewrite list_lookup_middle by reflexivity.
    specialize (IH (pre ++ [x])).
    rewrite length_app, Nat.add_1_r, <- app_assoc in IH. cbn [app] in IH.
    destruct (keepsPage duplexType (length pre)).
    + rewrite IH, <- app_assoc. reflexivity.
    + apply IH.
Qed.

(** The loop keeps the pages whose index passes the test, in their order. *)
Lemma splitLoop_pick duplexType doc :
  splitLoop duplexType doc = Done (pick (keepsPage duplexType) 0 doc).
Proof. apply (splitLoop_from duplexType doc [] []). Qed.

Lemma pick_ext (f g : nat -> bool) doc : forall i,
  (forall j, f j = g j) -> pick f i doc = pick g i doc.
Proof.
  induction doc as [|x doc IH]; intros i H; [reflexivity|].
  cbn. rewrite H, (IH (S i) H). reflexivity.
Qed.

Lemma mod2_even i : (i mod 2 =? 0)%nat = Nat.even i.
Proof.
  pose proof (Nat.mod_upper_bound i 2 ltac:(lia)) as Hlt.
  rewrite (Nat.div_mod_eq i 2) at 2.
  rewrite Nat.add_comm, Nat.even_add_mul_2.
  destruct (i mod 2)%nat as [|[|k]]; [reflexivity | reflexivity | lia].
Qed.

Lemma keepsPage_odd i : keepsPage (Some "odd") i = Nat.even i.
Proof. unfold keepsPage. rewrite mod2_even. cbn. apply orb_false_r. Qed.

Lemma keepsPage_even i : keepsPage (Some "even") i = Nat.odd i.
Proof. unfold keepsPage. rewrite mod2_even. cbn. apply Nat.negb_even. Qed.

Lemma pick_even_lookup doc : forall i k,
  pick Nat.even i doc !! k
  = doc !! (2 * k + (if Nat.even i then 0 else 1))%nat.
Proof.
  induction doc as [|x doc IH]; intros i k; [reflexivity|].
  cbn [pick]. specialize (IH (S i)). rewrite Nat.even_succ, <- Nat.negb_even in IH.
  destruct (Nat.even i); cbn [negb] in IH.
  - destruct k as [|k]; [reflexivity|]. cbn [lookup list_lookup]. rewrite IH.
    replace (2 * S k + 0)%nat with (S (2 * k + 1)) by lia. reflexivity.
  - rewrite IH. replace (2 * k + 1)%nat with (S (2 * k + 0)) by lia. reflexivity.
Qed.

Lemma pick_odd_lookup doc : forall i k,
  pick Nat.odd i doc !! k
  = doc !! (2 * k + (if Nat.odd i then 0 else 1))%nat.
Proof.
  induction doc as [|x doc IH]; intros i k; [reflexivity|].
  cbn [pick]. specialize (IH (S i)). rewrite Nat.odd_succ, <- Nat.negb_odd in IH.
  destruct (Nat.odd i); cbn [negb] in IH.
  - destruct k as [|k]; [reflexivity|]. cbn [lookup list_lookup]. rewrite IH.
    replace (2 * S k + 0)%nat with (S (2 * k + 1)) by lia. reflexivity.
  - rewrite IH. replace (2 * k + 1)%nat with (S (2 * k + 0)) by lia. reflexivity.
Qed.

Lemma pick_length_le (f : nat -> bool) doc : forall i,
  (length (pick f i doc) <= length doc)%nat.
Proof.
  induction doc as [|x doc IH]; intros i; [reflexivity|].
  cbn. specialize (IH (S i)). destruct (f i); cbn; lia.
Qed.

Lemma pick_even_shorter x y doc i :
  (length (pick Nat.even i (x :: y :: doc)) < length (x :: y :: doc))%nat.
Proof.
  cbn [pick]. rewrite Nat.even_succ, <- Nat.negb_even.
  pose proof (pick_length_le Nat.even doc (S (S i))).
  destruct (Nat.even i); cbn; lia.
Qed.

End SplitFacts.

(** ** The stages of the handler *)

Section HandlerFacts.

Context {Page : Type}.
Variable PDFDocument_load : list Byte.byte -> option (list Page).
Variable PDFDocument_save : list Page -> list Byte.byte.
Variable execute : string -> print_job -> ipp_result.

Lemma addPage_all (copiedPages : list Page) : forall newPdf,
  foldl (fun newPdf page => newPdf ++ [page]) newPdf copiedPages
  = newPdf ++ copiedPages.
Proof.
  induction copiedPages as [|p l IH]; intros newPdf; cbn [foldl].
  - rewrite app_nil_r. reflexivity.
  - rewrite IH, <- app_assoc. reflexivity.
Qed.

Lemma copyPages_lookup (pdfDoc : list Page) indices : forall copied,
  copyPages pdfDoc indices = Done copied ->
  forall j : nat,
    copied !! j
    = indices !! j ≫= (fun x => array_index x ≫= (fun i => pdfDoc !! i)).
Proof.
  induction indices as [|x rest IH]; intros copied H j.
  - cbn in H. inversion H. reflexivity.
  - cbn [copyPages] in H.
    destruct (array_index x ≫= _) as [page|] eqn:E; [|discriminate H].
    destruct (copyPages pdfDoc rest) as [copied'| |] eqn:E'; try discriminate H.
    cbn in H. inversion H; subst copied.
    destruct j as [|j]; [cbn; rewrite <- E; reflexivity|].
    cbn [lookup list_lookup]. apply (IH copied' eq_refl j).
Qed.

Lemma selectPages_some fuel pageRange (pdfDoc : list Page) indices copied :
  truthy pageRange = true ->
  getPageIndices fuel (default "" pageRange) (ofZ (Z.of_nat (length pdfDoc)))
    = Done (Array indices) ->
  indices <> [] ->
  copyPages pdfDoc indices = Done copied ->
  selectPages fuel pageRange pdfDoc = Done (copied, true).
Proof.
  intros Ht Hi Hne Hc. unfold selectPages. rewrite Ht, Hi. cbn [mbind comp_bind].
  destruct indices as [|x l]; [congruence|].
  rewrite Hc. cbn [mbind comp_bind]. rewrite addPage_all. reflexivity.
Qed.

Lemma selectPages_inv fuel pageRange (pdfDoc : list Page) indices filtered modified :
  truthy pageRange = true ->
  getPageIndices fuel (default "" pageRange) (ofZ (Z.of_nat (length pdfDoc)))
    = Done (Array indices) ->
  indices <> [] ->
  selectPages fuel pageRange pdfDoc = Done (filtered, modified) ->
  copyPages pdfDoc indices = Done filtered.
Proof.
  intros Ht Hi Hne. unfold selectPages. rewrite Ht, Hi. cbn [mbind comp_bind].
  destruct indices as [|x l]; [congruence|].
  destruct (copyPages pdfDoc (x :: l)) as [copied| |]; cbn [mbind comp_bind];
    try discriminate.
  rewrite addPage_all. intros H. inversion H. reflexivity.
Qed.

Lemma selectPages_none fuel pageRange (pdfDoc : list Page) :
  truthy pageRange = false
  \/ getPageIndices fuel (default "" pageRange) (ofZ (Z.of_nat (length pdfDoc)))
     = Done null
  \/ getPageIndices fuel (default "" pageRange) (ofZ (Z.of_nat (length pdfDoc)))
     = Done (Array []) ->
  selectPages fuel pageRange pdfDoc = Done (pdfDoc, false).
Proof.
  unfold selectPages. intros [H | [H | H]].
  - rewrite H. reflexivity.
  - destruct (truthy pageRange); [rewrite H|]; reflexivity.
  - destruct (truthy pageRange); [rewrite H|]; reflexivity.
Qed.

Lemma handle_prepared fuel req f fileBuffer :
  file req = Some f -> truthy (printerUrl req) = true ->
  prepare PDFDocument_load PDFDocument_save fuel f (duplex req) (pages req)
    = Done fileBuffer ->
  let job := {|
    requesting_user_name := "PrintLe-User";
    job_name := originalname f;
    document_format :=
      if String.eqb (mimetype f) "application/pdf"
      then "application/pdf" else "application/octet-stream";
    job_attributes :=
      jobAttributes (is_string (grayscale req) "true") (duplex req);
    data := fileBuffer |} in
  handle PDFDocument_load PDFDocument_save execute fuel req
  = Some {| submitted := Some job;
            reply := respond (execute (default "" (printerUrl req)) job) |}.
Proof.
  intros Hf Hu Hp. unfold handle. rewrite Hf, Hu, Hp. reflexivity.
Qed.

End HandlerFacts.

Lemma handle_job_attributes {Page : Type} load save execute fuel (req : request) :
  match @handle Page load save execute fuel req with
  | Some {| submitted := Some job |} =>
      job_attributes job
      = jobAttributes (is_string (grayscale req) "true") (duplex req)
  | _ => True
  end.
Proof.
  unfold handle. destruct (file req) as [f|]; [|exact I].
  destruct (truthy (printerUrl req)); [|exact I].
  destruct (prepare _ _ _ _ _ _); [reflexivity | exact I | exact I].
Qed.

Section SelectionFacts.

Context {Page : Type}.
Implicit Types (doc : list Page).

Lemma array_index_ofZ z : 0 <= z < two53 -> array_index (ofZ z) = Some (Z.to_nat z).
Proof.
  intros Hz. destruct z as [|c|c]; [reflexivity | | lia].
  rewrite ofZ_pos by lia.
  pose proof (Zdigits2_le_53 c ltac:(lia)) as Hd.
  pose proof (canonical_scaled c ltac:(lia)) as (_ & _ & Hm). cbv zeta in Hm.
  cbn [array_index]. rewrite Hm.
  destruct (Zpos (digits2_pos c) - 53) as [|k|k] eqn:He; [| lia |].
  - cbn [Z.opp]. rewrite Z.pow_0_r, !Z.mul_1_r. reflexivity.
  - cbn [Z.opp].
    assert (Hpow : 0 < 2 ^ Zpos k) by (apply Z.pow_pos_nonneg; lia).
    rewrite Z.mod_mul by lia. cbn [Z.eqb]. rewrite Z.div_mul by lia. reflexivity.
Qed.

Lemma copyPages_ofZ doc l :
  Forall (fun z => 0 <= z < Z.of_nat (length doc)) l -> small l ->
  copyPages doc (map ofZ l) = Done (pagesAt doc l)
  /\ length (pagesAt doc l) = length l.
Proof.
  intros Hb Hs. induction Hb as [|z l Hz Hb IH]; [split; reflexivity|].
  inversion Hs as [|? ? Hz' Hs']; subst. destruct (IH Hs') as [IH1 IH2].
  cbn [map copyPages]. rewrite array_index_ofZ by assumption. cbn [mbind option_bind].
  unfold pagesAt. cbn [omap list_omap].
  destruct (lookup_lt_is_Some_2 doc (Z.to_nat z) ltac:(lia)) as [page Hpage].
  rewrite Hpage. fold (pagesAt doc l). rewrite IH1. cbn [mbind comp_bind length].
  split; [reflexivity | rewrite IH2; reflexivity].
Qed.

(** The page selection on a well-formed expression, through the resolver
    on integers. *)
Lemma selectPages_Zresolve doc ts fuel :
  forallb token_ok ts = true ->
  expr_text ts <> [] ->
  Z.of_nat (length doc) <= MAX_SAFE_INTEGER ->
  (expr_steps ts <= fuel)%nat ->
  length (pagesAt doc (Zresolve (Z.of_nat (length doc)) ts))
  = length (Zresolve (Z.of_nat (length doc)) ts)
  /\ selectPages fuel (Some (expr_string ts)) doc
     = Done (match Zresolve (Z.of_nat (length doc)) ts with
             | [] => (doc, false)
             | _ :: _ => (pagesAt doc (Zresolve (Z.of_nat (length doc)) ts), true)
             end).
Proof.
  intros Hts Hne Hlen Hf.
  assert (Hn : 0 <= Z.of_nat (length doc) < two53)
    by (unfold MAX_SAFE_INTEGER in Hlen; unfold two53; lia).
  destruct (Zresolve_spec (Z.of_nat (length doc)) ts) as [Hs Hin].
  remember (Zresolve (Z.of_nat (length doc)) ts) as l eqn:El.
  assert (Hb : Forall (fun z => 0 <= z < Z.of_nat (length doc)) l).
  { apply List.Forall_forall. intros z Hz. apply Hin in Hz. tauto. }
  assert (Hsmall : small l).
  { apply List.Forall_forall. intros z Hz.
    rewrite List.Forall_forall in Hb. specialize (Hb z Hz). cbv beta in Hb. lia. }
  destruct (copyPages_ofZ doc l Hb Hsmall) as [Hcopy Hlenl].
  split; [exact Hlenl|].
  unfold selectPages.
  assert (truthy (Some (expr_string ts)) = true) as ->.
  { cbn. unfold expr_string. destruct (expr_text ts); [congruence | reflexivity]. }
  change (default "" (Some (expr_string ts))) with (expr_string ts).
  rewrite getPageIndices_Zresolve by assumption. rewrite <- El. cbn [mbind comp_bind].
  destruct l as [|z l']; [reflexivity|].
  cbn [map]. cbn [map] in Hcopy.
  rewrite Hcopy. cbn [mbind comp_bind]. rewrite addPage_all. reflexivity.
Qed.

(** A well-formed expression that denotes no page of the document resolves
    to the empty array. *)
Lemma Zresolve_nil n ts :
  (forall p : Z, 1 <= p <= n -> ~ Exists (fun t => denotes t p) ts) ->
  Zresolve n ts = [].
Proof.
  intros Hnone. destruct (Zresolve_spec n ts) as [_ Hin].
  destruct (Zresolve n ts) as [|z l]; [reflexivity|]. exfalso.
  destruct (proj1 (Hin z) (or_introl eq_refl)) as [Hz Hex].
  apply (Hnone (z + 1)); [lia | exact Hex].
Qed.

End SelectionFacts.

(** * The claims of the specification *)

(** C1 as it is stated does not hold: the page ["0.5"] passes the test
    [i > 0 && i <= totalPages] and is stored as the index [-0.5], which is
    not in [[0, n)]. *)
Lemma fraction_resolves_to_negative_index :
  getPageIndices 0 "0.5" (ofZ 3)
  = Done (Array [sub (div (ofZ 1) (ofZ 2)) (ofZ 1)])
  /\ ~ (forall (rangeStr : string) (n : Z) (fuel : nat) (indices : list number),
          getPageIndices fuel rangeStr (ofZ n) = Done (Array indices) ->
          Forall (fun x => le (ofZ 0) x = true /\ lt x (ofZ n) = true) indices).
Proof.
  assert (E : getPageIndices 0 "0.5" (ofZ 3)
              = Done (Array [sub (div (ofZ 1) (ofZ 2)) (ofZ 1)]))
    by (vm_compute; reflexivity).
  split; [exact E|]. intros H.
  specialize (H _ _ _ _ E). inversion H as [|x l [Hle _] _]. discriminate Hle.
Qed.

(** C1 (amended): for every non-empty well-formed range expression (page
    numbers and ranges of decimal digits up to [2^53 - 1], white space
    around them, and tokens without comma or hyphen that [Number] reads as
    [NaN]) and every page count up to [2^53 - 1], [getPageIndices]
    returns, with enough fuel, an array of integer indices that is
    strictly ascending, without duplicates, and within [[0, n)]. *)
Theorem resolver_ascending_in_bounds :
  forall (ts : list token) (n : Z),
    forallb token_ok ts = true ->
    expr_text ts <> [] ->
    0 <= n <= MAX_SAFE_INTEGER ->
    exists l : list Z,
      (forall fuel : nat, (expr_steps ts <= fuel)%nat ->
         getPageIndices fuel (expr_string ts) (ofZ n) = Done (Array (map ofZ l)))
      /\ StronglySorted Z.lt l
      /\ List.NoDup l
      /\ Forall (fun z => 0 <= z < n) l
      /\ StronglySorted (fun x y => lt x y = true) (map ofZ l).
Proof.
  intros ts n Hts Hne Hn.
  assert (Hn' : 0 <= n < two53) by (unfold MAX_SAFE_INTEGER in Hn; unfold two53; lia).
  destruct (Zresolve_spec n ts) as [Hsorted Hin].
  assert (Hb : Forall (fun z => 0 <= z < n) (Zresolve n ts)).
  { apply List.Forall_forall. intros z Hz. apply Hin in Hz. tauto. }
  exists (Zresolve n ts). split; [|split; [|split; [|split]]].
  - intros fuel Hf. apply getPageIndices_Zresolve; assumption.
  - exact Hsorted.
  - apply StronglySorted_lt_NoDup, Hsorted.
  - exact Hb.
  - apply StronglySorted_ofZ; [|exact Hsorted].
    apply List.Forall_forall. intros z Hz.
    rewrite List.Forall_forall in Hb. specialize (Hb z Hz). cbv beta in Hb. lia.
Qed.

(** The expression ["1-3, 5"] against 10 pages. *)
Lemma resolver_ascending_in_bounds_witness :
  exists l : list Z,
    (forall fuel : nat, (4 <= fuel)%nat ->
       getPageIndices fuel "1-3, 5" (ofZ 10) = Done (Array (map ofZ l)))
    /\ StronglySorted Z.lt l
    /\ List.NoDup l
    /\ Forall (fun z => 0 <= z < 10) l
    /\ StronglySorted (fun x y => lt x y = true) (map ofZ l).
Proof.
  apply (resolver_ascending_in_bounds Demo.expr 10).
  - reflexivity.
  - discriminate.
  - unfold MAX_SAFE_INTEGER. lia.
Defined.

(** C2 as it is stated does not hold: a page range that selects no page
    of the document is not applied.  With ten pages, the range ["11-12"]
    and the directive [odd], the range resolves to no index, the filtered
    document would have no page, and the pages 1, 3, 5, 7 and 9 of the
    whole document are sent. *)
Lemma unmatched_range_is_not_applied :
  payload Demo.load Demo.save Demo.execute 3
    (Demo.print (Demo.pdf 10) (Some "11-12") (Some "odd"))
  = Some (Some (Demo.save [1; 3; 5; 7; 9]%nat))
  /\ ~ (forall (Page : Type) load save execute (fuel : nat) (req : request)
               (f : upload) (doc : list Page) (indices : list number)
               (filtered : list Page) (job : print_job),
          file req = Some f ->
          mimetype f = "application/pdf" ->
          load (content f) = Some doc ->
          truthy (pages req) = true ->
          duplex req = Some "odd" ->
          getPageIndices fuel (default "" (pages req))
            (ofZ (Z.of_nat (length doc))) = Done (Array indices) ->
          copyPages doc indices = Done filtered ->
          submitted <$> @handle Page load save execute fuel req = Some (Some job) ->
          data job = save (pick Nat.even 0 filtered)).
Proof.
  split; [vm_compute; reflexivity|]. intros H.
  specialize (H nat Demo.load Demo.save Demo.execute 3%nat
                (Demo.print (Demo.pdf 10) (Some "11-12") (Some "odd")) (Demo.pdf 10)
                (seq 1 10) [] [] _ eq_refl eq_refl eq_refl eq_refl eq_refl
                ltac:(vm_compute; reflexivity) eq_refl ltac:(vm_compute; reflexivity)).
  vm_compute in H. discriminate H.
Qed.

(** C2 (amended): for a request with a printer URL and a PDF that loads,
    with a non-empty well-formed page range and the directive [odd] or
    [even], the range is resolved first.
    When it denotes a page of the document, the document is filtered to
    the denoted pages, in ascending order, and the parity loop then runs
    on the positions of the filtered document; when it denotes no page of
    the document, the filter is skipped and the parity loop runs on the
    whole document.  Ten pages with ["2-4"] and [odd] give the pages 2 and
    4; with ["11-12"] and [odd] they give the pages 1, 3, 5, 7 and 9. *)
Theorem range_filter_then_parity :
  (forall (Page : Type) load save execute (fuel : nat) (req : request)
          (f : upload) (doc : list Page) (ts : list token),
      file req = Some f ->
      mimetype f = "application/pdf" ->
      truthy (printerUrl req) = true ->
      load (content f) = Some doc ->
      pages req = Some (expr_string ts) ->
      forallb token_ok ts = true ->
      expr_text ts <> [] ->
      Z.of_nat (length doc) <= MAX_SAFE_INTEGER ->
      (expr_steps ts <= fuel)%nat ->
      duplex req = Some "odd" \/ duplex req = Some "even" ->
      exists (l : list Z) (filtered halved : list Page) (job : print_job),
        StronglySorted Z.lt l
        /\ (forall z : Z,
              In z l <-> 0 <= z < Z.of_nat (length doc)
                         /\ Exists (fun t => denotes t (z + 1)) ts)
        /\ length (pagesAt doc l) = length l
        /\ filtered = match l with [] => doc | _ :: _ => pagesAt doc l end
        /\ selectPages fuel (pages req) doc
           = Done (filtered, match l with [] => false | _ :: _ => true end)
        /\ splitLoop (duplex req) filtered = Done halved
        /\ (forall k : nat,
              halved !! k
              = filtered !! (2 * k + (if is_string (duplex req) "odd" then 0 else 1))%nat)
        /\ @handle Page load save execute fuel req
           = Some {| submitted := Some job;
                     reply := respond (execute (default "" (printerUrl req)) job) |}
        /\ data job = save halved)
  /\ payload Demo.load Demo.save Demo.execute 4
       (Demo.print (Demo.pdf 10) (Some "2-4") (Some "odd"))
     = Some (Some (Demo.save [2; 4]%nat))
  /\ payload Demo.load Demo.save Demo.execute 3
       (Demo.print (Demo.pdf 10) (Some "11-12") (Some "odd"))
     = Some (Some (Demo.save [1; 3; 5; 7; 9]%nat)).
Proof.
  split; [|split; vm_compute; reflexivity].
  intros Page load save execute fuel req f doc ts
    Hf Hm Hu Hl Hp Hts Hne Hlen Hfuel Hd.
  destruct (Zresolve_spec (Z.of_nat (length doc)) ts) as [Hsorted Hin].
  destruct (selectPages_Zresolve doc ts fuel Hts Hne Hlen Hfuel) as [Hlenl Hsel].
  set (l := Zresolve (Z.of_nat (length doc)) ts) in *.
  set (filtered := match l with [] => doc | _ :: _ => pagesAt doc l end).
  set (halved := pick (keepsPage (duplex req)) 0 filtered).
  assert (Hsel' : selectPages fuel (pages req) doc
                  = Done (filtered, match l with [] => false | _ :: _ => true end)).
  { rewrite Hp, Hsel. unfold filtered. destruct l; reflexivity. }
  assert (Hprep : prepare load save fuel f (duplex req) (pages req) = Done (save halved)).
  { unfold prepare. rewrite Hm. cbn [String.eqb Ascii.eqb Bool.eqb].
    rewrite Hl, Hsel'. cbn [mbind comp_bind]. unfold splitDuplex.
    assert (is_string (duplex req) "odd" || is_string (duplex req) "even" = true) as ->
      by (destruct Hd as [-> | ->]; reflexivity).
    cbn [fst]. rewrite splitLoop_pick. reflexivity. }
  pose proof (handle_prepared load save execute fuel req f _ Hf Hu Hprep) as Hh.
  cbv zeta in Hh.
  eexists l, filtered, halved, _.
  split; [exact Hsorted|]. split; [exact Hin|]. split; [exact Hlenl|].
  split; [reflexivity|]. split; [exact Hsel'|]. split; [apply splitLoop_pick|].
  split; [|split; [exact Hh | reflexivity]].
  intros k. unfold halved. destruct Hd as [-> | ->].
  - rewrite (pick_ext _ Nat.even) by apply keepsPage_odd.
    rewrite pick_even_lookup. reflexivity.
  - rewrite (pick_ext _ Nat.odd) by apply keepsPage_even.
    rewrite pick_odd_lookup. reflexivity.
Qed.

(** Ten pages, the range ["2-4"] and the directive [odd]. *)
Lemma range_filter_then_parity_witness :
  exists (l : list Z) (filtered halved : list nat) (job : print_job),
    StronglySorted Z.lt l
    /\ (forall z : Z,
          In z l <-> 0 <= z < 10
                     /\ Exists (fun t => denotes t (z + 1))
                          [Range {| lead := []; digits := ["2"%char]; trail := [] |}
                                 {| lead := []; digits := ["4"%char]; trail := [] |}])
    /\ length (pagesAt (seq 1 10) l) = length l
    /\ filtered = match l with [] => seq 1 10 | _ :: _ => pagesAt (seq 1 10) l end
    /\ selectPages 4 (Some "2-4") (seq 1 10)
       = Done (filtered, match l with [] => false | _ :: _ => true end)
    /\ splitLoop (Some "odd") filtered = Done halved
    /\ (forall k : nat, halved !! k = filtered !! (2 * k + 0)%nat)
    /\ handle Demo.load Demo.save Demo.execute 4
         (Demo.print (Demo.pdf 10) (Some "2-4") (Some "odd"))
       = Some {| submitted := Some job;
                 reply := respond (Demo.execute "ipp://printer:631/ipp/print" job) |}
    /\ data job = Demo.save halved.
Proof.
  apply (proj1 range_filter_then_parity nat Demo.load Demo.save Demo.execute 4%nat
           (Demo.print (Demo.pdf 10) (Some "2-4") (Some "odd")) (Demo.pdf 10)
           (seq 1 10)
           [Range {| lead := []; digits := ["2"%char]; trail := [] |}
                  {| lead := []; digits := ["4"%char]; trail := [] |}]).
  - reflexivity.
  - reflexivity.
  - reflexivity.
  - reflexivity.
  - reflexivity.
  - reflexivity.
  - discriminate.
  - unfold MAX_SAFE_INTEGER. cbn. lia.
  - vm_compute. lia.
  - left. reflexivity.
Defined.

(** C3: the job attributes contain [print-color-mode = monochrome] exactly
    when [grayscale] holds, [sides = two-sided-long-edge] exactly when the
    directive is [auto], and nothing else; without grayscale and with the
    directive [odd] they are empty. *)
Theorem job_attributes_exact :
  forall (grayscale : bool) (duplexType : option string),
    jobAttributes grayscale duplexType !! "print-color-mode"
      = (if grayscale then Some "monochrome" else None)
    /\ jobAttributes grayscale duplexType !! "sides"
      = (if is_string duplexType "auto" then Some "two-sided-long-edge" else None)
    /\ jobAttributes grayscale duplexType
      = (if grayscale then {[ "print-color-mode" := "monochrome" ]} else ∅)
        ∪ (if is_string duplexType "auto"
           then {[ "sides" := "two-sided-long-edge" ]} else ∅)
    /\ jobAttributes true None = {[ "print-color-mode" := "monochrome" ]}
    /\ jobAttributes false (Some "auto") = {[ "sides" := "two-sided-long-edge" ]}
    /\ jobAttributes false (Some "odd") = ∅.
Proof.
  intros grayscale duplexType. unfold jobAttributes.
  destruct grayscale, (is_string duplexType "auto");
    repeat split; try reflexivity; try (apply map_eq; intros k; simplify_map_eq; reflexivity).
  all: apply map_eq; intros k;
    destruct (decide (k = "sides")) as [-> | H1];
    [| destruct (decide (k = "print-color-mode")) as [-> | H2]];
    simplify_map_eq; try reflexivity.
Qed.

(** C4 as it is stated does not hold: a blank range resolves to the empty
    array and not to [null], ["999"] against 3 pages resolves to the same
    empty array, and the request is answered with success for the whole
    document. *)
Lemma out_of_range_expression_is_not_an_error :
  getPageIndices 0 "   " (ofZ 3) = Done (Array [])
  /\ getPageIndices 0 "999" (ofZ 3) = Done (Array [])
  /\ handle Demo.load Demo.save Demo.execute 0
       (Demo.print (Demo.pdf 3) (Some "999") None)
     = Some {| submitted :=
                 Some {| requesting_user_name := "PrintLe-User";
                         job_name := "doc.pdf";
                         document_format := "application/pdf";
                         job_attributes := {[ "print-color-mode" := "monochrome" ]};
                         data := content (Demo.pdf 3) |};
               reply := PrintSuccess (Some 7) |}.
Proof. repeat split. Qed.

(** C4 (amended): the empty range resolves to [null]; a range of white
    space only resolves to the empty array; a non-empty well-formed
    expression whose pages are all out of bounds, such as ["999"] against
    fewer than 999 pages, resolves to the same empty array, without an
    error; the handler treats [null] and the empty array alike: the whole
    document is used and no error is raised. *)
Theorem absent_blank_and_out_of_range :
  (forall (fuel : nat) (n : number), getPageIndices fuel "" n = Done null)
  /\ (forall (fuel : nat) (n : number) (w : chars),
        w <> [] -> forallb is_ws w = true ->
        getPageIndices fuel (string_of_list_ascii w) n = Done (Array []))
  /\ (forall (ts : list token) (n : Z) (fuel : nat),
        forallb token_ok ts = true ->
        expr_text ts <> [] ->
        0 <= n <= MAX_SAFE_INTEGER ->
        (forall p : Z, 1 <= p <= n -> ~ Exists (fun t => denotes t p) ts) ->
        (expr_steps ts <= fuel)%nat ->
        getPageIndices fuel (expr_string ts) (ofZ n) = Done (Array []))
  /\ (forall (fuel : nat) (n : Z),
        0 <= n < 999 -> getPageIndices fuel "999" (ofZ n) = Done (Array []))
  /\ (forall (Page : Type) (fuel : nat) (pageRange : option string)
             (doc : list Page),
        truthy pageRange = false
        \/ getPageIndices fuel (default "" pageRange) (ofZ (Z.of_nat (length doc)))
           = Done null
        \/ getPageIndices fuel (default "" pageRange) (ofZ (Z.of_nat (length doc)))
           = Done (Array []) ->
        selectPages fuel pageRange doc = Done (doc, false)).
Proof.
  split; [reflexivity|]. split; [apply getPageIndices_blank|].
  split; [|split; [apply getPageIndices_999|]].
  - intros ts n fuel Hts Hne Hn Hnone Hf.
    rewrite getPageIndices_Zresolve;
      [| assumption | assumption
       | unfold MAX_SAFE_INTEGER in Hn; unfold two53; lia | assumption].
    rewrite (Zresolve_nil n ts Hnone). reflexivity.
  - intros Page fuel pageRange doc. apply selectPages_none.
Qed.

(** Three blanks, the expression ["7-9, 0"] and the expression ["999"]
    against three pages. *)
Lemma absent_blank_and_out_of_range_witness :
  getPageIndices 0 "   " (ofZ 3) = Done (Array [])
  /\ getPageIndices 4 "7-9, 0" (ofZ 3) = Done (Array [])
  /\ getPageIndices 0 "999" (ofZ 3) = Done (Array [])
  /\ selectPages 0 (Some "999") [1; 2; 3]%nat = Done ([1; 2; 3]%nat, false).
Proof.
  destruct absent_blank_and_out_of_range as (_ & Hblank & Hout & H999 & Hsel).
  split; [| split; [| split]].
  - apply (Hblank 0%nat (ofZ 3) [" "; " "; " "]%char); [discriminate | reflexivity].
  - apply (Hout [Range {| lead := []; digits := ["7"%char]; trail := [] |}
                       {| lead := []; digits := ["9"%char]; trail := [] |};
                 Single {| lead := [" "%char]; digits := ["0"%char]; trail := [] |}]
                3 4%nat).
    + reflexivity.
    + discriminate.
    + unfold MAX_SAFE_INTEGER. lia.
    + intros p Hp Hex. inversion Hex as [t r H | t r H]; subst.
      * change (7 <= p <= 9) in H. lia.
      * inversion H as [t' r' H' | t' r' H']; subst;
          [change (p = 0) in H'; lia | inversion H'].
    + vm_compute. lia.
  - apply (H999 0%nat 3). lia.
  - apply (Hsel nat 0%nat (Some "999") [1; 2; 3]%nat). right. right.
    apply (H999 0%nat 3). lia.
Defined.

(** C5: on every document the duplex loop with [odd] keeps exactly the
    pages at the indices with [index % 2 == 0], with [even] exactly the
    pages at the other indices, in both cases in the order of the
    document. *)
Theorem parity_split_selects :
  forall (Page : Type) (doc : list Page),
    (exists odds,
        splitDuplex (Some "odd") (doc, false) = Done (odds, true)
        /\ splitLoop (Some "odd") doc = Done odds
        /\ odds = pick (fun i => (i mod 2 =? 0)%nat) 0 doc
        /\ forall k : nat, odds !! k = doc !! (2 * k)%nat)
    /\ (exists evens,
        splitDuplex (Some "even") (doc, false) = Done (evens, true)
        /\ splitLoop (Some "even") doc = Done evens
        /\ evens = pick (fun i => negb (i mod 2 =? 0)%nat) 0 doc
        /\ forall k : nat, evens !! k = doc !! (2 * k + 1)%nat).
Proof.
  intros Page doc. split.
  - exists (pick (keepsPage (Some "odd")) 0 doc).
    split; [| split; [| split]].
    + unfold splitDuplex. change (is_string (Some "odd") "odd" || _) with true.
      cbn [fst]. rewrite splitLoop_pick. reflexivity.
    + apply splitLoop_pick.
    + apply pick_ext. intros j. unfold keepsPage. cbn. apply orb_false_r.
    + intros k. rewrite (pick_ext _ Nat.even) by apply keepsPage_odd.
      rewrite pick_even_lookup. cbn. f_equal. lia.
  - exists (pick (keepsPage (Some "even")) 0 doc).
    split; [| split; [| split]].
    + unfold splitDuplex. change (is_string (Some "even") "odd" || _) with true.
      cbn [fst]. rewrite splitLoop_pick. reflexivity.
    + apply splitLoop_pick.
    + apply pick_ext. intros j. unfold keepsPage. reflexivity.
    + intros k. rewrite (pick_ext _ Nat.odd) by apply keepsPage_even.
      rewrite pick_odd_lookup. cbn. f_equal.
Qed.

(** C6 as it is stated does not hold: the token ["1.5"] is neither an
    integer nor a range, and it is not dropped: it contributes the index
    [0.5]. *)
Lemma fraction_token_is_not_dropped :
  getPageIndices 0 "1.5" (ofZ 3) = Done (Array [div (ofZ 1) (ofZ 2)])
  /\ ~ (exists fuel : nat, getPageIndices fuel "1.5" (ofZ 3) = Done (Array [])).
Proof.
  split; [vm_compute; reflexivity|].
  intros [fuel H]. vm_compute in H. discriminate H.
Qed.

(** C6 (amended): on a well-formed expression the resolver returns
    without an error exactly the indices [p - 1] of the pages [p] that some
    token denotes and that lie in [[1, totalPages]]: a token in which
    [Number] finds no number contributes nothing, a token whose pages are
    all out of bounds contributes nothing, a range contributes its pages in
    bounds; ["1-3, 5"] against 3 pages gives [[0, 1, 2]]. *)
Theorem resolver_exact_in_bounds_pages :
  (forall (ts : list token) (n : Z),
      forallb token_ok ts = true ->
      expr_text ts <> [] ->
      0 <= n <= MAX_SAFE_INTEGER ->
      exists l : list Z,
        (forall fuel : nat, (expr_steps ts <= fuel)%nat ->
           getPageIndices fuel (expr_string ts) (ofZ n) = Done (Array (map ofZ l)))
        /\ StronglySorted Z.lt l
        /\ forall z : Z,
             In z l <-> 0 <= z < n /\ Exists (fun t => denotes t (z + 1)) ts)
  /\ (forall fuel : nat,
        getPageIndices (4 + fuel) "1-3, 5" (ofZ 3) = Done (Array (map ofZ [0; 1; 2]))).
Proof.
  split.
  - intros ts n Hts Hne Hn.
    assert (Hn' : 0 <= n < two53) by (unfold MAX_SAFE_INTEGER in Hn; unfold two53; lia).
    destruct (Zresolve_spec n ts) as [Hsorted Hin].
    exists (Zresolve n ts). split; [|split; assumption].
    intros fuel Hf. apply getPageIndices_Zresolve; assumption.
  - intros fuel. vm_compute. reflexivity.
Qed.

(** The expression ["1-3,x, 5"] against 2 pages. *)
Lemma resolver_exact_in_bounds_pages_witness :
  exists l : list Z,
    (forall fuel : nat, (4 <= fuel)%nat ->
       getPageIndices fuel "1-3,x, 5" (ofZ 2) = Done (Array (map ofZ l)))
    /\ StronglySorted Z.lt l
    /\ forall z : Z,
         In z l <-> 0 <= z < 2
                    /\ Exists (fun t => denotes t (z + 1))
                         Demo.expr_with_junk.
Proof.
  apply (proj1 resolver_exact_in_bounds_pages Demo.expr_with_junk 2).
  - reflexivity.
  - discriminate.
  - unfold MAX_SAFE_INTEGER. lia.
Defined.

(** C7 as it is stated does not hold: page 5 is the index 4, so the
    result is not [[0, 1, 2, 5]], whatever the fuel. *)
Lemma page_five_is_index_four :
  ~ (exists fuel : nat,
        getPageIndices fuel "1-3, 5" (ofZ 10) = Done (Array (map ofZ [0; 1; 2; 5]))).
Proof.
  intros [fuel H]. destruct fuel as [|[|[|[|fuel]]]]; vm_compute in H; congruence.
Qed.

(** C7 (amended): resolving ["1-3, 5"] against a 10-page document yields
    the zero-based indices [[0, 1, 2, 4]]. *)
Theorem resolve_example_ten_pages :
  forall fuel : nat,
    getPageIndices (4 + fuel) "1-3, 5" (ofZ 10) = Done (Array (map ofZ [0; 1; 2; 4])).
Proof. intros fuel. vm_compute. reflexivity. Qed.

(** C8 as it is stated does not hold: for a file that is not a PDF the
    reply to a request with a page range and the directive [odd] is the
    reply to the same request without them; nothing reports that they were
    ignored. *)
Lemma ignored_directives_leave_no_trace :
  ~ (forall (Page : Type) load save execute (fuel : nat) (req : request)
            (f : upload) (pageRange duplexType : option string),
        file req = Some f ->
        String.eqb (mimetype f) "application/pdf" = false ->
        truthy pageRange = true ->
        is_string duplexType "odd" = true ->
        reply <$> @handle Page load save execute fuel
                    (with_directives req pageRange duplexType)
        <> reply <$> @handle Page load save execute fuel
                       (with_directives req None None)).
Proof.
  intros H.
  apply (H nat Demo.load Demo.save Demo.execute 0%nat
           (Demo.print Demo.text None None) Demo.text (Some "1-2") (Some "odd"));
    reflexivity.
Qed.

(** C8 (amended): for a file that is not a PDF the bytes sent are the
    uploaded bytes, with the format [application/octet-stream], whatever the
    page range and the duplex directive; the reply is the answer of the
    printer only, and the outcome is the one of the request without page
    range and directive unless the directive is [auto]. *)
Theorem non_pdf_is_passed_through :
  forall (Page : Type) load save execute (fuel : nat) (req : request)
         (f : upload) (pageRange duplexType : option string),
    file req = Some f ->
    String.eqb (mimetype f) "application/pdf" = false ->
    truthy (printerUrl req) = true ->
    let job := {|
      requesting_user_name := "PrintLe-User";
      job_name := originalname f;
      document_format := "application/octet-stream";
      job_attributes :=
        jobAttributes (is_string (grayscale req) "true") duplexType;
      data := content f |} in
    @handle Page load save execute fuel (with_directives req pageRange duplexType)
    = Some {| submitted := Some job;
              reply := respond (execute (default "" (printerUrl req)) job) |}
    /\ (is_string duplexType "auto" = false ->
        @handle Page load save execute fuel (with_directives req pageRange duplexType)
        = @handle Page load save execute fuel (with_directives req None None)).
Proof.
  intros Page load save execute fuel req f pageRange duplexType Hf Hm Hu job.
  assert (Hany : forall p d,
             @handle Page load save execute fuel (with_directives req p d)
             = Some {| submitted :=
                         Some {| requesting_user_name := "PrintLe-User";
                                 job_name := originalname f;
                                 document_format := "application/octet-stream";
                                 job_attributes :=
                                   jobAttributes (is_string (grayscale req) "true") d;
                                 data := content f |};
                       reply :=
                         respond (execute (default "" (printerUrl req))
                                    {| requesting_user_name := "PrintLe-User";
                                       job_name := originalname f;
                                       document_format := "application/octet-stream";
                                       job_attributes :=
                                         jobAttributes (is_string (grayscale req) "true") d;
                                       data := content f |}) |}).
  { intros p d. unfold handle, prepare. cbn [with_directives file printerUrl duplex pages grayscale].
    rewrite Hf, Hu, Hm. reflexivity. }
  split; [apply Hany|].
  intros Hauto. rewrite !Hany. unfold jobAttributes. rewrite Hauto. reflexivity.
Qed.

(** A text file with the range ["1-2"] and the directive [odd]. *)
Lemma non_pdf_is_passed_through_witness :
  handle Demo.load Demo.save Demo.execute 0
    (Demo.print Demo.text (Some "1-2") (Some "odd"))
  = Some {| submitted :=
              Some {| requesting_user_name := "PrintLe-User";
                      job_name := "notes.txt";
                      document_format := "application/octet-stream";
                      job_attributes := {[ "print-color-mode" := "monochrome" ]};
                      data := [Byte.x68; Byte.x69] |};
            reply := PrintSuccess (Some 7) |}.
Proof.
  apply (proj1 (non_pdf_is_passed_through nat Demo.load Demo.save Demo.execute 0
                  (Demo.print Demo.text None None) Demo.text (Some "1-2") (Some "odd")
                  eq_refl eq_refl eq_refl)).
Defined.

(** C9 as it is stated does not hold: the odd split of a four-page
    document has two pages, and splitting it again keeps one. *)
Lemma reapplied_odd_split_drops_pages :
  ~ (forall (Page : Type) (doc once twice : list Page),
        splitLoop (Some "odd") doc = Done once ->
        splitLoop (Some "odd") once = Done twice ->
        twice = once).
Proof.
  intros H. specialize (H nat [1; 2; 3; 4]%nat [1; 3]%nat [1]%nat eq_refl eq_refl).
  discriminate H.
Qed.

(** C9 (amended): applying the odd split to the odd split of a document
    keeps the pages at the even positions of the first split, which are the
    pages of the document at the indices divisible by 4; it keeps every page
    of the first split exactly when the document has at most two pages. *)
Theorem reapplied_odd_split_keeps_every_fourth :
  forall (Page : Type) (doc : list Page),
    exists once twice,
      splitLoop (Some "odd") doc = Done once
      /\ splitLoop (Some "odd") once = Done twice
      /\ (forall k : nat, once !! k = doc !! (2 * k)%nat)
      /\ (forall k : nat, twice !! k = doc !! (4 * k)%nat)
      /\ (twice = once <-> (length doc <= 2)%nat).
Proof.
  intros Page doc.
  exists (pick Nat.even 0 doc), (pick Nat.even 0 (pick Nat.even 0 doc)).
  assert (Hsplit : forall l : list Page, splitLoop (Some "odd") l = Done (pick Nat.even 0 l)).
  { intros l. rewrite splitLoop_pick. f_equal. apply pick_ext, keepsPage_odd. }
  assert (Hk : forall (l : list Page) (k : nat), pick Nat.even 0 l !! k = l !! (2 * k)%nat).
  { intros l k. rewrite pick_even_lookup. cbn. f_equal. lia. }
  split; [apply Hsplit|]. split; [apply Hsplit|]. split; [apply Hk|].
  split; [intros k; rewrite !Hk; f_equal; lia|].
  split.
  - intros E. destruct doc as [|a [|b [|c doc]]]; cbn; try lia.
    exfalso.
    assert (Hlen : length (pick Nat.even 0 (pick Nat.even 0 (a :: b :: c :: doc)))
                   = length (pick Nat.even 0 (a :: b :: c :: doc))) by (rewrite E; reflexivity).
    cbn [pick Nat.even] in Hlen.
    pose proof (pick_even_shorter a c (pick Nat.even 3 doc) 0) as Hlt.
    cbn [pick Nat.even] in Hlt. lia.
  - intros Hlen. destruct doc as [|a [|b [|c doc]]]; [reflexivity | reflexivity | reflexivity |].
    cbn in Hlen. lia.
Qed.

(** C10 as it is stated does not hold: with the directive [odd] a PDF whose
    page range resolves to no index is still split, and what is sent is not
    the uploaded buffer. *)
Lemma empty_selection_with_parity_changes_payload :
  ~ (forall (Page : Type) load save execute (fuel : nat) (req : request)
            (f : upload) (doc : list Page) (job : print_job),
        file req = Some f ->
        mimetype f = "application/pdf" ->
        load (content f) = Some doc ->
        truthy (pages req) = true ->
        getPageIndices fuel (default "" (pages req)) (ofZ (Z.of_nat (length doc)))
          = Done (Array []) ->
        submitted <$> @handle Page load save execute fuel req = Some (Some job) ->
        data job = content f).
Proof.
  intros H.
  specialize (H nat Demo.load Demo.save Demo.execute 0%nat
                (Demo.print (Demo.pdf 2) (Some "999") (Some "odd")) (Demo.pdf 2)
                [1; 2]%nat _ eq_refl eq_refl eq_refl eq_refl eq_refl eq_refl).
  discriminate H.
Qed.

(** C10 (amended): for a PDF whose non-empty page range resolves to no
    index, the handler skips the page selection and goes on with the whole
    document: without the directive [odd] or [even] it sends the uploaded
    buffer unchanged, with it the parity split of the whole document; in
    both cases the reply is the answer of the printer only. *)
Theorem empty_selection_prints_whole_document :
  forall (Page : Type) load save execute (fuel : nat) (req : request)
         (f : upload) (doc : list Page),
    file req = Some f ->
    mimetype f = "application/pdf" ->
    truthy (printerUrl req) = true ->
    load (content f) = Some doc ->
    truthy (pages req) = true ->
    getPageIndices fuel (default "" (pages req)) (ofZ (Z.of_nat (length doc)))
      = Done (Array []) ->
    selectPages fuel (pages req) doc = Done (doc, false)
    /\ exists job : print_job,
         @handle Page load save execute fuel req
         = Some {| submitted := Some job;
                   reply := respond (execute (default "" (printerUrl req)) job) |}
         /\ data job
            = (if is_string (duplex req) "odd" || is_string (duplex req) "even"
               then save (pick (keepsPage (duplex req)) 0 doc)
               else content f).
Proof.
  intros Page load save execute fuel req f doc Hf Hm Hu Hl Ht Hi.
  assert (Hsel : selectPages fuel (pages req) doc = Done (doc, false))
    by (apply selectPages_none; right; right; exact Hi).
  split; [exact Hsel|].
  assert (Hprep : prepare load save fuel f (duplex req) (pages req)
                  = Done (if is_string (duplex req) "odd" || is_string (duplex req) "even"
                          then save (pick (keepsPage (duplex req)) 0 doc)
                          else content f)).
  { unfold prepare. rewrite Hm. cbn [String.eqb Ascii.eqb Bool.eqb].
    rewrite Hl, Hsel. cbn [mbind comp_bind]. unfold splitDuplex.
    destruct (is_string (duplex req) "odd" || is_string (duplex req) "even").
    - cbn [fst]. rewrite splitLoop_pick. reflexivity.
    - reflexivity. }
  eexists. split; [apply (handle_prepared load save execute fuel req f _ Hf Hu Hprep)|].
  reflexivity.
Qed.

(** Three pages and the range ["999"]. *)
Lemma empty_selection_prints_whole_document_witness :
  selectPages 0 (Some "999") (seq 1 3) = Done (seq 1 3, false)
  /\ exists job : print_job,
       handle Demo.load Demo.save Demo.execute 0
         (Demo.print (Demo.pdf 3) (Some "999") None)
       = Some {| submitted := Some job; reply := PrintSuccess (Some 7) |}
       /\ data job = content (Demo.pdf 3).
Proof.
  apply (empty_selection_prints_whole_document nat Demo.load Demo.save Demo.execute 0
           (Demo.print (Demo.pdf 3) (Some "999") None) (Demo.pdf 3) (seq 1 3)
           eq_refl eq_refl eq_refl eq_refl eq_refl eq_refl).
Defined.

(** * Further properties of the code *)

Section OrderFacts.

Lemma sorted_unique (l1 : list Z) : forall l2 : list Z,
  StronglySorted Z.lt l1 -> StronglySorted Z.lt l2 ->
  (forall z, In z l1 <-> In z l2) -> l1 = l2.
Proof.
  induction l1 as [|x l1 IH]; intros l2 H1 H2 Hin.
  - destruct l2 as [|y l2]; [reflexivity|].
    exfalso. apply (proj2 (Hin y)). left. reflexivity.
  - destruct l2 as [|y l2].
    + exfalso. apply (proj1 (Hin x)). left. reflexivity.
    + inversion H1 as [|? ? H1' Hx]; subst. inversion H2 as [|? ? H2' Hy]; subst.
      rewrite List.Forall_forall in Hx, Hy.
      assert (x = y).
      { destruct (proj1 (Hin x) (or_introl eq_refl)) as [E | Hxl2]; [congruence|].
        destruct (proj2 (Hin y) (or_introl eq_refl)) as [E | Hyl1]; [congruence|].
        specialize (Hx y Hyl1). specialize (Hy x Hxl2). lia. }
      subst y. f_equal. apply IH; try assumption.
      intros z. split; intros Hz.
      * destruct (proj1 (Hin z) (or_intror Hz)) as [E | H]; [|exact H].
        subst z. specialize (Hx x Hz). lia.
      * destruct (proj2 (Hin z) (or_intror Hz)) as [E | H]; [|exact H].
        subst z. specialize (Hy x Hz). lia.
Qed.

Lemma Zinterval_in lo hi z : In z (Zinterval lo hi) <-> lo <= z < hi.
Proof.
  unfold Zinterval. rewrite in_map_iff. split.
  - intros (k & <- & Hk). apply in_seq in Hk. lia.
  - intros Hz. exists (Z.to_nat (z - lo)). split; [lia|]. apply in_seq. lia.
Qed.

Lemma Zinterval_sorted lo hi : StronglySorted Z.lt (Zinterval lo hi).
Proof.
  unfold Zinterval. generalize (Z.to_nat (hi - lo)) as len. generalize 0%nat as start.
  intros start len. revert start.
  induction len as [|len IH]; intros start; cbn [seq map]; constructor; [apply IH|].
  apply List.Forall_forall. intros z Hz.
  apply in_map_iff in Hz as (k & <- & Hk). apply in_seq in Hk. lia.
Qed.

End OrderFacts.

(** X1: the resolver depends only on the set of pages that an expression
    denotes.  Two non-empty well-formed expressions that denote the same
    pages among [1..n] resolve to the same result: the order of the parts,
    repeated pages, overlapping ranges and pages out of bounds make no
    difference. *)
Theorem resolver_ignores_order_and_repeats :
  forall (ts1 ts2 : list token) (n : Z) (fuel : nat),
    forallb token_ok ts1 = true -> forallb token_ok ts2 = true ->
    expr_text ts1 <> [] -> expr_text ts2 <> [] ->
    0 <= n <= MAX_SAFE_INTEGER ->
    (forall p : Z, 1 <= p <= n ->
       (Exists (fun t => denotes t p) ts1 <-> Exists (fun t => denotes t p) ts2)) ->
    (expr_steps ts1 <= fuel)%nat -> (expr_steps ts2 <= fuel)%nat ->
    getPageIndices fuel (expr_string ts1) (ofZ n)
    = getPageIndices fuel (expr_string ts2) (ofZ n).
Proof.
  intros ts1 ts2 n fuel Ht1 Ht2 Hne1 Hne2 Hn Hden Hf1 Hf2.
  assert (Hn' : 0 <= n < two53) by (unfold MAX_SAFE_INTEGER in Hn; unfold two53; lia).
  rewrite !getPageIndices_Zresolve by assumption.
  destruct (Zresolve_spec n ts1) as [Hs1 Hin1].
  destruct (Zresolve_spec n ts2) as [Hs2 Hin2].
  do 3 f_equal. apply sorted_unique; try assumption.
  intros z. rewrite Hin1, Hin2. split; intros [Hz He]; (split; [exact Hz|]); apply Hden; (lia || assumption).
Qed.

Lemma resolver_ignores_order_and_repeats_witness :
  getPageIndices 4 "1-3, 5" (ofZ 10) = getPageIndices 4 " 5,1-3,1-3" (ofZ 10).
Proof.
  apply (resolver_ignores_order_and_repeats Demo.expr
           [ Single {| lead := [" "%char]; digits := ["5"%char]; trail := [] |};
             Range {| lead := []; digits := ["1"%char]; trail := [] |}
                   {| lead := []; digits := ["3"%char]; trail := [] |};
             Range {| lead := []; digits := ["1"%char]; trail := [] |}
                   {| lead := []; digits := ["3"%char]; trail := [] |} ] 10 4).
  - reflexivity.
  - reflexivity.
  - discriminate.
  - discriminate.
  - unfold MAX_SAFE_INTEGER. lia.
  - intros p _. unfold Demo.expr. rewrite !Exists_cons, !Exists_nil. tauto.
  - vm_compute. lia.
  - vm_compute. lia.
Defined.

(** X2: a single range [a-b] resolves to the consecutive indices from
    [max(a,1) - 1] up to [min(b,n) - 1], in ascending order.  A missing
    number is 0: the range [-b] starts at the first page, and the range
    [a-], like a range whose start is beyond its end, selects nothing. *)
Theorem single_range_resolves_to_interval :
  forall (a b : numeral) (n : Z) (fuel : nat),
    numeral_ok a = true -> numeral_ok b = true ->
    0 <= n <= MAX_SAFE_INTEGER ->
    (token_steps (Range a b) <= fuel)%nat ->
    getPageIndices fuel
      (string_of_list_ascii (numeral_text a ++ "-"%char :: numeral_text b)) (ofZ n)
    = Done (Array (map ofZ (Zinterval (Z.max (numeral_value a) 1 - 1)
                                       (Z.min (numeral_value b) n)))).
Proof.
  intros a b n fuel Ha Hb Hn Hf.
  assert (Hn' : 0 <= n < two53) by (unfold MAX_SAFE_INTEGER in Hn; unfold two53; lia).
  change (string_of_list_ascii (numeral_text a ++ "-"%char :: numeral_text b))
    with (expr_string [Range a b]).
  rewrite getPageIndices_Zresolve; try assumption.
  - do 3 f_equal. destruct (Zresolve_spec n [Range a b]) as [Hs Hin].
    apply sorted_unique; [exact Hs | apply Zinterval_sorted |].
    intros z. rewrite Hin, Zinterval_in, Exists_cons, Exists_nil. cbn [denotes]. lia.
  - cbn [forallb token_ok]. rewrite Ha, Hb. reflexivity.
  - cbn [expr_text token_text]. destruct (numeral_text a); discriminate.
Qed.

Lemma single_range_resolves_to_interval_witness :
  getPageIndices 5 "-3" (ofZ 10) = Done (Array (map ofZ [0; 1; 2]))
  /\ getPageIndices 1 "3-" (ofZ 10) = Done (Array [])
  /\ getPageIndices 1 "5-2" (ofZ 10) = Done (Array [])
  /\ getPageIndices 6 "8-12" (ofZ 10) = Done (Array (map ofZ [7; 8; 9])).
Proof.
  split; [| split; [| split]].
  - apply (single_range_resolves_to_interval
             {| lead := []; digits := []; trail := [] |}
             {| lead := []; digits := ["3"%char]; trail := [] |} 10 5);
      [reflexivity | reflexivity | unfold MAX_SAFE_INTEGER; lia | vm_compute; lia].
  - apply (single_range_resolves_to_interval
             {| lead := []; digits := ["3"%char]; trail := [] |}
             {| lead := []; digits := []; trail := [] |} 10 1);
      [reflexivity | reflexivity | unfold MAX_SAFE_INTEGER; lia | vm_compute; lia].
  - apply (single_range_resolves_to_interval
             {| lead := []; digits := ["5"%char]; trail := [] |}
             {| lead := []; digits := ["2"%char]; trail := [] |} 10 1);
      [reflexivity | reflexivity | unfold MAX_SAFE_INTEGER; lia | vm_compute; lia].
  - apply (single_range_resolves_to_interval
             {| lead := []; digits := ["8"%char]; trail := [] |}
             {| lead := []; digits := ["1"; "2"]%char; trail := [] |} 10 6);
      [reflexivity | reflexivity | unfold MAX_SAFE_INTEGER; lia | vm_compute; lia].
Defined.

Section HangFacts.

Lemma le_below_two53 a e :
  0 <= a <= two53 -> le (ofZ two53) e = true -> le (ofZ a) e = true.
Proof.
  intros Ha He.
  destruct (Z.eq_dec a two53) as [-> | Hne]; [exact He|].
  change (ofZ two53) with (S754_finite false 4503599627370496 1) in He.
  destruct a as [|c|c]; [| | lia].
  - destruct e as [s | [] | | [] m e']; try discriminate He; reflexivity.
  - rewrite ofZ_pos by lia. pose proof (Zdigits2_le_53 c ltac:(lia)) as Hd.
    destruct e as [s | [] | | [] m e']; try discriminate He; [reflexivity|].
    unfold le, SFleb in *. cbn [SFcompare] in *.
    destruct (Z.compare_spec 1 e') as [E | E | E]; try discriminate He.
    + subst e'. replace (Zpos (digits2_pos c) - 53 ?= 1) with Lt; [reflexivity|].
      symmetry. apply Z.compare_lt_iff. lia.
    + replace (Zpos (digits2_pos c) - 53 ?= e') with Lt; [reflexivity|].
      symmetry. apply Z.compare_lt_iff. lia.
Qed.

(** At [2^53] the increment does nothing, so a loop whose end is not below
    [2^53] is never left. *)
Lemma range_loop_overshoot end_ totalPages fuel : forall a indices,
  0 <= a <= two53 -> le (ofZ two53) end_ = true ->
  range_loop fuel (ofZ a) end_ totalPages indices = OutOfFuel.
Proof.
  induction fuel as [|fuel IH]; intros a indices Ha He; [reflexivity|].
  cbn [range_loop]. rewrite (le_below_two53 a end_ Ha He).
  destruct (Z.eq_dec a two53) as [-> | Hne].
  - change (add (ofZ two53) (ofZ 1)) with (ofZ two53). apply IH; [lia | exact He].
  - rewrite add_ofZ_1 by lia. apply IH; [lia | exact He].
Qed.

Lemma range_loop_not_thrown fuel : forall i end_ totalPages indices,
  range_loop fuel i end_ totalPages indices <> Thrown.
Proof.
  induction fuel as [|fuel IH]; intros i end_ totalPages indices; [discriminate|].
  cbn [range_loop]. destruct (le i end_); [apply IH | discriminate].
Qed.

Lemma add_part_not_thrown fuel totalPages indices part :
  add_part fuel totalPages indices part <> Thrown.
Proof.
  unfold add_part. destruct (includes "-" (trim part));
    [apply range_loop_not_thrown | discriminate].
Qed.

Lemma add_part_overshoot fuel totalPages indices (a : numeral) (e : chars) :
  numeral_ok a = true -> includes "-" e = false ->
  le (ofZ two53) (Number e) = true ->
  add_part fuel totalPages indices (numeral_text a ++ "-"%char :: e) = OutOfFuel.
Proof.
  intros Ha He Hle.
  pose proof (numeral_ok_inv a Ha) as (_ & _ & _ & Hva).
  assert (Hna : includes "-" (numeral_text a) = false)
    by (apply numeral_no_sep; [reflexivity | reflexivity | assumption]).
  unfold add_part.
  assert (Htrim : trim (numeral_text a ++ "-"%char :: e)
                  = trimStart (numeral_text a) ++ "-"%char :: trimEnd e).
  { unfold trim. rewrite trimStart_nonws by reflexivity.
    apply trimEnd_nonws. reflexivity. }
  rewrite Htrim.
  assert (includes "-" (trimStart (numeral_text a) ++ "-"%char :: trimEnd e) = true) as ->.
  { rewrite includes_app. cbn. apply orb_true_r. }
  rewrite split_app by (apply includes_trimStart, Hna).
  rewrite split_none by (apply includes_trimEnd, He).
  cbn [map nth]. rewrite Number_trimStart, Number_trimEnd, Number_numeral by assumption.
  apply range_loop_overshoot; [lia | exact Hle].
Qed.

Lemma foldl_parts_OutOfFuel fuel totalPages parts :
  foldl (fun acc part => indices ← acc; add_part fuel totalPages indices part)
        OutOfFuel parts = OutOfFuel.
Proof. induction parts as [|p parts IH]; [reflexivity | exact IH]. Qed.

Lemma foldl_parts_overshoot fuel totalPages part parts : forall acc,
  acc <> Thrown -> In part parts ->
  (forall indices, add_part fuel totalPages indices part = OutOfFuel) ->
  foldl (fun acc part => indices ← acc; add_part fuel totalPages indices part)
        acc parts = OutOfFuel.
Proof.
  induction parts as [|p parts IH]; intros acc Hacc Hin Hpart; [destruct Hin|].
  cbn [foldl]. destruct Hin as [-> | Hin].
  - destruct acc as [indices | |]; [| congruence |].
    + cbn [mbind comp_bind]. rewrite Hpart. apply foldl_parts_OutOfFuel.
    + apply foldl_parts_OutOfFuel.
  - apply IH; try assumption.
    destruct acc as [indices | |]; [apply add_part_not_thrown | congruence | discriminate].
Qed.

End HangFacts.

(** X3: the resolver does not return on a range whose end is 2^53 or more
    (such as [1-1e16] or [1-Infinity]) and whose start is a page number:
    [i++] stops growing at 2^53, the test [i <= end] stays true, and
    whatever the number of rounds granted the loop is still running.  One
    such part among the parts of the expression is enough. *)
Theorem resolver_never_returns_past_2_53 :
  forall (rangeStr : string) (a : numeral) (e : chars)
         (totalPages : number) (fuel : nat),
    In (numeral_text a ++ "-"%char :: e)
       (split "," (list_ascii_of_string rangeStr)) ->
    numeral_ok a = true ->
    includes "-" e = false ->
    le (ofZ two53) (Number e) = true ->
    getPageIndices fuel rangeStr totalPages = OutOfFuel.
Proof.
  intros rangeStr a e totalPages fuel Hin Ha He Hle. unfold getPageIndices.
  destruct (String.eqb_spec rangeStr "") as [-> | Hne].
  - cbn in Hin. destruct Hin as [E | []]. destruct (numeral_text a); discriminate E.
  - rewrite (foldl_parts_overshoot fuel totalPages _ _ (Done []) ltac:(discriminate) Hin);
      [reflexivity|].
    intros indices. apply add_part_overshoot; assumption.
Qed.

Lemma resolver_never_returns_past_2_53_witness :
  getPageIndices 1000 "2, 1-Infinity" (ofZ 3) = OutOfFuel.
Proof.
  apply (resolver_never_returns_past_2_53 "2, 1-Infinity"
           {| lead := [" "%char]; digits := ["1"%char]; trail := [] |}
           (list_ascii_of_string "Infinity") (ofZ 3) 1000).
  - right. left. reflexivity.
  - reflexivity.
  - reflexivity.
  - reflexivity.
Defined.

(** X4: the handler sends no response to a request for a PDF whose page
    range has a part ending at 2^53 or more: the request hangs in the
    resolver, nothing is submitted and no error is reported. *)
Theorem handler_never_answers_past_2_53 :
  forall (Page : Type) load save execute (req : request) (f : upload)
         (doc : list Page) (rangeStr : string) (a : numeral) (e : chars)
         (fuel : nat),
    file req = Some f ->
    mimetype f = "application/pdf" ->
    truthy (printerUrl req) = true ->
    load (content f) = Some doc ->
    pages req = Some rangeStr ->
    In (numeral_text a ++ "-"%char :: e)
       (split "," (list_ascii_of_string rangeStr)) ->
    numeral_ok a = true ->
    includes "-" e = false ->
    le (ofZ two53) (Number e) = true ->
    @handle Page load save execute fuel req = None.
Proof.
  intros Page load save execute req f doc rangeStr a e fuel
    Hf Hm Hu Hl Hp Hin Ha He Hle.
  unfold handle, prepare, selectPages. rewrite Hf, Hu, Hm, Hl, Hp.
  cbn [String.eqb Ascii.eqb Bool.eqb].
  assert (Ht : truthy (Some rangeStr) = true).
  { cbn. destruct (String.eqb_spec rangeStr "") as [-> | Hne]; [|reflexivity].
    cbn in Hin. destruct Hin as [E | []]. destruct (numeral_text a); discriminate E. }
  rewrite Ht. change (default "" (Some rangeStr)) with rangeStr.
  unfold getPageIndices.
  assert (String.eqb rangeStr "" = false) as ->
    by (cbn in Ht; apply negb_true_iff, Ht).
  rewrite (foldl_parts_overshoot fuel _ _ _ (Done []) ltac:(discriminate) Hin);
    [reflexivity|].
  intros indices. apply add_part_overshoot; assumption.
Qed.

Lemma handler_never_answers_past_2_53_witness :
  handle Demo.load Demo.save Demo.execute 1000
    (Demo.print (Demo.pdf 3) (Some "1-1e16") None) = None.
Proof.
  apply (handler_never_answers_past_2_53 nat Demo.load Demo.save Demo.execute
           (Demo.print (Demo.pdf 3) (Some "1-1e16") None) (Demo.pdf 3) (seq 1 3)
           "1-1e16" {| lead := []; digits := ["1"%char]; trail := [] |}
           (list_ascii_of_string "1e16") 1000);
    try reflexivity.
  left. reflexivity.
Defined.

Section IndexFacts.

Context {Page : Type}.
Implicit Types (doc : list Page).

Lemma copyPages_cases doc indices :
  (forallb (finds_page doc) indices = true
   /\ exists copied, copyPages doc indices = Done copied)
  \/ (forallb (finds_page doc) indices = false
      /\ copyPages doc indices = Thrown).
Proof.
  induction indices as [|x rest IH]; [left; split; [reflexivity | eexists; reflexivity]|].
  cbn [copyPages forallb]. unfold finds_page at 1 3.
  destruct (array_index x ≫= _) as [page|]; [|right; split; reflexivity].
  cbn [andb]. destruct IH as [[Hall (copied & ->)] | [Hall ->]].
  - left. split; [exact Hall | eexists; reflexivity].
  - right. split; [exact Hall | reflexivity].
Qed.

Lemma getPageIndices_not_thrown fuel rangeStr totalPages :
  getPageIndices fuel rangeStr totalPages <> Thrown.
Proof.
  unfold getPageIndices. destruct (String.eqb rangeStr ""); [discriminate|].
  assert (H : forall parts acc, acc <> Thrown ->
              foldl (fun acc part => indices ← acc; add_part fuel totalPages indices part)
                    acc parts <> Thrown).
  { induction parts as [|p parts IH]; intros acc Hacc; [exact Hacc|].
    cbn [foldl]. apply IH.
    destruct acc as [indices | |]; [apply add_part_not_thrown | congruence | discriminate]. }
  specialize (H (split "," (list_ascii_of_string rangeStr)) (Done []) ltac:(discriminate)).
  destruct (foldl _ _ _); [discriminate | congruence | discriminate].
Qed.

(** The page selection throws exactly on a resolved index that is not the
    index of a page. *)
Lemma selectPages_thrown_iff fuel pageRange doc :
  selectPages fuel pageRange doc = Thrown
  <-> truthy pageRange = true
      /\ exists indices,
           getPageIndices fuel (default "" pageRange)
             (ofZ (Z.of_nat (length doc))) = Done (Array indices)
           /\ forallb (finds_page doc) indices = false.
Proof.
  unfold selectPages. destruct (truthy pageRange); [|split; [discriminate | intros [H _]; discriminate H]].
  pose proof (getPageIndices_not_thrown fuel (default "" pageRange)
                (ofZ (Z.of_nat (length doc)))) as Hnt.
  destruct (getPageIndices _ _ _) as [[|indices] | |]; cbn [mbind comp_bind].
  - split; [discriminate | intros (_ & indices & H & _); discriminate H].
  - destruct indices as [|x l].
    + split; [discriminate|]. intros (_ & indices & H & Hbad).
      inversion H; subst. discriminate Hbad.
    + destruct (copyPages_cases doc (x :: l)) as [[Hall (copied & ->)] | [Hall ->]];
        cbn [mbind comp_bind].
      * split; [discriminate|]. intros (_ & indices & H & Hbad).
        inversion H; subst. congruence.
      * split; [|reflexivity]. intros _. split; [reflexivity|].
        exists (x :: l). split; [reflexivity | exact Hall].
  - congruence.
  - split; [discriminate | intros (_ & indices & H & _); discriminate H].
Qed.

End IndexFacts.

Section OutcomeFacts.

Context {Page : Type}.
Variable load : list Byte.byte -> option (list Page).
Variable save : list Page -> list Byte.byte.
Variable execute : string -> print_job -> ipp_result.

Lemma successful_iff statusCode :
  successful statusCode = true
  <-> statusCode = "successful-ok"
      \/ statusCode = "successful-ok-ignored-or-substituted-attributes".
Proof.
  unfold successful. rewrite orb_true_iff, !String.eqb_eq. reflexivity.
Qed.

(** The three ways in which the handler ends when it ends. *)
Lemma handle_cases fuel req o :
  handle load save execute fuel req = Some o ->
  (o = {| submitted := None; reply := MissingFileOrPrinterUrl |}
   /\ (file req = None \/ truthy (printerUrl req) = false))
  \/ (exists f,
        file req = Some f /\ truthy (printerUrl req) = true
        /\ prepare load save fuel f (duplex req) (pages req) = Thrown
        /\ o = {| submitted := None; reply := InternalServerError |})
  \/ (exists f fileBuffer job,
        file req = Some f /\ truthy (printerUrl req) = true
        /\ prepare load save fuel f (duplex req) (pages req) = Done fileBuffer
        /\ data job = fileBuffer
        /\ o = {| submitted := Some job;
                  reply := respond (execute (default "" (printerUrl req)) job) |}).
Proof.
  unfold handle. destruct (file req) as [f|]; [|intros [= <-]; left; split; [reflexivity | left; reflexivity]].
  destruct (truthy (printerUrl req)); [|intros [= <-]; left; split; [reflexivity | right; reflexivity]].
  destruct (prepare _ _ _ _ _ _) as [fileBuffer | |] eqn:Hp; [| | discriminate].
  - intros [= <-]. right. right. eexists f, fileBuffer, _.
    split; [reflexivity|]. split; [reflexivity|]. split; [exact Hp|].
    split; [|reflexivity]. reflexivity.
  - intros [= <-]. right. left. exists f.
    split; [reflexivity|]. split; [reflexivity|]. split; [exact Hp | reflexivity].
Qed.

Lemma respond_not_local result :
  respond result <> MissingFileOrPrinterUrl /\ respond result <> InternalServerError.
Proof.
  destruct result as [d | st jid | st]; cbn; [split; discriminate | |];
    destruct (successful st); split; discriminate.
Qed.

End OutcomeFacts.

(** X5: the response [Missing file or printerUrl] (400) is sent, and
    nothing is submitted to the printer, when the file is missing or the
    printer URL is missing or empty, whatever the other fields; and it is
    sent in no other case. *)
Theorem missing_input_is_refused :
  forall (Page : Type) load save execute (fuel : nat) (req : request),
    (file req = None \/ truthy (printerUrl req) = false ->
     @handle Page load save execute fuel req
     = Some {| submitted := None; reply := MissingFileOrPrinterUrl |})
    /\ (forall o : outcome,
          @handle Page load save execute fuel req = Some o ->
          reply o = MissingFileOrPrinterUrl ->
          file req = None \/ truthy (printerUrl req) = false).
Proof.
  intros Page load save execute fuel req. split.
  - intros [H | H]; unfold handle.
    + rewrite H. reflexivity.
    + destruct (file req); [rewrite H|]; reflexivity.
  - intros o Ho Hr.
    destruct (handle_cases load save execute fuel req o Ho)
      as [[_ H] | [(f & _ & _ & _ & ->) | (f & b & job & _ & _ & _ & _ & ->)]];
      [exact H | discriminate Hr |].
    cbn in Hr. destruct (respond_not_local (execute (default "" (printerUrl req)) job)).
    contradiction.
Qed.

Lemma missing_input_is_refused_witness :
  handle Demo.load Demo.save Demo.execute 0
    {| file := Some (Demo.pdf 3); printerUrl := Some "";
       duplex := Some "odd"; pages := Some "1-Infinity"; grayscale := None |}
  = Some {| submitted := None; reply := MissingFileOrPrinterUrl |}.
Proof.
  apply (proj1 (missing_input_is_refused nat Demo.load Demo.save Demo.execute 0 _)).
  right. reflexivity.
Defined.

(** X6: the response to a request follows the answer of the printer to
    the submitted job.  It is the success with the job id exactly when the
    printer answers [successful-ok] or
    [successful-ok-ignored-or-substituted-attributes] in a response that
    has its group of job attributes; it is [Printer reported error] with
    the status exactly when the printer answers another status; it is
    [Printer Connection Failed] with the details exactly when the call to
    the printer fails; and no response is sent, the callback throwing,
    exactly when the printer answers one of the two successful statuses in
    a response without the group of job attributes. *)
Theorem reply_follows_printer_answer :
  forall (Page : Type) load save execute (fuel : nat) (req : request)
         (o : outcome),
    @handle Page load save execute fuel req = Some o ->
    (forall jobId : option Z,
        reply o = PrintSuccess jobId
        <-> exists job statusCode,
              submitted o = Some job
              /\ execute (default "" (printerUrl req)) job
                 = ipp_response statusCode jobId
              /\ (statusCode = "successful-ok"
                  \/ statusCode = "successful-ok-ignored-or-substituted-attributes"))
    /\ (forall statusCode : string,
          reply o = PrinterReportedError statusCode
          <-> exists job,
                submitted o = Some job
                /\ ((exists jobId,
                       execute (default "" (printerUrl req)) job
                       = ipp_response statusCode jobId)
                    \/ execute (default "" (printerUrl req)) job
                       = ipp_response_without_job_attributes statusCode)
                /\ statusCode <> "successful-ok"
                /\ statusCode <> "successful-ok-ignored-or-substituted-attributes")
    /\ (forall details : string,
          reply o = PrinterConnectionFailed details
          <-> exists job,
                submitted o = Some job
                /\ execute (default "" (printerUrl req)) job = ipp_err details)
    /\ (reply o = NoResponse
        <-> exists job statusCode,
              submitted o = Some job
              /\ execute (default "" (printerUrl req)) job
                 = ipp_response_without_job_attributes statusCode
              /\ (statusCode = "successful-ok"
                  \/ statusCode = "successful-ok-ignored-or-substituted-attributes")).
Proof.
  intros Page load save execute fuel req o Ho.
  destruct (handle_cases load save execute fuel req o Ho)
    as [[-> _] | [(f & _ & _ & _ & ->) | (f & b & job & _ & _ & _ & _ & ->)]].
  - repeat split; try discriminate; intros H; decompose [ex and] H; cbn in *; congruence.
  - repeat split; try discriminate; intros H; decompose [ex and] H; cbn in *; congruence.
  - cbn [submitted reply].
    assert (Hns : forall st, successful st = false ->
                  st <> "successful-ok"
                  /\ st <> "successful-ok-ignored-or-substituted-attributes")
      by (intros st Hs; split; intros ->; discriminate Hs).
    destruct (execute (default "" (printerUrl req)) job) as [d | st jid | st] eqn:He;
      cbn [respond]; [| destruct (successful st) eqn:Hs | destruct (successful st) eqn:Hs];
      try (apply successful_iff in Hs); try (apply Hns in Hs).
    + split; [|split; [|split]].
      * intros jobId. split; [discriminate|]. intros (j & s & [= <-] & H & _). congruence.
      * intros s. split; [discriminate|].
        intros (j & [= <-] & [[j' H] | H] & _); congruence.
      * intros d'. split.
        -- intros [= <-]. exists job. split; [reflexivity | exact He].
        -- intros (j & [= <-] & H). congruence.
      * split; [discriminate|]. intros (j & s & [= <-] & H & _). congruence.
    + split; [|split; [|split]].
      * intros jobId. split.
        -- intros [= <-]. exists job, st. split; [reflexivity|]. split; [exact He | exact Hs].
        -- intros (j & s & [= <-] & H & _). congruence.
      * intros s. split; [discriminate|].
        intros (j & [= <-] & [[j' H] | H] & H1 & H2); [|congruence].
        rewrite He in H. inversion H; subst. destruct Hs; contradiction.
      * intros d. split; [discriminate|]. intros (j & [= <-] & H). congruence.
      * split; [discriminate|]. intros (j & s & [= <-] & H & _). congruence.
    + split; [|split; [|split]].
      * intros jobId. split; [discriminate|].
        intros (j & s & [= <-] & H & Hok). rewrite He in H. inversion H; subst.
        destruct Hs, Hok; contradiction.
      * intros s. split.
        -- intros [= <-]. exists job. split; [reflexivity|].
           split; [left; exists jid; exact He | exact Hs].
        -- intros (j & [= <-] & [[j' H] | H] & _); congruence.
      * intros d. split; [discriminate|]. intros (j & [= <-] & H). congruence.
      * split; [discriminate|]. intros (j & s & [= <-] & H & _). congruence.
    + split; [|split; [|split]].
      * intros jobId. split; [discriminate|]. intros (j & s & [= <-] & H & _). congruence.
      * intros s. split; [discriminate|].
        intros (j & [= <-] & [[j' H] | H] & H1 & H2); [congruence|].
        rewrite He in H. inversion H; subst. destruct Hs; contradiction.
      * intros d. split; [discriminate|]. intros (j & [= <-] & H). congruence.
      * split; [intros _|reflexivity]. exists job, st.
        split; [reflexivity|]. split; [exact He | exact Hs].
    + split; [|split; [|split]].
      * intros jobId. split; [discriminate|]. intros (j & s & [= <-] & H & _). congruence.
      * intros s. split.
        -- intros [= <-]. exists job. split; [reflexivity|].
           split; [right; exact He | exact Hs].
        -- intros (j & [= <-] & [[j' H] | H] & _); congruence.
      * intros d. split; [discriminate|]. intros (j & [= <-] & H). congruence.
      * split; [discriminate|].
        intros (j & s & [= <-] & H & Hok). rewrite He in H. inversion H; subst.
        destruct Hs, Hok; contradiction.
Qed.

(** A successful answer without the group of job attributes: the job is
    sent and no response follows. *)
Lemma reply_follows_printer_answer_witness :
  exists o : outcome,
    handle Demo.load Demo.save
      (fun _ _ => ipp_response_without_job_attributes "successful-ok") 0
      (Demo.print Demo.text None None) = Some o
    /\ (data <$> submitted o) = Some [Byte.x68; Byte.x69]
    /\ reply o = NoResponse.
Proof.
  eexists. split; [reflexivity|]. split; [reflexivity|].
  apply (proj2 (proj2 (proj2
           (reply_follows_printer_answer nat Demo.load Demo.save
              (fun _ _ => ipp_response_without_job_attributes "successful-ok") 0
              (Demo.print Demo.text None None) _ eq_refl)))).
  eexists _, "successful-ok". split; [reflexivity|].
  split; [reflexivity | left; reflexivity].
Defined.

Section PrepareFacts.

Context {Page : Type}.
Variable load : list Byte.byte -> option (list Page).
Variable save : list Page -> list Byte.byte.

Lemma splitDuplex_not_thrown duplexType (doc : list Page * bool) :
  exists doc', splitDuplex duplexType doc = Done doc'.
Proof.
  unfold splitDuplex. destruct (_ || _); [|eexists; reflexivity].
  rewrite splitLoop_pick. eexists. reflexivity.
Qed.

Lemma prepare_thrown_iff fuel f duplexType pageRange :
  prepare load save fuel f duplexType pageRange = Thrown
  <-> mimetype f = "application/pdf"
      /\ (load (content f) = None
          \/ exists doc, load (content f) = Some doc
                         /\ selectPages fuel pageRange doc = Thrown).
Proof.
  unfold prepare. destruct (String.eqb_spec (mimetype f) "application/pdf") as [Hm | Hm];
    [|split; [discriminate | intros [H _]; contradiction]].
  destruct (load (content f)) as [doc|].
  - destruct (selectPages fuel pageRange doc) as [sel | |] eqn:Hs; cbn [mbind comp_bind].
    + destruct (splitDuplex_not_thrown duplexType sel) as ([d m] & ->). cbn [mbind comp_bind].
      split; [discriminate|]. intros (_ & [H | (doc' & H' & H)]); congruence.
    + split; [|reflexivity]. intros _. split; [exact Hm|]. right. exists doc. split; [reflexivity | exact Hs].
    + split; [discriminate|]. intros (_ & [H | (doc' & H' & H)]); congruence.
  - split; [|reflexivity]. intros _. split; [exact Hm | left; reflexivity].
Qed.

Lemma keepsPage_parity d1 d2 i :
  is_string d1 "odd" = is_string d2 "odd" ->
  is_string d1 "even" = is_string d2 "even" ->
  keepsPage d1 i = keepsPage d2 i.
Proof. intros H1 H2. unfold keepsPage. rewrite H1, H2. reflexivity. Qed.

Lemma prepare_parity fuel f d1 d2 pageRange :
  is_string d1 "odd" = is_string d2 "odd" ->
  is_string d1 "even" = is_string d2 "even" ->
  prepare load save fuel f d1 pageRange = prepare load save fuel f d2 pageRange.
Proof.
  intros H1 H2. unfold prepare. destruct (String.eqb _ _); [|reflexivity].
  destruct (load (content f)) as [doc|]; [|reflexivity].
  destruct (selectPages fuel pageRange doc) as [sel | |]; cbn [mbind comp_bind]; try reflexivity.
  unfold splitDuplex. rewrite H1, H2.
  destruct (_ || _); [|reflexivity].
  rewrite !splitLoop_pick.
  rewrite (pick_ext (keepsPage d1) (keepsPage d2)) by (intros j; apply keepsPage_parity; assumption).
  reflexivity.
Qed.

End PrepareFacts.

(** X7: a PDF that does not load, and a PDF whose page range resolves to
    an index at which the document has no page (a fractional one, as for
    [1.5]), are answered with [Internal Server Error], and nothing is
    submitted to the printer: such a page is not skipped as a page out of
    bounds is. *)
Theorem unusable_pdf_is_internal_error :
  forall (Page : Type) load save execute (fuel : nat) (req : request)
         (f : upload),
    file req = Some f ->
    truthy (printerUrl req) = true ->
    mimetype f = "application/pdf" ->
    load (content f) = None
    \/ (exists (doc : list Page) (indices : list number),
          load (content f) = Some doc
          /\ truthy (pages req) = true
          /\ getPageIndices fuel (default "" (pages req))
               (ofZ (Z.of_nat (length doc))) = Done (Array indices)
          /\ forallb (finds_page doc) indices = false) ->
    @handle Page load save execute fuel req
    = Some {| submitted := None; reply := InternalServerError |}.
Proof.
  intros Page load save execute fuel req f Hf Hu Hm Hwhy.
  assert (Hth : prepare load save fuel f (duplex req) (pages req) = Thrown).
  { apply prepare_thrown_iff. split; [exact Hm|].
    destruct Hwhy as [Hl | (doc & indices & Hl & Ht & Hi & Hbad)]; [left; exact Hl|].
    right. exists doc. split; [exact Hl|]. apply selectPages_thrown_iff.
    split; [exact Ht|]. exists indices. split; assumption. }
  unfold handle. rewrite Hf, Hu, Hth. reflexivity.
Qed.

(** Three pages and the range ["1.5"]. *)
Lemma unusable_pdf_is_internal_error_witness :
  handle Demo.load Demo.save Demo.execute 0
    (Demo.print (Demo.pdf 3) (Some "1.5") None)
  = Some {| submitted := None; reply := InternalServerError |}.
Proof.
  apply (unusable_pdf_is_internal_error nat Demo.load Demo.save Demo.execute 0
           (Demo.print (Demo.pdf 3) (Some "1.5") None) (Demo.pdf 3)).
  - reflexivity.
  - reflexivity.
  - reflexivity.
  - right. exists (seq 1 3), [div (ofZ 1) (ofZ 2)].
    split; [reflexivity|]. split; [reflexivity|].
    split; [vm_compute; reflexivity | reflexivity].
Defined.

(** X8: the bytes sent to the printer depend only on the file, on the page
    range, on the presence of a printer URL and on whether the duplex
    directive is [odd] or [even].  The grayscale flag, the directive
    [auto], the address of the printer and its answers never change
    them: the document itself is not converted. *)
Theorem payload_ignores_attribute_settings :
  forall (Page : Type) load save execute1 execute2 (fuel : nat)
         (req1 req2 : request),
    file req1 = file req2 ->
    pages req1 = pages req2 ->
    truthy (printerUrl req1) = truthy (printerUrl req2) ->
    is_string (duplex req1) "odd" = is_string (duplex req2) "odd" ->
    is_string (duplex req1) "even" = is_string (duplex req2) "even" ->
    @payload Page load save execute1 fuel req1
    = @payload Page load save execute2 fuel req2.
Proof.
  intros Page load save execute1 execute2 fuel req1 req2 Hf Hp Hu Ho He.
  unfold payload, handle. rewrite <- Hf, <- Hp, <- Hu.
  destruct (file req1) as [f|]; [|reflexivity].
  destruct (truthy (printerUrl req1)); [|reflexivity].
  rewrite (prepare_parity load save fuel f (duplex req1) (duplex req2) (pages req1) Ho He).
  destruct (prepare _ _ _ _ _ _); reflexivity.
Qed.

Lemma payload_ignores_attribute_settings_witness :
  payload Demo.load Demo.save Demo.execute 4
    {| file := Some (Demo.pdf 5); printerUrl := Some "ipp://a"; duplex := Some "auto";
       pages := Some "2-4"; grayscale := Some "true" |}
  = payload Demo.load Demo.save Demo.execute 4
      {| file := Some (Demo.pdf 5); printerUrl := Some "ipp://b"; duplex := None;
         pages := Some "2-4"; grayscale := None |}.
Proof.
  apply (payload_ignores_attribute_settings nat Demo.load Demo.save
           Demo.execute Demo.execute 4); reflexivity.
Defined.

Section PartitionFacts.

Context {Page : Type}.
Implicit Types (doc : list Page).

(** The pages at the positions of one parity and those at the positions
    of the other, taken in turn, are the document. *)
Lemma alternate_pick (n : nat) : forall doc i,
  (length doc <= n)%nat ->
  (Nat.even i = true ->
   alternate (pick Nat.even i doc) (pick Nat.odd i doc) = doc)
  /\ (Nat.even i = false ->
      alternate (pick Nat.odd i doc) (pick Nat.even i doc) = doc).
Proof.
  induction n as [|n IH]; intros doc i Hlen.
  - destruct doc; [split; reflexivity | cbn in Hlen; lia].
  - destruct doc as [|x [|y doc]].
    + split; reflexivity.
    + cbn [pick]. rewrite <- (Nat.negb_even i).
      destruct (Nat.even i); split; intros H; try discriminate H; reflexivity.
    + cbn [length] in Hlen. destruct (IH doc (S (S i)) ltac:(lia)) as [IHe IHo].
      cbn [pick]. rewrite !Nat.even_succ, !Nat.odd_succ, <- !(Nat.negb_even i).
      cbn [Nat.even Nat.odd] in IHe, IHo |- *.
      destruct (Nat.even i) eqn:Hi; cbn [negb]; split; intros H; try discriminate H.
      * cbn [alternate]. rewrite (IHe eq_refl). reflexivity.
      * cbn [alternate]. rewrite (IHo eq_refl). reflexivity.
Qed.

Lemma pick_parity_lengths doc : forall i,
  (Nat.even i = true ->
   (length (pick Nat.odd i doc) <= length (pick Nat.even i doc)
    <= length (pick Nat.odd i doc) + 1)%nat)
  /\ (Nat.even i = false ->
      (length (pick Nat.even i doc) <= length (pick Nat.odd i doc)
       <= length (pick Nat.even i doc) + 1)%nat).
Proof.
  induction doc as [|x doc IH]; intros i; [split; intros _; cbn; lia|].
  destruct (IH (S i)) as [IHe IHo]. rewrite Nat.even_succ, <- Nat.negb_even in IHe, IHo.
  cbn [pick]. rewrite <- (Nat.negb_even i).
  destruct (Nat.even i); cbn [negb length] in *; split; intros H; try discriminate H.
  - specialize (IHo eq_refl). lia.
  - specialize (IHe eq_refl). lia.
Qed.

Lemma pick_lengths_sum doc : forall i,
  (length (pick Nat.even i doc) + length (pick Nat.odd i doc) = length doc)%nat.
Proof.
  induction doc as [|x doc IH]; intros i; [reflexivity|].
  cbn [pick]. rewrite <- (Nat.negb_even i). specialize (IH (S i)).
  destruct (Nat.even i); cbn [negb length]; lia.
Qed.

End PartitionFacts.

(** X9: the two phases of manual duplex split the selected pages of a PDF
    between them.  The payload of the [odd] request and the payload of the
    [even] request are the saved documents of two page lists that,
    alternated, give back the selection; no page is lost or sent twice,
    and the odd phase has as many pages as the even phase or one more.
    (For a selection of one page the even list is empty, and what is sent
    is what the library saves for a document without pages.) *)
Theorem manual_duplex_phases_partition :
  forall (Page : Type) load save execute (fuel : nat) (req : request)
         (f : upload) (doc selection : list Page) (modified : bool),
    file req = Some f ->
    mimetype f = "application/pdf" ->
    truthy (printerUrl req) = true ->
    load (content f) = Some doc ->
    selectPages fuel (pages req) doc = Done (selection, modified) ->
    exists odds evens : list Page,
      @payload Page load save execute fuel
        (with_directives req (pages req) (Some "odd")) = Some (Some (save odds))
      /\ @payload Page load save execute fuel
           (with_directives req (pages req) (Some "even")) = Some (Some (save evens))
      /\ alternate odds evens = selection
      /\ (length odds + length evens = length selection)%nat
      /\ (length evens <= length odds <= length evens + 1)%nat.
Proof.
  intros Page load save execute fuel req f doc selection modified Hf Hm Hu Hl Hsel.
  exists (pick Nat.even 0 selection), (pick Nat.odd 0 selection).
  assert (Hpay : forall d keep,
             d = Some "odd" \/ d = Some "even" ->
             (forall j, keepsPage d j = keep j) ->
             @payload Page load save execute fuel (with_directives req (pages req) d)
             = Some (Some (save (pick keep 0 selection)))).
  { intros d keep Hd Hkeep. unfold payload, handle, prepare.
    cbn [with_directives file printerUrl duplex pages grayscale].
    rewrite Hf, Hu, Hm. cbn [String.eqb Ascii.eqb Bool.eqb].
    rewrite Hl, Hsel. cbn [mbind comp_bind]. unfold splitDuplex.
    assert (is_string d "odd" || is_string d "even" = true) as ->
      by (destruct Hd as [-> | ->]; reflexivity).
    cbn [fst]. rewrite splitLoop_pick, (pick_ext _ keep) by exact Hkeep.
    reflexivity. }
  split; [apply Hpay; [left; reflexivity | apply keepsPage_odd]|].
  split; [apply Hpay; [right; reflexivity | apply keepsPage_even]|].
  split; [apply (alternate_pick (length selection) selection 0%nat); reflexivity|].
  split; [apply pick_lengths_sum|].
  apply (pick_parity_lengths selection 0%nat). reflexivity.
Qed.

(** Five pages and the range ["2-5"]: the selection is the pages 2 to 5. *)
Lemma manual_duplex_phases_partition_witness :
  exists odds evens : list nat,
    payload Demo.load Demo.save Demo.execute 5
      (with_directives (Demo.print (Demo.pdf 5) (Some "2-5") None)
         (Some "2-5") (Some "odd"))
    = Some (Some (Demo.save odds))
    /\ payload Demo.load Demo.save Demo.execute 5
         (with_directives (Demo.print (Demo.pdf 5) (Some "2-5") None)
            (Some "2-5") (Some "even"))
       = Some (Some (Demo.save evens))
    /\ alternate odds evens = [2; 3; 4; 5]%nat
    /\ (length odds + length evens = 4)%nat
    /\ (length evens <= length odds <= length evens + 1)%nat.
Proof.
  apply (manual_duplex_phases_partition nat Demo.load Demo.save Demo.execute 5
           (Demo.print (Demo.pdf 5) (Some "2-5") None) (Demo.pdf 5)
           (seq 1 5) [2; 3; 4; 5]%nat true);
    reflexivity.
Defined.

(** X10: on a PDF, a non-empty well-formed page range selects the pages
    that it denotes, each once and in ascending order of page number: the
    document after the page selection is made of the pages at the indices
    [p - 1] for the denoted pages [p] within the document, and it is
    marked as modified; when the range denotes no page of the document,
    the document is kept whole and not marked. *)
Theorem well_formed_range_selects_ascending_pages :
  forall (Page : Type) (doc : list Page) (ts : list token) (fuel : nat),
    forallb token_ok ts = true ->
    expr_text ts <> [] ->
    Z.of_nat (length doc) <= MAX_SAFE_INTEGER ->
    (expr_steps ts <= fuel)%nat ->
    exists l : list Z,
      StronglySorted Z.lt l
      /\ (forall z : Z,
            In z l <-> 0 <= z < Z.of_nat (length doc)
                       /\ Exists (fun t => denotes t (z + 1)) ts)
      /\ length (pagesAt doc l) = length l
      /\ selectPages fuel (Some (expr_string ts)) doc
         = Done (match l with
                 | [] => (doc, false)
                 | _ :: _ => (pagesAt doc l, true)
                 end).
Proof.
  intros Page doc ts fuel Hts Hne Hlen Hf.
  assert (Hn : 0 <= Z.of_nat (length doc) < two53)
    by (unfold MAX_SAFE_INTEGER in Hlen; unfold two53; lia).
  destruct (Zresolve_spec (Z.of_nat (length doc)) ts) as [Hs Hin].
  remember (Zresolve (Z.of_nat (length doc)) ts) as l eqn:El.
  assert (Hb : Forall (fun z => 0 <= z < Z.of_nat (length doc)) l).
  { apply List.Forall_forall. intros z Hz. apply Hin in Hz. tauto. }
  assert (Hsmall : small l).
  { apply List.Forall_forall. intros z Hz.
    rewrite List.Forall_forall in Hb. specialize (Hb z Hz). cbv beta in Hb. lia. }
  destruct (copyPages_ofZ doc l Hb Hsmall) as [Hcopy Hlenl].
  exists l. split; [exact Hs|]. split; [exact Hin|]. split; [exact Hlenl|].
  unfold selectPages.
  assert (truthy (Some (expr_string ts)) = true) as ->.
  { cbn. unfold expr_string. destruct (expr_text ts); [congruence | reflexivity]. }
  change (default "" (Some (expr_string ts))) with (expr_string ts).
  rewrite getPageIndices_Zresolve by assumption. rewrite <- El. cbn [mbind comp_bind].
  destruct l as [|z l']; [reflexivity|].
  cbn [map]. cbn [map] in Hcopy.
  rewrite Hcopy. cbn [mbind comp_bind]. rewrite addPage_all. reflexivity.
Qed.

Lemma well_formed_range_selects_ascending_pages_witness :
  exists l : list Z,
    StronglySorted Z.lt l
    /\ (forall z : Z,
          In z l <-> 0 <= z < 10 /\ Exists (fun t => denotes t (z + 1)) Demo.expr)
    /\ length (pagesAt (seq 1 10) l) = length l
    /\ selectPages 4 (Some "1-3, 5") (seq 1 10)
       = Done (match l with
               | [] => (seq 1 10, false)
               | _ :: _ => (pagesAt (seq 1 10) l, true)
               end).
Proof.
  apply (well_formed_range_selects_ascending_pages nat (seq 1 10) Demo.expr 4).
  - reflexivity.
  - discriminate.
  - unfold MAX_SAFE_INTEGER. cbn. lia.
  - vm_compute. lia.
Defined.

(** X11: the settings of the form reach the printer as job attributes.
    For the request that the client posts, the job submitted by the server
    has the attribute [print-color-mode = monochrome] exactly when the
    grayscale option is on, the attribute [sides = two-sided-long-edge]
    exactly when the duplex mode is [auto], and no other attribute:
    manual duplex adds none. *)
Theorem ui_settings_become_job_attributes :
  forall (Page : Type) load save execute (fuel : nat) (s : Client.State)
         (f : upload) (stage : Client.Stage) (o : outcome) (job : print_job),
    @handle Page load save execute fuel (Client.formData s f stage) = Some o ->
    submitted o = Some job ->
    job_attributes job
    = (if Client.grayscale_ s
       then {[ "print-color-mode" := "monochrome" ]} else ∅)
      ∪ (match Client.duplexMode s with
         | Client.mode_auto => {[ "sides" := "two-sided-long-edge" ]}
         | _ => ∅
         end).
Proof.
  intros Page load save execute fuel s f stage o job Ho Hj.
  pose proof (handle_job_attributes load save execute fuel (Client.formData s f stage)) as H.
  rewrite Ho in H. destruct o as [sub r]. cbn in Hj. subst sub. rewrite H.
  unfold jobAttributes. cbn [Client.formData grayscale duplex].
  destruct (Client.grayscale_ s), (Client.duplexMode s), stage; cbn;
    apply map_eq; intros k; rewrite lookup_union;
    destruct (decide (k = "sides")) as [-> | H1];
    try (destruct (decide (k = "print-color-mode")) as [-> | H2]);
    simplify_map_eq; reflexivity.
Qed.

Lemma ui_settings_become_job_attributes_witness :
  exists job : print_job,
    submitted <$> handle Demo.load Demo.save Demo.execute 0
      (Client.formData (Client.demo (Some Demo.text) "" true Client.mode_manual)
         Demo.text Client.stage_odd) = Some (Some job)
    /\ job_attributes job = {[ "print-color-mode" := "monochrome" ]} ∪ ∅.
Proof.
  eexists. split; [reflexivity|].
  eapply (ui_settings_become_job_attributes nat Demo.load Demo.save Demo.execute 0
            (Client.demo (Some Demo.text) "" true Client.mode_manual)
            Demo.text Client.stage_odd);
    reflexivity.
Defined.

Section ParityJob.

Context {Page : Type}.
Variable load : list Byte.byte -> option (list Page).
Variable save : list Page -> list Byte.byte.
Variable execute : string -> print_job -> ipp_result.

(** The job of a phase of manual duplex. *)
Lemma handle_parity fuel req f (doc selection : list Page) modified keep :
  file req = Some f ->
  mimetype f = "application/pdf" ->
  truthy (printerUrl req) = true ->
  load (content f) = Some doc ->
  selectPages fuel (pages req) doc = Done (selection, modified) ->
  duplex req = Some "odd" \/ duplex req = Some "even" ->
  (forall j, keepsPage (duplex req) j = keep j) ->
  let job := {|
    requesting_user_name := "PrintLe-User";
    job_name := originalname f;
    document_format := "application/pdf";
    job_attributes :=
      jobAttributes (is_string (grayscale req) "true") (duplex req);
    data := save (pick keep 0 selection) |} in
  handle load save execute fuel req
  = Some {| submitted := Some job;
            reply := respond (execute (default "" (printerUrl req)) job) |}.
Proof.
  intros Hf Hm Hu Hl Hsel Hd Hkeep job.
  assert (Hprep : prepare load save fuel f (duplex req) (pages req)
                  = Done (save (pick keep 0 selection))).
  { unfold prepare. rewrite Hm. cbn [String.eqb Ascii.eqb Bool.eqb].
    rewrite Hl, Hsel. cbn [mbind comp_bind]. unfold splitDuplex.
    assert (is_string (duplex req) "odd" || is_string (duplex req) "even" = true) as ->
      by (destruct Hd as [-> | ->]; reflexivity).
    cbn [fst]. rewrite splitLoop_pick, (pick_ext _ keep) by exact Hkeep. reflexivity. }
  pose proof (handle_prepared load save execute fuel req f _ Hf Hu Hprep) as H.
  cbv zeta in H. rewrite Hm in H. exact H.
Qed.

End ParityJob.

(** X12: manual duplex from the client to the printer.  With a PDF that
    loads, a usable server URL, a printer address and a printer that
    accepts the jobs, [startPrintProcess] sends the pages at the even
    indices of the selection (the odd pages), shows the flip prompt and
    records nothing yet; [handlePrint('even')] from that state then sends
    the remaining pages, hides the prompt, reports the success and adds
    one entry to the history.  The two payloads alternated are the
    selection. *)
Theorem manual_duplex_two_phase_flow :
  forall (Page : Type) load save execute (fuel : nat)
         (generateId : string) (formatBytes : nat -> string) (now : string)
         (s : Client.State) (f : upload) (doc selection : list Page)
         (modified : bool),
    Client.file_ s = Some f ->
    mimetype f = "application/pdf" ->
    load (content f) = Some doc ->
    Client.duplexMode s = Client.mode_manual ->
    Client.bad_server_url (Client.serverUrl (Client.settings s)) = false ->
    String.eqb (Client.printerAddress (Client.settings s)) "" = false ->
    selectPages fuel (pages (Client.formData s f Client.stage_odd)) doc
      = Done (selection, modified) ->
    (forall url job, exists statusCode jobId,
        execute url job = ipp_response statusCode jobId
        /\ successful statusCode = true) ->
    exists (s1 s2 : Client.State),
      Client.startPrintProcess
        (Client.server_fetch load save execute fuel) generateId formatBytes now s
        = Some s1
      /\ Client.showFlipPrompt s1 = true
      /\ Client.uploadSuccess s1 = Client.uploadSuccess s
      /\ Client.history s1 = Client.history s
      /\ Client.errorMessage s1 = None
      /\ @payload Page load save execute fuel
           (Client.formData s f Client.stage_odd)
         = Some (Some (save (pick Nat.even 0 selection)))
      /\ Client.handlePrint
           (Client.server_fetch load save execute fuel) generateId formatBytes now
           s1 Client.stage_even
         = Some s2
      /\ Client.showFlipPrompt s2 = false
      /\ Client.uploadSuccess s2 = true
      /\ length (Client.history s2) = S (length (Client.history s))
      /\ Client.errorMessage s2 = None
      /\ @payload Page load save execute fuel
           (Client.formData s1 f Client.stage_even)
         = Some (Some (save (pick Nat.odd 0 selection)))
      /\ alternate (pick Nat.even 0 selection) (pick Nat.odd 0 selection)
         = selection.
Proof.
  intros Page load save execute fuel generateId formatBytes now s f doc
    selection modified Hf Hm Hl Hd Hurl Haddr Hsel Hok.
  assert (Htruthy : forall st, truthy (printerUrl (Client.formData s f st)) = true).
  { intros st. cbn. rewrite Haddr. reflexivity. }
  assert (Hodd : handle load save execute fuel (Client.formData s f Client.stage_odd) = _)
    by (apply (handle_parity load save execute fuel
                 (Client.formData s f Client.stage_odd) f doc selection modified Nat.even
                 eq_refl Hm (Htruthy _) Hl Hsel);
        [cbn; rewrite Hd; left; reflexivity
        | cbn [Client.formData duplex]; rewrite Hd; apply keepsPage_odd]).
  assert (Heven : handle load save execute fuel (Client.formData s f Client.stage_even) = _)
    by (apply (handle_parity load save execute fuel
                 (Client.formData s f Client.stage_even) f doc selection modified Nat.odd
                 eq_refl Hm (Htruthy _) Hl Hsel);
        [cbn; rewrite Hd; right; reflexivity
        | cbn [Client.formData duplex]; rewrite Hd; apply keepsPage_even]).
  cbv zeta in Hodd, Heven.
  set (job1 := {| requesting_user_name := _; data := save (pick Nat.even 0 selection) |}) in Hodd.
  set (job2 := {| requesting_user_name := _; data := save (pick Nat.odd 0 selection) |}) in Heven.
  destruct (Hok (default "" (printerUrl (Client.formData s f Client.stage_odd))) job1)
    as (st1 & jid1 & He1 & Hs1).
  destruct (Hok (default "" (printerUrl (Client.formData s f Client.stage_even))) job2)
    as (st2 & jid2 & He2 & Hs2).
  rewrite He1 in Hodd. rewrite He2 in Heven. cbn [respond] in Hodd, Heven.
  rewrite Hs1 in Hodd. rewrite Hs2 in Heven.
  eexists _, _.
  split.
  { unfold Client.startPrintProcess, Client.handlePrint, Client.server_fetch.
    rewrite Hd, Hf, Hurl, Hodd. cbn [fmap option_fmap option_map reply Client.response_ok].
    reflexivity. }
  cbn [Client.showFlipPrompt Client.uploadSuccess Client.history Client.errorMessage
       Client.setShowFlipPrompt Client.setUploadStage Client.setIsUploading
       Client.setErrorMessage].
  split; [reflexivity|]. split; [reflexivity|]. split; [reflexivity|]. split; [reflexivity|].
  split; [unfold payload; rewrite Hodd; reflexivity|].
  split.
  { unfold Client.handlePrint, Client.server_fetch.
    cbn [Client.file_ Client.settings Client.duplexMode Client.setShowFlipPrompt
         Client.setUploadStage Client.setIsUploading Client.setErrorMessage].
    rewrite Hf, Hurl, Hd.
    change (Client.formData _ f Client.stage_even)
      with (Client.formData s f Client.stage_even).
    rewrite Heven. cbn [fmap option_fmap option_map reply Client.response_ok].
    reflexivity. }
  cbn [Client.showFlipPrompt Client.uploadSuccess Client.history Client.errorMessage
       Client.setShowFlipPrompt Client.setUploadStage Client.setIsUploading
       Client.setErrorMessage Client.setUploadSuccess Client.setHistory length].
  split; [reflexivity|]. split; [reflexivity|]. split; [reflexivity|]. split; [reflexivity|].
  split.
  { change (Client.formData _ f Client.stage_even)
      with (Client.formData s f Client.stage_even).
    unfold payload. rewrite Heven. reflexivity. }
  apply (alternate_pick (length selection) selection 0%nat); reflexivity.
Qed.

Lemma manual_duplex_two_phase_flow_witness :
  exists (s1 s2 : Client.State),
    Client.startPrintProcess
      (Client.server_fetch Demo.load Demo.save Demo.execute 0)
      "k3j9x0a1b" (fun _ => "3 Bytes") "11/3/2026"
      (Client.demo (Some (Demo.pdf 3)) "" false Client.mode_manual)
      = Some s1
    /\ Client.showFlipPrompt s1 = true
    /\ Client.uploadSuccess s1 = false
    /\ Client.history s1 = []
    /\ Client.errorMessage s1 = None
    /\ payload Demo.load Demo.save Demo.execute 0
         (Client.formData
            (Client.demo (Some (Demo.pdf 3)) "" false Client.mode_manual)
            (Demo.pdf 3) Client.stage_odd)
       = Some (Some (Demo.save [1; 3]%nat))
    /\ Client.handlePrint
         (Client.server_fetch Demo.load Demo.save Demo.execute 0)
         "k3j9x0a1b" (fun _ => "3 Bytes") "11/3/2026" s1 Client.stage_even
       = Some s2
    /\ Client.showFlipPrompt s2 = false
    /\ Client.uploadSuccess s2 = true
    /\ length (Client.history s2) = 1%nat
    /\ Client.errorMessage s2 = None
    /\ payload Demo.load Demo.save Demo.execute 0
         (Client.formData s1 (Demo.pdf 3) Client.stage_even)
       = Some (Some (Demo.save [2%nat]))
    /\ alternate [1; 3]%nat [2%nat] = [1; 2; 3]%nat.
Proof.
  apply (manual_duplex_two_phase_flow nat Demo.load Demo.save Demo.execute 0
           "k3j9x0a1b" (fun _ => "3 Bytes") "11/3/2026"
           (Client.demo (Some (Demo.pdf 3)) "" false Client.mode_manual)
           (Demo.pdf 3) [1; 2; 3]%nat [1; 2; 3]%nat false);
    try reflexivity.
  intros url job. exists "successful-ok", (Some 7). split; reflexivity.
Defined.

(** X13: after [handlePrint], the error message is empty exactly when
    the request was accepted: a file was chosen, the server URL passed the
    check, and the server answered with a success.  When it was not
    accepted, the history, the success flag and the flip prompt are left
    as they were; when it was, the upload indicators are cleared. *)
Theorem print_error_iff_not_accepted :
  forall (fetch : string -> request -> option Client.fetch_result)
         (generateId : string) (formatBytes : nat -> string) (now : string)
         (s : Client.State) (stage : Client.Stage) (s' : Client.State),
    Client.handlePrint fetch generateId formatBytes now s stage = Some s' ->
    let accepted :=
      exists f jobId,
        Client.file_ s = Some f
        /\ Client.bad_server_url (Client.serverUrl (Client.settings s)) = false
        /\ fetch (Client.serverUrl (Client.settings s) ++ "/api/print")%string
             (Client.formData s f stage)
           = Some (Client.http (PrintSuccess jobId)) in
    (Client.errorMessage s' = None <-> accepted)
    /\ (~ accepted ->
        Client.history s' = Client.history s
        /\ Client.uploadSuccess s' = Client.uploadSuccess s
        /\ Client.showFlipPrompt s' = Client.showFlipPrompt s)
    /\ (accepted ->
        Client.isUploading s' = false /\ Client.uploadStage s' = None).
Proof.
  intros fetch generateId formatBytes now s stage s' H accepted.
  unfold Client.handlePrint in H.
  destruct (Client.file_ s) as [f|] eqn:Hf.
  2:{ injection H as <-.
      assert (Hn : ~ accepted) by (intros (f & j & [=] & _)).
      split; [split; [discriminate | intros Ha; destruct (Hn Ha)]|].
      split; [intros _; repeat split | intros Ha; destruct (Hn Ha)]. }
  destruct (Client.bad_server_url _) eqn:Hb.
  { injection H as <-.
    assert (Hn : ~ accepted) by (intros (f' & j & _ & [=] & _)).
    split; [split; [discriminate | intros Ha; destruct (Hn Ha)]|].
    split; [intros _; repeat split | intros Ha; destruct (Hn Ha)]. }
  destruct (fetch _ _) as [[m | r]|] eqn:Hfetch; [| | discriminate].
  - injection H as <-.
    assert (Hn : ~ accepted).
    { intros (f' & j & [= <-] & _ & Hacc). rewrite Hfetch in Hacc. discriminate. }
    split; [split; [discriminate | intros Ha; destruct (Hn Ha)]|].
    split; [| intros Ha; destruct (Hn Ha)].
    intros _. destruct stage, (Client.duplexMode s); repeat split.
  - destruct r as [ | d | jid | st | | ]; cbn [Client.response_ok] in H.
    3:{ assert (Ha : accepted) by (exists f, jid; repeat split; assumption).
        split; [split; [intros _; exact Ha|]|].
        - intros _. destruct (Client.duplexMode s), stage; injection H as <-; reflexivity.
        - split; [intros Hn; destruct (Hn Ha)|].
          intros _. destruct (Client.duplexMode s), stage; injection H as <-;
            split; reflexivity. }
    all: injection H as <-;
      assert (Hn : ~ accepted)
        by (intros (f' & j & [= <-] & _ & Hacc); rewrite Hfetch in Hacc; discriminate);
      (split; [split; [discriminate | intros Ha; destruct (Hn Ha)]|]);
      (split; [| intros Ha; destruct (Hn Ha)]);
      intros _; destruct stage, (Client.duplexMode s); repeat split.
Qed.

Lemma print_error_iff_not_accepted_witness :
  exists s' : Client.State,
    Client.handlePrint
      (Client.server_fetch Demo.load Demo.save Demo.execute 0)
      "k3j9x0a1b" (fun _ => "2 Bytes") "11/3/2026"
      (Client.demo (Some Demo.text) "" false Client.mode_none)
      Client.stage_single = Some s'
    /\ let accepted :=
         exists f jobId,
           Some Demo.text = Some f
           /\ Client.bad_server_url "http://localhost:3001" = false
           /\ Client.server_fetch Demo.load Demo.save Demo.execute 0
                "http://localhost:3001/api/print"
                (Client.formData
                   (Client.demo (Some Demo.text) "" false Client.mode_none)
                   f Client.stage_single)
              = Some (Client.http (PrintSuccess jobId)) in
       (Client.errorMessage s' = None <-> accepted)
       /\ (~ accepted ->
           Client.history s' = []
           /\ Client.uploadSuccess s' = false
           /\ Client.showFlipPrompt s' = false)
       /\ (accepted ->
           Client.isUploading s' = false /\ Client.uploadStage s' = None).
Proof.
  eexists. split; [reflexivity|].
  eapply (print_error_iff_not_accepted
            (Client.server_fetch Demo.load Demo.save Demo.execute 0)
            "k3j9x0a1b" (fun _ => "2 Bytes") "11/3/2026"
            (Client.demo (Some Demo.text) "" false Client.mode_none)
            Client.stage_single).
  reflexivity.
Defined.

(** X14: choosing a file resets the print options.  After [handleChange]
    with a file, whatever the options were before, the request that the
    client posts makes the server submit the bytes of that file unchanged,
    under its name and with no job attribute (for a file that is not a
    PDF, or a PDF that loads); the error message and the success flag are
    cleared. *)
Theorem new_file_prints_unmodified :
  forall (Page : Type) load save execute (fuel : nat)
         (s : Client.State) (f : upload) (rest : list upload)
         (stage : Client.Stage),
    String.eqb (Client.printerAddress (Client.settings s)) "" = false ->
    mimetype f <> "application/pdf"
    \/ (exists doc : list Page, load (content f) = Some doc) ->
    let s' := Client.handleChange (f :: rest) s in
    Client.file_ s' = Some f
    /\ Client.errorMessage s' = None
    /\ Client.uploadSuccess s' = false
    /\ exists job,
         @handle Page load save execute fuel (Client.formData s' f stage)
         = Some {| submitted := Some job;
                   reply := respond
                     (execute (Client.printerAddress (Client.settings s)) job) |}
         /\ data job = content f
         /\ job_attributes job = ∅
         /\ job_name job = originalname f.
Proof.
  intros Page load save execute fuel s f rest stage Haddr Hload s'.
  split; [reflexivity|]. split; [reflexivity|]. split; [reflexivity|].
  assert (Hprep : prepare load save fuel f None None = Done (content f)).
  { unfold prepare.
    destruct (String.eqb (mimetype f) "application/pdf") eqn:Hm; [|reflexivity].
    destruct Hload as [Hn | [doc Hl]].
    - apply String.eqb_eq in Hm. destruct (Hn Hm).
    - rewrite Hl. reflexivity. }
  eexists. split.
  - apply (handle_prepared load save execute fuel
             (Client.formData s' f stage) f (content f)).
    + reflexivity.
    + cbn. rewrite Haddr. reflexivity.
    + exact Hprep.
  - repeat split.
Qed.

Lemma new_file_prints_unmodified_witness :
  let s' := Client.handleChange [Demo.pdf 2]
              (Client.demo (Some Demo.text) "1-" true Client.mode_manual) in
  Client.file_ s' = Some (Demo.pdf 2)
  /\ Client.errorMessage s' = None
  /\ Client.uploadSuccess s' = false
  /\ exists job,
       handle Demo.load Demo.save Demo.execute 0
         (Client.formData s' (Demo.pdf 2) Client.stage_single)
       = Some {| submitted := Some job;
                 reply := respond
                   (Demo.execute "ipp://192.168.1.50:631/printers/main" job) |}
       /\ data job = content (Demo.pdf 2)
       /\ job_attributes job = ∅
       /\ job_name job = "doc.pdf".
Proof.
  apply (new_file_prints_unmodified nat Demo.load Demo.save Demo.execute 0
           (Client.demo (Some Demo.text) "1-" true Client.mode_manual)
           (Demo.pdf 2) [] Client.stage_single).
  - reflexivity.
  - right. eexists. reflexivity.
Defined.

(** X15: the duplex button cycles through the three modes.  Three calls
    of [cycleDuplexMode] give back the state; the modes of the three
    states on the way are pairwise different; and nothing but the duplex
    mode changes on the way. *)
Theorem duplex_button_cycles_three_modes :
  forall s : Client.State,
    let s1 := Client.cycleDuplexMode s in
    let s2 := Client.cycleDuplexMode s1 in
    Client.cycleDuplexMode s2 = s
    /\ Client.duplexMode s <> Client.duplexMode s1
    /\ Client.duplexMode s1 <> Client.duplexMode s2
    /\ Client.duplexMode s2 <> Client.duplexMode s
    /\ Client.setDuplexMode (Client.duplexMode s) s1 = s
    /\ Client.setDuplexMode (Client.duplexMode s) s2 = s.
Proof.
  intros [f r g [] st u us ug fl e h]; cbn; repeat split; discriminate.
Qed.

(** X16: an empty printer address is not caught by the client.  The
    request is posted, the server refuses it before reading the file and
    submits nothing, and the client shows the message of the server
    followed by the hint about the server URL; the history and the
    success flag are left as they were and the upload indicator is
    cleared. *)
Theorem empty_printer_address_is_refused_by_server :
  forall (Page : Type) load save execute (fuel : nat)
         (generateId : string) (formatBytes : nat -> string) (now : string)
         (s : Client.State) (f : upload) (stage : Client.Stage),
    Client.file_ s = Some f ->
    Client.bad_server_url (Client.serverUrl (Client.settings s)) = false ->
    Client.printerAddress (Client.settings s) = "" ->
    @payload Page load save execute fuel (Client.formData s f stage) = Some None
    /\ exists s',
         Client.handlePrint (Client.server_fetch load save execute fuel)
           generateId formatBytes now s stage = Some s'
         /\ Client.errorMessage s'
            = Some ("Print Failed. Details: Server Response Error: Missing file or printerUrl. Check Server URL: "
                    ++ Client.serverUrl (Client.settings s))%string
         /\ Client.history s' = Client.history s
         /\ Client.uploadSuccess s' = Client.uploadSuccess s
         /\ Client.isUploading s' = false.
Proof.
  intros Page load save execute fuel generateId formatBytes now s f stage
    Hf Hb Ha.
  assert (Hh : handle load save execute fuel (Client.formData s f stage)
               = Some {| submitted := None; reply := MissingFileOrPrinterUrl |}).
  { unfold handle. cbn [Client.formData file printerUrl]. rewrite Ha. reflexivity. }
  split; [unfold payload; rewrite Hh; reflexivity|].
  unfold Client.handlePrint, Client.server_fetch. rewrite Hf, Hb, Hh.
  cbn [fmap option_fmap option_map reply Client.response_ok Client.error_field].
  eexists. split; [reflexivity|].
  assert (Hne : String.eqb (Client.serverUrl (Client.settings s)) "" = false).
  { destruct (Client.serverUrl (Client.settings s)); [discriminate Hb | reflexivity]. }
  unfold Client.printFailed.
  destruct stage, (Client.duplexMode s); cbn; rewrite Hne; repeat split.
Qed.

Lemma empty_printer_address_is_refused_by_server_witness :
  let s := {| Client.file_ := Some (Demo.pdf 2); Client.pageRange := "";
              Client.grayscale_ := false; Client.duplexMode := Client.mode_none;
              Client.settings :=
                {| Client.printerName := "Office Jet Pro";
                   Client.printerAddress := "";
                   Client.serverUrl := "http://localhost:3001" |};
              Client.isUploading := false; Client.uploadSuccess := false;
              Client.uploadStage := None; Client.showFlipPrompt := false;
              Client.errorMessage := None; Client.history := [] |} in
  payload Demo.load Demo.save Demo.execute 0
    (Client.formData s (Demo.pdf 2) Client.stage_single) = Some None
  /\ exists s',
       Client.handlePrint (Client.server_fetch Demo.load Demo.save Demo.execute 0)
         "k3j9x0a1b" (fun _ => "2 Bytes") "11/3/2026" s Client.stage_single
       = Some s'
       /\ Client.errorMessage s'
          = Some "Print Failed. Details: Server Response Error: Missing file or printerUrl. Check Server URL: http://localhost:3001"
       /\ Client.history s' = []
       /\ Client.uploadSuccess s' = false
       /\ Client.isUploading s' = false.
Proof.
  intros s.
  apply (empty_printer_address_is_refused_by_server nat Demo.load Demo.save
           Demo.execute 0 "k3j9x0a1b" (fun _ => "2 Bytes") "11/3/2026" s
           (Demo.pdf 2) Client.stage_single); reflexivity.
Defined.


